(** * SW Glenmore Wellness Clinic: billing reports

    A shallow embedding of the report code of the clinic backend:

    - [backend/clinic_api/services/reports.py]: [_sanitize_for_json],
      [ReportService.get_outstanding_balances] and
      [ReportService.get_monthly_statements];
    - [backend/app.py] and [backend_v2/main.py]: the routes
      [/statements/monthly] and [/patients/<patient_id>];
    - in the continuation of Part I,
      [ReportService.get_daily_delivery_log],
      [ReportService.get_monthly_activity_report] and the routes
      [/reports/monthly-activity], [/reports/outstanding-balances],
      [/reports/daily-delivery-log], [/prescriptions/all],
      [/prescriptions/<id>/details] and [/connect] of [backend/app.py].

    Conventions of the model.

    - Python and BSON values share one type [value].  A dictionary is an
      association list in insertion order with string keys, as BSON documents
      and JSON objects have them.
    - Numbers (Python [int] and [float], BSON int, long and double) are exact
      rationals: rounding error, infinities and NaN are outside the model.
    - A [datetime] is the number of milliseconds since the epoch, as BSON
      stores it.
    - An exception is the [Raise] case of [result]; routes run in a small
      state monad over the [world] (database and server log).
    - What the MongoDB server and the Python library decide on their own (how
      a string is parsed as a date, how a value is printed) is the [Runtime]
      interface; every theorem holds for every instance of it. *)

From Stdlib Require Import ZArith QArith Qround List String Ascii Bool Lia Lqa.
From Stdlib Require Import DecimalString.
Import ListNotations.

Open Scope string_scope.
Open Scope list_scope.
Open Scope Q_scope.
Open Scope Z_scope.

(* ===================================================================== *)
(** * Part I: definitions *)
(* ===================================================================== *)

(** ** Exceptions *)

Inductive exn : Type :=
| ValueError (msg : string)        (* Python: bad constructor argument *)
| TypeError (msg : string)         (* Python: bad operand or unhashable key *)
| OperationFailure (msg : string). (* pymongo: the server rejected the query *)

Inductive result (A : Type) : Type :=
| Ok (a : A)
| Raise (e : exn).

Arguments Ok {A} a.
Arguments Raise {A} e.

Definition bind {A B : Type} (r : result A) (k : A -> result B) : result B :=
  match r with
  | Ok a => k a
  | Raise e => Raise e
  end.

Notation "x <- c ;; k" := (bind c (fun x => k))
  (at level 61, c at next level, right associativity).

(** [for x in xs: acc = step acc x], stopping at the first exception. *)
Fixpoint for_each {A S : Type} (step : S -> A -> result S) (xs : list A) (acc : S)
  : result S :=
  match xs with
  | [] => Ok acc
  | x :: xs' => acc' <- step acc x ;; for_each step xs' acc'
  end.

(** [[f(x) for x in xs]] where [f] may raise. *)
Fixpoint map_result {A B : Type} (f : A -> result B) (xs : list A) : result (list B) :=
  match xs with
  | [] => Ok []
  | x :: xs' => y <- f x ;; ys <- map_result f xs' ;; Ok (y :: ys)
  end.

(** ** Values *)

(** [bson.decimal128.Decimal128]: a finite decimal [coefficient * 10^exponent],
    or the signalling NaN on which [float(obj.to_decimal())] raises. *)
Inductive decimal128 : Type :=
| Dec128 (coefficient exponent : Z)
| Dec128_sNaN.

(** [bson.dbref.DBRef]. *)
Record dbref : Type := mk_dbref { dbref_collection : string; dbref_id : string }.

(** [datetime.date]. *)
Record date : Type := mk_date { date_year : Z; date_month : Z; date_day : Z }.

(** [datetime.datetime] and BSON Date: milliseconds since the epoch. *)
Definition datetime : Type := Z.

Unset Elimination Schemes.

Inductive value : Type :=
| VNone                                   (* None, BSON null *)
| VBool (b : bool)
| VNum (q : Q)                            (* int, float *)
| VStr (s : string)
| VObjectId (hex : string)                (* bson.ObjectId *)
| VDBRef (r : dbref)
| VDecimal128 (d : decimal128)
| VDatetime (t : datetime)
| VDate (d : date)
| VDict (items : list (string * value))   (* dict, BSON document *)
| VList (xs : list value)
| VTuple (xs : list value)
| VSet (xs : list value).                 (* in iteration order *)

Set Elimination Schemes.

Definition dict : Type := list (string * value).

(** Induction on values, through the lists they nest. *)

Section ValueInduction.
Variable P : value -> Prop.
Hypothesis HNone : P VNone.
Hypothesis HBool : forall b, P (VBool b).
Hypothesis HNum : forall q, P (VNum q).
Hypothesis HStr : forall s, P (VStr s).
Hypothesis HObjectId : forall hex, P (VObjectId hex).
Hypothesis HDBRef : forall r, P (VDBRef r).
Hypothesis HDecimal128 : forall d, P (VDecimal128 d).
Hypothesis HDatetime : forall t, P (VDatetime t).
Hypothesis HDate : forall d, P (VDate d).
Hypothesis HDict : forall items, Forall (fun kv => P (snd kv)) items -> P (VDict items).
Hypothesis HList : forall xs, Forall P xs -> P (VList xs).
Hypothesis HTuple : forall xs, Forall P xs -> P (VTuple xs).
Hypothesis HSet : forall xs, Forall P xs -> P (VSet xs).

Fixpoint value_ind (v : value) : P v :=
  let all :=
    fix all (xs : list value) : Forall P xs :=
      match xs with
      | [] => Forall_nil P
      | x :: xs' => Forall_cons x (value_ind x) (all xs')
      end in
  match v with
  | VNone => HNone
  | VBool b => HBool b
  | VNum q => HNum q
  | VStr s => HStr s
  | VObjectId hex => HObjectId hex
  | VDBRef r => HDBRef r
  | VDecimal128 d => HDecimal128 d
  | VDatetime t => HDatetime t
  | VDate d => HDate d
  | VDict items =>
      HDict items
        ((fix fields (kvs : list (string * value)) : Forall (fun kv => P (snd kv)) kvs :=
            match kvs with
            | [] => Forall_nil _
            | kv :: kvs' => Forall_cons kv (value_ind (snd kv)) (fields kvs')
            end) items)
  | VList xs => HList xs (all xs)
  | VTuple xs => HTuple xs (all xs)
  | VSet xs => HSet xs (all xs)
  end.

End ValueInduction.

(** What the libraries decide. *)
Class Runtime : Type := {
  (* MongoDB [$toDate] on a value that is neither null nor a date; [None]
     when the server fails the conversion *)
  convert_to_date : value -> option datetime;
  (* MongoDB [$subtract] of a number of milliseconds from a date *)
  date_minus_millis : datetime -> Q -> datetime;
  (* [datetime.isoformat()], [date.isoformat()] *)
  datetime_isoformat : datetime -> string;
  date_isoformat : date -> string;
  (* [str(obj)] *)
  str_objectid : string -> string;
  str_dbref : dbref -> string;
  str_decimal128 : decimal128 -> string;
  (* [int(s)] on a query parameter, [None] on a [ValueError] *)
  py_int : string -> option Z;
  (* [traceback.format_exc()] while the exception is handled *)
  traceback_format_exc : exn -> string
}.

(** ** Python dictionaries *)

(** [d.get(k)] as an option. *)
Fixpoint lookup (k : string) (d : dict) : option value :=
  match d with
  | [] => None
  | (k', v) :: d' => if String.eqb k k' then Some v else lookup k d'
  end.

(** [d.get(k)]: [None] when the key is absent. *)
Definition dict_get (k : string) (d : dict) : value :=
  match lookup k d with
  | Some v => v
  | None => VNone
  end.

(** [d[k] = v]: overwrite in place, or append. *)
Fixpoint dict_set (k : string) (v : value) (d : dict) : dict :=
  match d with
  | [] => [(k, v)]
  | (k', v') :: d' =>
      if String.eqb k k' then (k, v) :: d' else (k', v') :: dict_set k v d'
  end.

(** ** [_sanitize_for_json] *)

Definition float_of_decimal128 (d : decimal128) : option Q :=
  match d with
  | Dec128 c e => Some (inject_Z c * Qpower (10 # 1) e)%Q
  | Dec128_sNaN => None
  end.

Section Sanitize.
Context {rt : Runtime}.

Fixpoint _sanitize_for_json (obj : value) : value :=
  match obj with
  | VObjectId hex => VStr (str_objectid hex)
  | VDBRef r => VStr (str_dbref r)
  | VDecimal128 d =>
      match float_of_decimal128 d with
      | Some q => VNum q
      | None => VStr (str_decimal128 d)
      end
  | VDatetime t => VStr (datetime_isoformat t)
  | VDate d => VStr (date_isoformat d)
  | VDict items =>
      (* new = {}; for k, v in obj.items(): skip '_id', new[k] = ... *)
      VDict (fold_left
               (fun new kv =>
                  if String.eqb (fst kv) "_id" then new
                  else dict_set (fst kv) (_sanitize_for_json (snd kv)) new)
               items [])
  | VList xs => VList (map _sanitize_for_json xs)
  | VTuple xs => VList (map _sanitize_for_json xs)
  | VSet xs => VList (map _sanitize_for_json xs)
  | VNone => VNone
  | VBool b => VBool b
  | VNum q => VNum q
  | VStr s => VStr s
  end.

End Sanitize.

(** ** BSON values as MongoDB compares them *)

(** A number, whatever its BSON type. *)
Definition num_of (v : value) : option Q :=
  match v with
  | VNum q => Some q
  | VDecimal128 d => float_of_decimal128 d
  | _ => None
  end.

(** The result of an expression: [None] when a field path is missing. *)
Definition operand : Type := option value.

(** The server's canonical type order (missing < null < numbers < strings <
    documents < arrays < ObjectId < booleans < dates < DBRef).  Python tuples
    are stored as arrays; sets and plain dates are never stored. *)
Definition bson_rank (x : operand) : Z :=
  match x with
  | None => 0
  | Some VNone => 5
  | Some (VNum _) | Some (VDecimal128 _) => 10
  | Some (VStr _) => 15
  | Some (VDict _) => 20
  | Some (VList _) | Some (VTuple _) => 25
  | Some (VObjectId _) => 35
  | Some (VBool _) => 40
  | Some (VDatetime _) => 45
  | Some (VDBRef _) => 55
  | Some (VDate _) | Some (VSet _) => 127
  end.

Definition then_compare (c : comparison) (d : comparison) : comparison :=
  match c with
  | Eq => d
  | _ => c
  end.

Fixpoint bson_compare (a b : value) {struct a} : comparison :=
  then_compare (Z.compare (bson_rank (Some a)) (bson_rank (Some b)))
    match a, b with
    | VNum _, _ | VDecimal128 _, _ =>
        match num_of a, num_of b with
        | Some p, Some q => Qcompare p q
        | _, _ => Eq
        end
    | VStr s, VStr t => String.compare s t
    | VObjectId s, VObjectId t => String.compare s t
    | VBool x, VBool y => Bool.compare x y
    | VDatetime t, VDatetime u => Z.compare t u
    | VDBRef r, VDBRef s =>
        then_compare (String.compare (dbref_collection r) (dbref_collection s))
                     (String.compare (dbref_id r) (dbref_id s))
    | VDict xs, VDict ys =>
        (fix fields (xs ys : list (string * value)) {struct xs} : comparison :=
           match xs, ys with
           | [], [] => Eq
           | [], _ :: _ => Lt
           | _ :: _, [] => Gt
           | (k, v) :: xs', (l, w) :: ys' =>
               then_compare (Z.compare (bson_rank (Some v)) (bson_rank (Some w)))
                 (then_compare (String.compare k l)
                    (then_compare (bson_compare v w) (fields xs' ys')))
           end) xs ys
    | VList xs, VList ys | VList xs, VTuple ys
    | VTuple xs, VList ys | VTuple xs, VTuple ys =>
        (fix elements (xs ys : list value) {struct xs} : comparison :=
           match xs, ys with
           | [], [] => Eq
           | [], _ :: _ => Lt
           | _ :: _, [] => Gt
           | v :: xs', w :: ys' => then_compare (bson_compare v w) (elements xs' ys')
           end) xs ys
    | _, _ => Eq
    end.

(** Comparison of expression results: a missing field sorts first. *)
Definition operand_compare (x y : operand) : comparison :=
  match x, y with
  | Some a, Some b => bson_compare a b
  | _, _ => Z.compare (bson_rank x) (bson_rank y)
  end.

Definition bson_eqb (a b : value) : bool :=
  match bson_compare a b with
  | Eq => true
  | _ => false
  end.

Definition Qlt_bool (p q : Q) : bool := negb (Qle_bool q p).

(** ** MongoDB collections and aggregation *)

Definition database : Type := list (string * list dict).

(** [db.<name>]: a collection that was never written to is empty. *)
Fixpoint collection (db : database) (name : string) : list dict :=
  match db with
  | [] => []
  | (n, docs) :: db' => if String.eqb name n then docs else collection db' name
  end.

(** *** Query operators of [$match] *)

(** The values a query operator tests for a field: the value itself and, for
    an array, each of its elements; null when the field is missing. *)
Definition query_values (k : string) (d : dict) : list value :=
  match lookup k d with
  | None => [VNone]
  | Some (VList xs) => VList xs :: xs
  | Some v => [v]
  end.

Definition q_eq (k : string) (x : value) (d : dict) : bool :=
  existsb (fun v => bson_eqb v x) (query_values k d).

(** [{k: {"$ne": x}}] *)
Definition q_ne (k : string) (x : value) (d : dict) : bool := negb (q_eq k x d).

(** [{k: {"$gt": q}}] for a number [q]: only numbers compare with a number. *)
Definition q_gt (k : string) (q : Q) (d : dict) : bool :=
  existsb (fun v => match num_of v with
                    | Some p => Qlt_bool q p
                    | None => false
                    end) (query_values k d).

(** [{k: {"$gte": t}}] and [{k: {"$lt": t}}] for a date [t]: only dates
    compare with a date. *)
Definition q_gte_date (k : string) (t : datetime) (d : dict) : bool :=
  existsb (fun v => match v with
                    | VDatetime u => t <=? u
                    | _ => false
                    end) (query_values k d).

Definition q_lt_date (k : string) (t : datetime) (d : dict) : bool :=
  existsb (fun v => match v with
                    | VDatetime u => u <? t
                    | _ => false
                    end) (query_values k d).

(** Several conditions in one [$match]. *)
Definition q_and (ps : list (dict -> bool)) (d : dict) : bool :=
  forallb (fun p => p d) ps.

(** *** Aggregation expressions *)

Definition expr : Type := dict -> result operand.

Definition nullish (x : operand) : bool :=
  match x with
  | None | Some VNone => true
  | _ => false
  end.

(** The sum of the numbers of a list; other values are ignored. *)
Fixpoint sum_numbers (xs : list value) : Q :=
  match xs with
  | [] => 0
  | v :: xs' =>
      match num_of v with
      | Some q => q + sum_numbers xs'
      | None => sum_numbers xs'
      end
  end.

Section Expressions.
Context {rt : Runtime}.

(** ["$k"] *)
Definition E_field (k : string) : expr := fun d => Ok (lookup k d).

(** ["$k1.k2"]: through an embedded document, or through each document of
    an array. *)
Definition E_path (k1 k2 : string) : expr := fun d =>
  Ok match lookup k1 d with
     | Some (VDict sub) => lookup k2 sub
     | Some (VList xs) =>
         Some (VList (flat_map (fun x => match x with
                                         | VDict sub =>
                                             match lookup k2 sub with
                                             | Some v => [v]
                                             | None => []
                                             end
                                         | _ => []
                                         end) xs))
     | _ => None
     end.

(** A constant, or a variable bound by [let]. *)
Definition E_const (x : operand) : expr := fun _ => Ok x.

(** [{"$toDate": e}] *)
Definition E_toDate (e : expr) : expr := fun d =>
  x <- e d ;;
  match x with
  | None | Some VNone => Ok (Some VNone)
  | Some (VDatetime t) => Ok (Some (VDatetime t))
  | Some v =>
      match convert_to_date v with
      | Some t => Ok (Some (VDatetime t))
      | None => Raise (OperationFailure "$toDate: conversion failed")
      end
  end.

(** [{"$sum": e}] outside [$group]: the numbers of an array, or the number
    itself; anything else counts for nothing. *)
Definition E_sum (e : expr) : expr := fun d =>
  x <- e d ;;
  Ok (Some (VNum match x with
                 | Some (VList xs) => sum_numbers xs
                 | Some v => match num_of v with
                             | Some q => q
                             | None => 0
                             end
                 | None => 0
                 end)).

(** [{"$subtract": [e1, e2]}] *)
Definition E_subtract (e1 e2 : expr) : expr := fun d =>
  x <- e1 d ;;
  y <- e2 d ;;
  match x, y with
  | Some a, Some b =>
      match num_of a, num_of b with
      | Some p, Some q => Ok (Some (VNum (p - q)))
      | _, _ =>
          if nullish x || nullish y then Ok (Some VNone)
          else match a, b with
               | VDatetime t, VDatetime u => Ok (Some (VNum (inject_Z (t - u))))
               | VDatetime t, _ =>
                   match num_of b with
                   | Some q => Ok (Some (VDatetime (date_minus_millis t q)))
                   | None => Raise (OperationFailure "$subtract: bad operand types")
                   end
               | _, _ => Raise (OperationFailure "$subtract: bad operand types")
               end
      end
  | _, _ => Ok (Some VNone)
  end.

(** [{"$concat": es}]: null at the first null or missing operand. *)
Fixpoint concat_from (acc : string) (es : list expr) (d : dict) : result operand :=
  match es with
  | [] => Ok (Some (VStr acc))
  | e :: es' =>
      x <- e d ;;
      match x with
      | None | Some VNone => Ok (Some VNone)
      | Some (VStr s) => concat_from (acc ++ s)%string es' d
      | Some _ => Raise (OperationFailure "$concat: only strings")
      end
  end.

Definition E_concat (es : list expr) : expr := concat_from "" es.

(** Truth of an expression result. *)
Definition coerce_bool (x : operand) : bool :=
  match x with
  | None | Some VNone => false
  | Some (VBool b) => b
  | Some v => match num_of v with
              | Some q => negb (Qeq_bool q 0)
              | None => true
              end
  end.

(** [{"$eq": [e1, e2]}] and [{"$lte": [e1, e2]}] *)
Definition E_eq (e1 e2 : expr) : expr := fun d =>
  x <- e1 d ;;
  y <- e2 d ;;
  Ok (Some (VBool match operand_compare x y with
                  | Eq => true
                  | _ => false
                  end)).

Definition E_lte (e1 e2 : expr) : expr := fun d =>
  x <- e1 d ;;
  y <- e2 d ;;
  Ok (Some (VBool match operand_compare x y with
                  | Gt => false
                  | _ => true
                  end)).

(** [{"$and": es}]: stops at the first false operand. *)
Fixpoint E_and (es : list expr) : expr := fun d =>
  match es with
  | [] => Ok (Some (VBool true))
  | e :: es' =>
      x <- e d ;;
      if coerce_bool x then E_and es' d else Ok (Some (VBool false))
  end.

End Expressions.

(** *** Pipeline stages *)

Definition stage : Type := database -> list dict -> result (list dict).

Fixpoint run (pipeline : list stage) (db : database) (docs : list dict)
  : result (list dict) :=
  match pipeline with
  | [] => Ok docs
  | s :: pipeline' => docs' <- s db docs ;; run pipeline' db docs'
  end.

(** [db.<name>.aggregate(pipeline)], consumed by [list(...)]. *)
Definition aggregate (db : database) (name : string) (pipeline : list stage)
  : result (list dict) :=
  run pipeline db (collection db name).

Fixpoint dict_remove (k : string) (d : dict) : dict :=
  match d with
  | [] => []
  | (k', v) :: d' => if String.eqb k k' then dict_remove k d' else (k', v) :: dict_remove k d'
  end.

(** Assign the computed fields: every expression reads the incoming document
    [d]; a missing result removes the field. *)
Definition assign_fields (fields : list (string * expr)) (d : dict) (start : dict)
  : result dict :=
  for_each (fun new f =>
              x <- snd f d ;;
              Ok match x with
                 | Some v => dict_set (fst f) v new
                 | None => dict_remove (fst f) new
                 end) fields start.

(** The equality match of [$lookup]: a missing local field counts as null, an
    array-valued local field matches through each of its elements, and the
    foreign field is tested as a query does. *)
Definition join_eq (localField foreignField : string) (d f : dict) : bool :=
  existsb (fun x => q_eq foreignField x f)
          match lookup localField d with
          | None => [VNone]
          | Some (VList xs) => xs
          | Some v => [v]
          end.

(** [{"$match": q}] *)
Definition S_match (q : dict -> bool) : stage := fun _ docs => Ok (filter q docs).

(** [{"$addFields": fields}] *)
Definition S_addFields (fields : list (string * expr)) : stage := fun _ docs =>
  map_result (fun d => assign_fields fields d d) docs.

(** [{"$lookup": {"from", "localField", "foreignField", "as"}}] *)
Definition S_lookup (from localField foreignField as_ : string) : stage := fun db docs =>
  Ok (map (fun d =>
             dict_set as_
               (VList (map VDict (filter (join_eq localField foreignField d)
                                         (collection db from)))) d) docs).

(** [{"$lookup": {"from", "let", "pipeline", "as"}}] with one variable. *)
Definition S_lookup_pipeline (from : string) (let_ : expr)
    (pipeline : operand -> list stage) (as_ : string) : stage := fun db docs =>
  map_result (fun d =>
                x <- let_ d ;;
                found <- run (pipeline x) db (collection db from) ;;
                Ok (dict_set as_ (VList (map VDict found)) d)) docs.

(** [{"$match": {"$expr": e}}] *)
Definition S_match_expr (e : expr) : stage := fun _ docs =>
  kept <- map_result (fun d => x <- e d ;; Ok (coerce_bool x, d)) docs ;;
  Ok (map snd (filter fst kept)).

(** [{"$unwind": "$k"}]: one document per element; none for an empty array,
    null or a missing field. *)
Definition unwind (k : string) (d : dict) : list dict :=
  match lookup k d with
  | Some (VList xs) => map (fun x => dict_set k x d) xs
  | None | Some VNone => []
  | Some _ => [d]
  end.

Definition S_unwind (k : string) : stage := fun _ docs => Ok (flat_map (unwind k) docs).

(** [{"$project": {k: 1, ...}}]: the listed fields and [_id]. *)
Definition S_project_fields (ks : list string) : stage := fun _ docs =>
  Ok (map (filter (fun kv => String.eqb (fst kv) "_id"
                             || existsb (String.eqb (fst kv)) ks)) docs).

(** [{"$project": {k: e, ...}}]: [_id] and the computed fields. *)
Definition S_project (fields : list (string * expr)) : stage := fun _ docs =>
  map_result (fun d =>
                assign_fields fields d
                  match lookup "_id" d with
                  | Some v => [("_id", v)]
                  | None => []
                  end) docs.

(** ** Python operators *)

(** Truth of a value, as [x or y] and [not x] test it. *)
Definition truthy (v : value) : bool :=
  match v with
  | VNone => false
  | VBool b => b
  | VNum q => negb (Qeq_bool q 0)
  | VStr s => negb (String.eqb s "")
  | VDict items => match items with [] => false | _ => true end
  | VList xs | VTuple xs | VSet xs => match xs with [] => false | _ => true end
  | _ => true
  end.

(** [x or y] *)
Definition py_or (x y : value) : value := if truthy x then x else y.

(** [acc += x] for a float [acc]: numbers and booleans add, anything else is
    a [TypeError]. *)
Definition float_add (acc : Q) (x : value) : result Q :=
  match x with
  | VNum q => Ok (acc + q)%Q
  | VBool b => Ok (acc + (if b then 1 else 0))%Q
  | _ => Raise (TypeError "unsupported operand type(s) for +=")
  end.

(** Dictionaries, lists and sets cannot be dictionary keys. *)
Definition hashable (v : value) : bool :=
  match v with
  | VDict _ | VList _ | VSet _ => false
  | _ => true
  end.

Definition py_number (v : value) : option Q :=
  match v with
  | VNum q => Some q
  | VBool b => Some (if b then 1 else 0)%Q
  | _ => None
  end.

(** [a == b] on dictionary keys: numbers and booleans by value. *)
Fixpoint key_eqb (a b : value) {struct a} : bool :=
  match py_number a, py_number b with
  | Some p, Some q => Qeq_bool p q
  | None, None =>
      match a, b with
      | VNone, VNone => true
      | VStr s, VStr t => String.eqb s t
      | VObjectId s, VObjectId t => String.eqb s t
      | VDatetime t, VDatetime u => t =? u
      | VDate d, VDate e =>
          (date_year d =? date_year e) && (date_month d =? date_month e)
          && (date_day d =? date_day e)
      | VDBRef r, VDBRef s =>
          String.eqb (dbref_collection r) (dbref_collection s)
          && String.eqb (dbref_id r) (dbref_id s)
      | VDecimal128 (Dec128 c e), VDecimal128 (Dec128 c' e') => (c =? c') && (e =? e')
      | VDecimal128 Dec128_sNaN, VDecimal128 Dec128_sNaN => true
      | VTuple xs, VTuple ys =>
          (fix elements (xs ys : list value) {struct xs} : bool :=
             match xs, ys with
             | [], [] => true
             | v :: xs', w :: ys' => key_eqb v w && elements xs' ys'
             | _, _ => false
             end) xs ys
      | _, _ => false
      end
  | _, _ => false
  end.

(** [round(x)] and [round(x, ndigits)]: to the nearest, ties to even. *)
Definition round_half_even (x : Q) : Z :=
  let f := Qfloor x in
  match Qcompare (x - inject_Z f)%Q (1 # 2)%Q with
  | Lt => f
  | Gt => f + 1
  | Eq => if Z.even f then f else f + 1
  end.

Definition py_round (x : Q) (ndigits : Z) : Q :=
  let scale := inject_Z (10 ^ ndigits) in
  (inject_Z (round_half_even (x * scale)) / scale)%Q.

(** [str(n)] for an int. *)
Definition str_int (n : Z) : string := NilZero.string_of_int (Z.to_int n).

(** [datetime(year, month, day)], as the driver sends it to the server. *)
Definition is_leap (y : Z) : bool :=
  (y mod 4 =? 0) && (negb (y mod 100 =? 0) || (y mod 400 =? 0)).

Definition days_in_month (y m : Z) : Z :=
  if m =? 2 then (if is_leap y then 29 else 28)
  else if (m =? 4) || (m =? 6) || (m =? 9) || (m =? 11) then 30
  else 31.

Definition days_from_civil (y m d : Z) : Z :=
  let y' := if m <=? 2 then y - 1 else y in
  let era := y' / 400 in
  let yoe := y' - era * 400 in
  let mp := (m + 9) mod 12 in
  let doy := (153 * mp + 2) / 5 + d - 1 in
  let doe := yoe * 365 + yoe / 4 - yoe / 100 + doy in
  era * 146097 + doe - 719468.

Definition datetime_new (year month day : Z) : result datetime :=
  if negb ((1 <=? year) && (year <=? 9999))
  then Raise (ValueError "year is out of range")
  else if negb ((1 <=? month) && (month <=? 12))
  then Raise (ValueError "month must be in 1..12")
  else if negb ((1 <=? day) && (day <=? days_in_month year month))
  then Raise (ValueError "day is out of range for month")
  else Ok (days_from_civil year month day * 86400000).

(** ** [clinic_api/services/reports.py]: [ReportService] *)

(** A per-patient statement, the dictionary built by the grouping loop. *)
Record statement : Type := mk_statement {
  st_patient_id : value;
  st_patient_name : value;
  st_invoices : list dict;
  st_total_invoiced : Q;
  st_payments_received : Q;
  st_balance : Q
}.

(** The totals of one bucket. *)
Record totals : Type := mk_totals {
  total_invoiced : Q;
  payments_received : Q;
  balance : Q
}.

(** The state of the classification loop. *)
Record buckets : Type := mk_buckets {
  paid_list : list statement;
  unpaid_list : list statement;
  totals_paid : totals;
  totals_unpaid : totals
}.

Module ReportService.
Section ReportService.
Context {rt : Runtime}.

Definition outstanding_pipeline : list stage :=
  [ S_match (q_ne "status" (VStr "paid"));
    S_lookup "Patient" "patient_id" "patient_id" "patient";
    S_unwind "patient";
    S_lookup "Payment" "invoice_id" "invoice_id" "payments";
    S_project
      [ ("patient_name",
          E_concat [E_path "patient" "first_name"; E_const (Some (VStr " "));
                    E_path "patient" "last_name"]);
        ("patient_id", E_field "patient_id");
        ("invoice_id", E_field "invoice_id");
        ("total_amount", E_field "total_amount");
        ("patient_portion", E_field "patient_portion");
        ("total_paid", E_sum (E_path "payments" "amount"));
        ("balance_due",
          E_subtract (E_field "patient_portion") (E_sum (E_path "payments" "amount"))) ];
    S_match (q_gt "balance_due" 0) ].

Definition get_outstanding_balances (db : database) : result (list dict) :=
  aggregate db "Invoice" outstanding_pipeline.

Definition monthly_pipeline (start_date end_date : datetime) : list stage :=
  [ S_addFields [ ("invoice_date_dt", E_toDate (E_field "invoice_date")) ];
    S_match (q_and [ q_gte_date "invoice_date_dt" start_date;
                     q_lt_date "invoice_date_dt" end_date ]);
    S_lookup "Patient" "patient_id" "patient_id" "patient";
    S_unwind "patient";
    S_lookup_pipeline "Payment" (E_field "invoice_id")
      (fun inv =>
         [ S_match_expr
             (E_and [ E_eq (E_field "invoice_id") (E_const inv);
                      E_lte (E_toDate (E_field "payment_date"))
                            (E_const (Some (VDatetime end_date))) ]) ])
      "payments";
    S_lookup "InvoiceLine" "invoice_id" "invoice_id" "lines";
    S_addFields
      [ ("total_paid", E_sum (E_path "payments" "amount"));
        ("balance_due",
          E_subtract (E_field "patient_portion") (E_sum (E_path "payments" "amount")));
        ("patient_name",
          E_concat [E_path "patient" "first_name"; E_const (Some (VStr " "));
                    E_path "patient" "last_name"]) ];
    S_project_fields
      [ "invoice_id"; "invoice_date"; "invoice_date_dt"; "patient_id";
        "patient_name"; "total_amount"; "patient_portion"; "total_paid";
        "balance_due"; "lines"; "payments" ] ].

(** [[_sanitize_for_json(inv) for inv in invoices]]: each row is a
    dictionary and stays one. *)
Definition sanitize_doc (inv : dict) : dict :=
  match _sanitize_for_json (VDict inv) with
  | VDict new => new
  | _ => []
  end.

(** The dictionary a patient starts with. *)
Definition new_statement (pid : value) (inv : dict) : statement :=
  {| st_patient_id := pid;
     st_patient_name := dict_get "patient_name" inv;
     st_invoices := [];
     st_total_invoiced := 0;
     st_payments_received := 0;
     st_balance := 0 |}.

(** The dictionary appended to [patients[pid]['invoices']]. *)
Definition invoice_entry (inv : dict) : dict :=
  [ ("invoice_id", dict_get "invoice_id" inv);
    ("invoice_date", dict_get "invoice_date" inv);
    ("total_amount", dict_get "total_amount" inv);
    ("patient_portion", dict_get "patient_portion" inv);
    ("total_paid", py_or (dict_get "total_paid" inv) (VNum 0));
    ("balance_due", py_or (dict_get "balance_due" inv) (VNum 0));
    ("lines", py_or (dict_get "lines" inv) (VList []));
    ("payments", py_or (dict_get "payments" inv) (VList [])) ].

(** The body of the grouping loop after [patients[pid]] exists. *)
Definition add_invoice (p : statement) (inv : dict) : result statement :=
  let invoices := st_invoices p ++ [invoice_entry inv] in
  total_invoiced <-
    float_add (st_total_invoiced p) (py_or (dict_get "patient_portion" inv) (VNum 0)) ;;
  payments_received <-
    float_add (st_payments_received p) (py_or (dict_get "total_paid" inv) (VNum 0)) ;;
  balance <-
    float_add (st_balance p) (py_or (dict_get "balance_due" inv) (VNum 0)) ;;
  Ok {| st_patient_id := st_patient_id p;
        st_patient_name := st_patient_name p;
        st_invoices := invoices;
        st_total_invoiced := total_invoiced;
        st_payments_received := payments_received;
        st_balance := balance |}.

(** [pid in patients] *)
Definition key_in (pid : value) (patients : list (value * statement)) : bool :=
  existsb (fun kp => key_eqb (fst kp) pid) patients.

(** Run [f] on [patients[pid]], in place. *)
Fixpoint update_patient (pid : value) (f : statement -> result statement)
    (patients : list (value * statement)) : result (list (value * statement)) :=
  match patients with
  | [] => Ok []
  | (k, p) :: rest =>
      if key_eqb k pid then p' <- f p ;; Ok ((k, p') :: rest)
      else rest' <- update_patient pid f rest ;; Ok ((k, p) :: rest')
  end.

(** One turn of [for inv in invoices]. *)
Definition group_step (patients : list (value * statement)) (inv : dict)
  : result (list (value * statement)) :=
  let pid := dict_get "patient_id" inv in
  if hashable pid then
    let patients :=
      if key_in pid patients then patients
      else patients ++ [(pid, new_statement pid inv)] in
    update_patient pid (fun p => add_invoice p inv) patients
  else Raise (TypeError "unhashable type").

Definition group_by_patient (invoices : list dict) : result (list (value * statement)) :=
  for_each group_step invoices [].

Definition add_totals (t : totals) (p : statement) : totals :=
  {| total_invoiced := total_invoiced t + st_total_invoiced p;
     payments_received := payments_received t + st_payments_received p;
     balance := balance t + st_balance p |}.

Definition zero_totals : totals :=
  {| total_invoiced := 0; payments_received := 0; balance := 0 |}.

(** One turn of [for p in patients.values()]. *)
Definition classify_step (b : buckets) (p : statement) : buckets :=
  if Qle_bool (py_round (st_balance p) 2) 0 then
    {| paid_list := paid_list b ++ [p];
       unpaid_list := unpaid_list b;
       totals_paid := add_totals (totals_paid b) p;
       totals_unpaid := totals_unpaid b |}
  else
    {| paid_list := paid_list b;
       unpaid_list := unpaid_list b ++ [p];
       totals_paid := totals_paid b;
       totals_unpaid := add_totals (totals_unpaid b) p |}.

Definition classify (patients : list (value * statement)) : buckets :=
  fold_left classify_step (map snd patients)
    {| paid_list := []; unpaid_list := [];
       totals_paid := zero_totals; totals_unpaid := zero_totals |}.

Definition statement_value (p : statement) : value :=
  VDict [ ("patient_id", st_patient_id p);
          ("patient_name", st_patient_name p);
          ("invoices", VList (map VDict (st_invoices p)));
          ("total_invoiced", VNum (st_total_invoiced p));
          ("payments_received", VNum (st_payments_received p));
          ("balance", VNum (st_balance p)) ].

Definition totals_value (t : totals) : value :=
  VDict [ ("total_invoiced", VNum (total_invoiced t));
          ("payments_received", VNum (payments_received t));
          ("balance", VNum (balance t)) ].

(** The dictionary [result] before the last sanitizing. *)
Definition report_value (month year : Z) (b : buckets) : value :=
  VDict
    [ ("month", VStr (str_int month ++ "/" ++ str_int year));
      ("summary",
        VDict
          [ ("paid",
              VDict [ ("patients", VList (map statement_value (paid_list b)));
                      ("totals", totals_value (totals_paid b)) ]);
            ("unpaid",
              VDict [ ("patients", VList (map statement_value (unpaid_list b)));
                      ("totals", totals_value (totals_unpaid b)) ]) ]) ].

(** [start_date] and [end_date]. *)
Definition month_range (month year : Z) : result (datetime * datetime) :=
  start_date <- datetime_new year month 1 ;;
  end_date <- (if month =? 12 then datetime_new (year + 1) 1 1
               else datetime_new year (month + 1) 1) ;;
  Ok (start_date, end_date).

Definition get_monthly_statements (db : database) (month year : Z) : result value :=
  range <- month_range month year ;;
  invoices <- aggregate db "Invoice" (monthly_pipeline (fst range) (snd range)) ;;
  let invoices := map sanitize_doc invoices in
  patients <- group_by_patient invoices ;;
  Ok (_sanitize_for_json (report_value month year (classify patients))).

End ReportService.
End ReportService.

(** ** The routes *)

(** The query string of a request, a response, and what a route can touch. *)
Record request : Type := mk_request { args : list (string * string) }.

Record response : Type := mk_response { status : Z; body : value }.

Record world : Type := mk_world { w_db : database; w_log : list string }.

(** A route: it may raise, and it may change the world. *)
Definition M (A : Type) : Type := world -> result A * world.

Definition ret {A : Type} (a : A) : M A := fun w => (Ok a, w).

Definition bindM {A B : Type} (c : M A) (k : A -> M B) : M B := fun w =>
  match c w with
  | (Ok a, w') => k a w'
  | (Raise e, w') => (Raise e, w')
  end.

Notation "x <~ c ;; k" := (bindM c (fun x => k))
  (at level 61, c at next level, right associativity).

(** A computation that only may raise. *)
Definition lift {A : Type} (r : result A) : M A := fun w => (r, w).

(** [try: body except Exception as e: handler(e)] *)
Definition try_except {A : Type} (body : M A) (handler : exn -> M A) : M A := fun w =>
  match body w with
  | (Ok a, w') => (Ok a, w')
  | (Raise e, w') => handler e w'
  end.

(** [Database.get_db()] *)
Definition get_db : M database := fun w => (Ok (w_db w), w).

(** [logger.exception(msg)] *)
Definition logger_exception (msg : string) : M unit := fun w =>
  (Ok tt, {| w_db := w_db w; w_log := w_log w ++ [msg] |}).

(** The values [json.dumps] encodes without a custom encoder. *)
Fixpoint json_serializable (v : value) : bool :=
  match v with
  | VNone | VBool _ | VNum _ | VStr _ => true
  | VDict items => forallb (fun kv => json_serializable (snd kv)) items
  | VList xs | VTuple xs => forallb json_serializable xs
  | _ => false
  end.

(** [jsonify(v)]: the body of a response.  (Flask's encoder also accepts dates
    and decimals; no route below hands it one.) *)
Definition jsonify (v : value) : result value :=
  if json_serializable v then Ok v
  else Raise (TypeError "Object is not JSON serializable").

Definition str_exn (e : exn) : string :=
  match e with
  | ValueError msg | TypeError msg | OperationFailure msg => msg
  end.

Section Routes.
Context {rt : Runtime}.

(** [request.args.get(k, type=int)] *)
Definition args_get_int (k : string) (req : request) : option Z :=
  match find (fun kv => String.eqb (fst kv) k) (args req) with
  | Some kv => py_int (snd kv)
  | None => None
  end.

(** [not n] for an optional int. *)
Definition not_int (n : option Z) : bool :=
  match n with
  | None => true
  | Some z => z =? 0
  end.

End Routes.

(** [backend/app.py] *)
Module App.
Section App.
Context {rt : Runtime}.

(** [handle_error]: the generic error handler. *)
Definition handle_error (e : exn) : M response :=
  b <~ lift (jsonify (VDict [("error", VStr (str_exn e))])) ;;
  ret {| status := 500; body := b |}.

(** [GET /statements/monthly] *)
Definition get_monthly_statements (req : request) : M response :=
  try_except
    (let month := args_get_int "month" req in
     let year := args_get_int "year" req in
     if not_int month || not_int year then
       b <~ lift (jsonify (VDict [("error", VStr "Month and Year required")])) ;;
       ret {| status := 400; body := b |}
     else
       match month, year with
       | Some m, Some y =>
           db <~ get_db ;;
           results <~ lift (ReportService.get_monthly_statements db m y) ;;
           results <~ try_except
                        (ret (_sanitize_for_json results))
                        (fun _ =>
                           _ <~ logger_exception
                                  "Failed to sanitize monthly statements result" ;;
                           ret results) ;;
           b <~ lift (jsonify results) ;;
           ret {| status := 200; body := b |}
       | _, _ =>
           (* excluded by the test above: [datetime(None, ...)] *)
           lift (Raise (TypeError "an integer is required"))
       end)
    (fun e =>
       _ <~ logger_exception "Error in /statements/monthly" ;;
       let tb := traceback_format_exc e in
       b <~ lift (jsonify (VDict [ ("error", VStr "internal server error");
                                   ("detail", VStr (str_exn e));
                                   ("trace", VStr tb) ])) ;;
       ret {| status := 500; body := b |}).

End App.
End App.

(** ** [GET /patients/<patient_id>] *)

(** Modelled from the spec: [PatientCRUD.get] (module
    [clinic_api/services/patient.py], [crud_patient.py] for the second
    backend) is not among the sources.  The spec describes every such
    endpoint as "direct pass-through CRUD (one collection, one filter, return
    JSON)": the lookup is [find_one] on the [Patient] collection with the
    single filter [{"patient_id": patient_id}]. *)
Module PatientCRUD.

Definition get (db : database) (patient_id : Z) : option dict :=
  find (q_eq "patient_id" (VNum (inject_Z patient_id))) (collection db "Patient").

End PatientCRUD.

Section PatientModel.
Context {rt : Runtime}.

(** Modelled from the spec: the [Patient] model ([clinic_api/models]) is not
    among the sources; "return JSON": the fields of the record found, as
    JSON values. *)
Definition model_dump (patient : dict) : value := _sanitize_for_json (VDict patient).

End PatientModel.

(** [backend/app.py], continued *)
Module AppPatients.
Section AppPatients.
Context {rt : Runtime}.

Definition get_patient (patient_id : Z) : M response :=
  db <~ get_db ;;
  match PatientCRUD.get db patient_id with
  | None =>
      b <~ lift (jsonify (VDict [("error", VStr "Patient not found")])) ;;
      ret {| status := 404; body := b |}
  | Some patient =>
      b <~ lift (jsonify (model_dump patient)) ;;
      ret {| status := 200; body := b |}
  end.

End AppPatients.
End AppPatients.

(** [backend_v2/main.py] *)
Module MainV2.
Section MainV2.
Context {rt : Runtime}.

(** [raise HTTPException(status_code, detail)], as FastAPI answers it. *)
Definition http_exception (status_code : Z) (detail : string) : response :=
  {| status := status_code; body := VDict [("detail", VStr detail)] |}.

Definition get_patient (patient_id : Z) : M response :=
  db <~ get_db ;;
  match PatientCRUD.get db patient_id with
  | None => ret (http_exception 404 "Patient not found")
  | Some patient => ret {| status := 200; body := model_dump patient |}
  end.

End MainV2.
End MainV2.

(** ** A concrete runtime

    ISO-8601 strings as the backend writes them ([YYYY-MM-DD] and
    [YYYY-MM-DDTHH:MM:SS]), used to run the model on sample data. *)

Module Iso.

Definition digit_of (c : ascii) : option Z :=
  let n := Z.of_nat (nat_of_ascii c) in
  if (48 <=? n) && (n <=? 57) then Some (n - 48) else None.

Fixpoint digits_from (acc : Z) (s : string) : option Z :=
  match s with
  | EmptyString => Some acc
  | String c s' =>
      match digit_of c with
      | Some d => digits_from (10 * acc + d) s'
      | None => None
      end
  end.

(** A non-empty run of decimal digits. *)
Definition number (s : string) : option Z :=
  match s with
  | EmptyString => None
  | _ => digits_from 0 s
  end.

Definition check (b : bool) : option unit := if b then Some tt else None.

Definition opt_bind {A B : Type} (x : option A) (k : A -> option B) : option B :=
  match x with
  | Some a => k a
  | None => None
  end.

Definition parse_date (s : string) : option Z :=
  opt_bind (number (substring 0 4 s)) (fun y =>
  opt_bind (check (String.eqb (substring 4 1 s) "-")) (fun _ =>
  opt_bind (number (substring 5 2 s)) (fun m =>
  opt_bind (check (String.eqb (substring 7 1 s) "-")) (fun _ =>
  opt_bind (number (substring 8 2 s)) (fun d =>
  opt_bind (check ((1 <=? m) && (m <=? 12) && (1 <=? d) && (d <=? days_in_month y m)))
    (fun _ => Some (days_from_civil y m d))))))).

Definition parse_time (s : string) : option Z :=
  opt_bind (number (substring 0 2 s)) (fun h =>
  opt_bind (check (String.eqb (substring 2 1 s) ":")) (fun _ =>
  opt_bind (number (substring 3 2 s)) (fun m =>
  opt_bind (check (String.eqb (substring 5 1 s) ":")) (fun _ =>
  opt_bind (number (substring 6 2 s)) (fun sec =>
  opt_bind (check ((h <? 24) && (m <? 60) && (sec <? 60))) (fun _ =>
  Some (((h * 60 + m) * 60 + sec) * 1000))))))).

Definition parse_datetime (s : string) : option datetime :=
  match String.length s with
  | 10%nat => opt_bind (parse_date s) (fun days => Some (days * 86400000))
  | 19%nat =>
      opt_bind (parse_date (substring 0 10 s)) (fun days =>
      opt_bind (check (String.eqb (substring 10 1 s) "T")) (fun _ =>
      opt_bind (parse_time (substring 11 8 s)) (fun ms =>
      Some (days * 86400000 + ms))))
  | _ => None
  end.

(** The inverse of [days_from_civil]. *)
Definition civil_from_days (days : Z) : Z * Z * Z :=
  let z := days + 719468 in
  let era := z / 146097 in
  let doe := z - era * 146097 in
  let yoe := (doe - doe / 1460 + doe / 36524 - doe / 146096) / 365 in
  let doy := doe - (365 * yoe + yoe / 4 - yoe / 100) in
  let mp := (5 * doy + 2) / 153 in
  let d := doy - (153 * mp + 2) / 5 + 1 in
  let m := if mp <? 10 then mp + 3 else mp - 9 in
  let y := yoe + era * 400 in
  (if m <=? 2 then y + 1 else y, m, d).

(** [n] in decimal, at least [width] digits. *)
Definition padded (width : nat) (n : Z) : string :=
  let s := str_int n in
  (string_of_list_ascii (repeat "0"%char (width - String.length s)) ++ s)%string.

Definition format_date (y m d : Z) : string :=
  (padded 4 y ++ "-" ++ padded 2 m ++ "-" ++ padded 2 d)%string.

Definition format_datetime (t : datetime) : string :=
  let '(y, m, d) := civil_from_days (t / 86400000) in
  let s := (t mod 86400000) / 1000 in
  (format_date y m d ++ "T" ++ padded 2 (s / 3600) ++ ":"
     ++ padded 2 ((s / 60) mod 60) ++ ":" ++ padded 2 (s mod 60))%string.

Definition parse_int (s : string) : option Z :=
  match s with
  | String "-"%char s' => opt_bind (number s') (fun n => Some (- n))
  | _ => number s
  end.

Definition runtime : Runtime :=
  {| convert_to_date := fun v => match v with
                                 | VStr s => parse_datetime s
                                 | VNum q => Some (Qfloor q)
                                 | _ => None
                                 end;
     date_minus_millis := fun t q => t - Qfloor q;
     datetime_isoformat := format_datetime;
     date_isoformat := fun d => format_date (date_year d) (date_month d) (date_day d);
     str_objectid := fun hex => hex;
     str_dbref := fun r =>
       ("DBRef('" ++ dbref_collection r ++ "', ObjectId('" ++ dbref_id r ++ "'))")%string;
     str_decimal128 := fun d => match d with
                                | Dec128 c e => (str_int c ++ "E" ++ str_int e)%string
                                | Dec128_sNaN => "NaN"
                                end;
     py_int := parse_int;
     traceback_format_exc := fun e =>
       ("Traceback (most recent call last): " ++ str_exn e)%string |}.

End Iso.

(** ** Sample data *)

Module Sample.

(** An ObjectId: 24 hexadecimal digits. *)
Definition oid (kind : string) (id : Z) : value :=
  VObjectId ("65c1f0a2" ++ kind ++ "0000000000" ++ Iso.padded 4 id).

Definition patient (id : Z) (first last : string) : dict :=
  [ ("_id", oid "aa" id); ("patient_id", VNum (inject_Z id));
    ("first_name", VStr first); ("last_name", VStr last) ].

Definition invoice (id pid : Z) (day : string) (st : string) (portion : Q) : dict :=
  [ ("_id", oid "bb" id); ("invoice_id", VNum (inject_Z id));
    ("patient_id", VNum (inject_Z pid)); ("invoice_date", VStr day);
    ("status", VStr st); ("total_amount", VNum portion);
    ("patient_portion", VNum portion) ].

Definition payment (id inv : Z) (day : string) (amount : Q) : dict :=
  [ ("_id", oid "cc" id); ("payment_id", VNum (inject_Z id));
    ("invoice_id", VNum (inject_Z inv)); ("payment_date", VStr day);
    ("amount", VNum amount) ].

Definition mk_db (patients invoices payments : list dict) : database :=
  [ ("Patient", patients); ("Invoice", invoices); ("Payment", payments);
    ("InvoiceLine", []) ].

(** Two patients.  Ann has one invoice paid in full and one unpaid; Bob has
    one invoice, paid in full; a fourth invoice names a patient that does not
    exist. *)
Definition clinic : database :=
  mk_db
    [ patient 1 "Ann" "Lee"; patient 2 "Bob" "Ray" ]
    [ invoice 10 1 "2024-02-05" "paid" 100;
      invoice 11 1 "2024-02-07" "pending" 50;
      invoice 12 2 "2024-02-09" "paid" 70;
      invoice 13 9 "2024-02-09" "pending" 70 ]
    [ payment 1 10 "2024-02-20T10:30:00" 100;
      payment 2 12 "2024-02-28T09:00:00" 70;
      payment 3 12 "2024-03-02T09:00:00" 5 ].

(** The statements of February 2024. *)
Definition february : value :=
  Eval vm_compute in
    match ReportService.get_monthly_statements (rt := Iso.runtime) clinic 2 2024 with
    | Ok report => report
    | Raise _ => VNone
    end.

End Sample.

(** ** Reading a JSON result *)

(** [v[k]] and the elements of a list. *)
Definition item (k : string) (v : value) : value :=
  match v with
  | VDict d => dict_get k d
  | _ => VNone
  end.

Definition elements (v : value) : list value :=
  match v with
  | VList xs => xs
  | _ => []
  end.




(** ** Predicates on JSON values *)

(** No [_id] key at any depth, and only [None], booleans, numbers, strings,
    dictionaries and lists. *)
Fixpoint json_clean (v : value) : bool :=
  match v with
  | VNone | VBool _ | VNum _ | VStr _ => true
  | VDict items =>
      forallb (fun kv => negb (String.eqb (fst kv) "_id") && json_clean (snd kv)) items
  | VList xs => forallb json_clean xs
  | _ => false
  end.

(** No key twice in [ks]. *)
Fixpoint distinct (ks : list string) : bool :=
  match ks with
  | [] => true
  | k :: ks' => negb (existsb (String.eqb k) ks') && distinct ks'
  end.

(** [json_clean], and every dictionary is a proper Python dictionary: no key
    occurs twice. *)
Fixpoint json_normal (v : value) : bool :=
  match v with
  | VNone | VBool _ | VNum _ | VStr _ => true
  | VDict items =>
      distinct (map fst items)
      && forallb (fun kv => negb (String.eqb (fst kv) "_id") && json_normal (snd kv)) items
  | VList xs => forallb json_normal xs
  | _ => false
  end.

(** The key of a patient group: [None], a boolean, a number or a string. *)
Definition scalar (v : value) : bool :=
  match v with
  | VNone | VBool _ | VNum _ | VStr _ => true
  | _ => false
  end.

(** The sum of a list of numbers. *)
Fixpoint Qsum (xs : list Q) : Q :=
  match xs with
  | [] => 0
  | x :: xs' => x + Qsum xs'
  end.

(** ** The monthly statement as the specification words it

    "date-range match, lookups (patient, payments, invoice lines),
    per-invoice total computation, per-patient grouping, paid/unpaid
    bucketing, summation". *)

Module Spec.
Section Spec.
Context {rt : Runtime}.

(** The date a stored value stands for, if any. *)
Definition as_date (x : operand) : option datetime :=
  match x with
  | None | Some VNone => None
  | Some (VDatetime t) => Some t
  | Some v => convert_to_date v
  end.

Definition date_value (t : option datetime) : value :=
  match t with
  | Some t => VDatetime t
  | None => VNone
  end.

(** *** 1. Date-range match *)

Definition first_day (year month : Z) : datetime :=
  days_from_civil year month 1 * 86400000.

(** The first day of the next month; after December, January 1 of the next
    year. *)
Definition next_first_day (year month : Z) : datetime :=
  if month =? 12 then first_day (year + 1) 1 else first_day year (month + 1).



(** The invoice date falls in the half-open range. *)
Definition issued_in (start_date end_date : datetime) (inv : dict) : bool :=
  match as_date (lookup "invoice_date" inv) with
  | Some t => (start_date <=? t) && (t <? end_date)
  | None => false
  end.

(** *** 2. Lookups *)

Definition patients_of (db : database) (inv : dict) : list dict :=
  filter (join_eq "patient_id" "patient_id" inv) (collection db "Patient").

(** Dated on or before the cutoff, as the database orders dates: a payment
    without a date sorts before every date. *)
Definition on_or_before (cutoff : datetime) (pay : dict) : bool :=
  match lookup "payment_date" pay with
  | None | Some VNone => true
  | x => match as_date x with
         | Some t => t <=? cutoff
         | None => false
         end
  end.

Definition same_invoice (inv pay : dict) : bool :=
  match operand_compare (lookup "invoice_id" pay) (lookup "invoice_id" inv) with
  | Eq => true
  | _ => false
  end.

Definition payments_by (db : database) (cutoff : datetime) (inv : dict) : list dict :=
  filter (fun pay => same_invoice inv pay && on_or_before cutoff pay)
         (collection db "Payment").

Definition lines_of (db : database) (inv : dict) : list dict :=
  filter (join_eq "invoice_id" "invoice_id" inv) (collection db "InvoiceLine").

(** The invoices of the month, each with each patient document it refers
    to. *)
Definition matched (db : database) (start_date end_date : datetime) : list dict :=
  filter (issued_in start_date end_date) (collection db "Invoice").

Definition joined (db : database) (invoices : list dict) : list (dict * dict) :=
  flat_map (fun inv => map (pair inv) (patients_of db inv)) invoices.

(** The invoice with its date and one patient document. *)
Definition with_patient (inv pat : dict) : dict :=
  dict_set "patient" (VDict pat)
    (dict_set "invoice_date_dt" (date_value (as_date (lookup "invoice_date" inv))) inv).

(** What is looked up for an invoice: one patient document, the payments
    dated on or before the cutoff, and the invoice lines. *)
Record lookups : Type := mk_lookups {
  lk_invoice : dict;
  lk_patient : dict;
  lk_payments : list dict;
  lk_lines : list dict
}.

Definition look_up (db : database) (cutoff : datetime) (ip : dict * dict) : lookups :=
  {| lk_invoice := fst ip;
     lk_patient := snd ip;
     lk_payments := payments_by db cutoff (fst ip);
     lk_lines := lines_of db (fst ip) |}.

(** *** 3. Per-invoice totals *)

(** The amounts of a list of payments. *)
Definition amounts (pays : list dict) : list value :=
  flat_map (fun pay => match lookup "amount" pay with
                       | Some v => [v]
                       | None => []
                       end) pays.

Definition total_paid (pays : list dict) : Q := sum_numbers (amounts pays).

(** [patient_portion - total_paid]; null without a portion. *)
Definition balance_due (portion : operand) (paid : Q) : value :=
  match portion with
  | None | Some VNone => VNone
  | Some (VDatetime t) => VDatetime (date_minus_millis t paid)
  | Some v => match num_of v with
              | Some q => VNum (q - paid)
              | None => VNone
              end
  end.

Definition full_name (pat : dict) : value :=
  match lookup "first_name" pat, lookup "last_name" pat with
  | Some (VStr f), Some (VStr l) => VStr (f ++ " " ++ l)
  | _, _ => VNone
  end.

(** The invoice document with what was looked up and its totals. *)
Definition invoice_totals (l : lookups) : dict :=
  fold_left (fun d kv => dict_set (fst kv) (snd kv) d)
    [ ("invoice_date_dt", date_value (as_date (lookup "invoice_date" (lk_invoice l))));
      ("patient", VDict (lk_patient l));
      ("payments", VList (map VDict (lk_payments l)));
      ("lines", VList (map VDict (lk_lines l)));
      ("total_paid", VNum (total_paid (lk_payments l)));
      ("balance_due",
        balance_due (lookup "patient_portion" (lk_invoice l)) (total_paid (lk_payments l)));
      ("patient_name", full_name (lk_patient l)) ]
    (lk_invoice l).

Definition projected : list string :=
  [ "invoice_id"; "invoice_date"; "invoice_date_dt"; "patient_id";
    "patient_name"; "total_amount"; "patient_portion"; "total_paid";
    "balance_due"; "lines"; "payments" ].

(** The fields a row keeps. *)
Definition invoice_row (l : lookups) : dict :=
  filter (fun kv => String.eqb (fst kv) "_id" || existsb (String.eqb (fst kv)) projected)
         (invoice_totals l).

Definition invoice_rows (db : database) (start_date end_date : datetime) : list dict :=
  map invoice_row
      (map (look_up db end_date) (joined db (matched db start_date end_date))).

(** *** Invoices without a patient *)

Definition has_patient (db : database) (inv : dict) : bool :=
  existsb (join_eq "patient_id" "patient_id" inv) (collection db "Patient").

(** The database once the invoices that match no patient are deleted. *)
Definition without_orphans (db : database) : database :=
  ("Invoice", filter (has_patient db) (collection db "Invoice")) :: db.

(** *** When the aggregation does not fail *)

(** [$toDate] accepts null, a missing field, and what converts. *)
Definition date_ok (x : operand) : bool :=
  nullish x || match as_date x with
               | Some _ => true
               | None => false
               end.

(** The payments of the invoice have acceptable dates. *)
Definition payments_ok (db : database) (inv : dict) : bool :=
  forallb (fun pay => negb (same_invoice inv pay) || date_ok (lookup "payment_date" pay))
          (collection db "Payment").

(** [$subtract] accepts null, a missing field, a number and a date. *)
Definition portion_ok (x : operand) : bool :=
  match x with
  | None | Some VNone | Some (VDatetime _) => true
  | Some v => match num_of v with
              | Some _ => true
              | None => false
              end
  end.

(** [$concat] accepts strings, and stops at the first null. *)
Definition name_ok (pat : dict) : bool :=
  match lookup "first_name" pat with
  | None | Some VNone => true
  | Some (VStr _) =>
      match lookup "last_name" pat with
      | None | Some VNone | Some (VStr _) => true
      | _ => false
      end
  | _ => false
  end.

Definition computable (db : database) (start_date end_date : datetime) : bool :=
  forallb (fun inv => date_ok (lookup "invoice_date" inv)) (collection db "Invoice")
  && forallb (fun ip => payments_ok db (fst ip)
                        && portion_ok (lookup "patient_portion" (fst ip))
                        && name_ok (snd ip))
             (joined db (matched db start_date end_date)).

(** *** Outstanding balances *)

(** All the payments of an invoice. *)
Definition payments_of (db : database) (inv : dict) : list dict :=
  filter (join_eq "invoice_id" "invoice_id" inv) (collection db "Payment").

(** [d[k] = v] for a value, [del d[k]] for a missing one. *)
Definition assign (d : dict) (kx : string * operand) : dict :=
  match snd kx with
  | Some v => dict_set (fst kx) v d
  | None => dict_remove (fst kx) d
  end.

(** The row of an invoice joined with one patient document. *)
Definition outstanding_row (db : database) (ip : dict * dict) : dict :=
  let (inv, pat) := ip in
  let paid := total_paid (payments_of db inv) in
  fold_left assign
    [ ("patient_name", Some (full_name pat));
      ("patient_id", lookup "patient_id" inv);
      ("invoice_id", lookup "invoice_id" inv);
      ("total_amount", lookup "total_amount" inv);
      ("patient_portion", lookup "patient_portion" inv);
      ("total_paid", Some (VNum paid));
      ("balance_due", Some (balance_due (lookup "patient_portion" inv) paid)) ]
    match lookup "_id" inv with
    | Some v => [("_id", v)]
    | None => []
    end.

Definition outstanding_rows (db : database) : list dict :=
  filter (q_gt "balance_due" 0)
    (map (outstanding_row db)
       (joined db (filter (q_ne "status" (VStr "paid")) (collection db "Invoice")))).

(** *** 4. Per-patient grouping *)

Definition patient_key (row : dict) : value := dict_get "patient_id" row.

(** The keys of [ks], each once, in the order of first appearance. *)
Fixpoint distinct_keys (ks : list value) : list value :=
  match ks with
  | [] => []
  | k :: ks' => k :: filter (fun k' => negb (key_eqb k k')) (distinct_keys ks')
  end.

(** The amount a field contributes: zero when absent. *)
Definition amount (v : value) : Q :=
  match py_number (py_or v (VNum 0)) with
  | Some q => q
  | None => 0
  end.

Definition sum_field (k : string) (rows : list dict) : Q :=
  fold_left (fun acc row => acc + amount (dict_get k row))%Q rows 0%Q.

Definition statement_of (k : value) (rows : list dict) : statement :=
  {| st_patient_id := k;
     st_patient_name := match rows with
                        | row :: _ => dict_get "patient_name" row
                        | [] => VNone
                        end;
     st_invoices := map ReportService.invoice_entry rows;
     st_total_invoiced := sum_field "patient_portion" rows;
     st_payments_received := sum_field "total_paid" rows;
     st_balance := sum_field "balance_due" rows |}.

Definition group (rows : list dict) : list statement :=
  map (fun k => statement_of k (filter (fun row => key_eqb k (patient_key row)) rows))
      (distinct_keys (map patient_key rows)).

(** [acc += (v or 0.0)] accepts a number, a boolean, and what is false. *)
Definition addable (v : value) : bool :=
  match py_or v (VNum 0) with
  | VNum _ | VBool _ => true
  | _ => false
  end.

(** The grouping loop accepts the row. *)
Definition groupable (row : dict) : bool :=
  hashable (patient_key row)
  && addable (dict_get "patient_portion" row)
  && addable (dict_get "total_paid" row)
  && addable (dict_get "balance_due" row).

(** *** 5. Paid/unpaid bucketing *)

(** Fully paid by the cutoff: nothing is due, to the cent. *)
Definition is_paid (p : statement) : bool := Qle_bool (py_round (st_balance p) 2) 0.

(** *** 6. Summation *)

Definition sum_totals (ps : list statement) : totals :=
  fold_left ReportService.add_totals ps ReportService.zero_totals.

(** [datetime(year, month, 1)] and the first day of the next month exist. *)
Definition valid_month (month year : Z) : bool :=
  (1 <=? year) && (year <=? 9999) && (1 <=? month) && (month <=? 12)
  && ((month <? 12) || (year + 1 <=? 9999)).

(** The function returns: the month is valid, the aggregation does not fail,
    and the grouping loop accepts every row. *)
Definition returns (db : database) (month year : Z) : bool :=
  valid_month month year
  && computable db (first_day year month) (next_first_day year month)
  && forallb groupable
       (map ReportService.sanitize_doc
            (invoice_rows db (first_day year month) (next_first_day year month))).

Definition monthly_statements (db : database) (month year : Z) : value :=
  let start_date := first_day year month in
  let end_date := next_first_day year month in
  (* date-range match *)
  let invoices := matched db start_date end_date in
  (* lookups: patient, payments, invoice lines *)
  let looked_up := map (look_up db end_date) (joined db invoices) in
  (* per-invoice total computation *)
  let rows := map invoice_row looked_up in
  (* per-patient grouping *)
  let patients := group (map ReportService.sanitize_doc rows) in
  (* paid/unpaid bucketing *)
  let paid := filter is_paid patients in
  let unpaid := filter (fun p => negb (is_paid p)) patients in
  (* summation *)
  ReportService.report_value month year
    {| paid_list := paid; unpaid_list := unpaid;
       totals_paid := sum_totals paid; totals_unpaid := sum_totals unpaid |}.

End Spec.
End Spec.


Section SanitizeSteps.
Context {rt : Runtime}.

Definition sanitize_step (new : dict) (kv : string * value) : dict :=
  if String.eqb (fst kv) "_id" then new
  else dict_set (fst kv) (_sanitize_for_json (snd kv)) new.

End SanitizeSteps.

Definition normal_field (kv : string * value) : bool :=
  negb (String.eqb (fst kv) "_id") && json_normal (snd kv).

(** ** Invariants of the grouping loop *)

Section Grouping.
Context {rt : Runtime}.
Import Spec.

Definition scalars (ks : list value) : Prop := Forall (fun k => scalar k = true) ks.

Fixpoint apart (ks : list value) : Prop :=
match ks with
| [] => True
| k :: ks' => Forall (fun k' => key_eqb k k' = false) ks' /\ apart ks'
end.

(** A patient's dictionary before the invoice [r] is added. *)
Definition before (r : dict) (k : value) (rows : list dict) : statement :=
match rows with
| [] => ReportService.new_statement k r
| _ => statement_of k rows
end.

Definition rows_of (k : value) (rows : list dict) : list dict :=
filter (fun row => key_eqb k (patient_key row)) rows.

Definition grouped (rows : list dict) : list (value * statement) :=
map (fun k => (k, statement_of k (rows_of k rows)))
    (distinct_keys (map patient_key rows)).

Definition normal_dict (row : dict) : Prop := json_normal (VDict row) = true.

Definition normal_statement (p : statement) : Prop :=
json_normal (ReportService.statement_value p) = true.

End Grouping.

(* ===================================================================== *)
(** * Part I, continued: the other reports and their routes *)
(* ===================================================================== *)

(** ** More about [get_monthly_statements] and [_sanitize_for_json] *)

(** [db.Payment.insert_one(pay)] *)
Definition insert_payment (db : database) (pay : dict) : database :=
  ("Payment", collection db "Payment" ++ [pay]) :: db.

(** The buckets of a month without invoices. *)
Definition empty_buckets : buckets :=
  {| paid_list := []; unpaid_list := [];
     totals_paid := ReportService.zero_totals;
     totals_unpaid := ReportService.zero_totals |}.

Section SanitizeDict.
Context {rt : Runtime}.

(** A dictionary without its [_id], every value sanitized. *)
Definition sanitized_items (items : dict) : dict :=
  map (fun kv => (fst kv, _sanitize_for_json (snd kv)))
      (filter (fun kv => negb (String.eqb (fst kv) "_id")) items).

End SanitizeDict.

(** A clinic whose only invoice states no patient portion. *)
Definition unpriced : database :=
  Sample.mk_db [Sample.patient 1 "Ann" "Lee"]
    [ [ ("_id", Sample.oid "bb" 30); ("invoice_id", VNum 30); ("patient_id", VNum 1);
        ("invoice_date", VStr "2024-02-05"); ("status", VStr "pending");
        ("total_amount", VNum 80) ] ]
    [].

Definition unpriced_report : value :=
  Eval vm_compute in
    match ReportService.get_monthly_statements (rt := Iso.runtime) unpriced 2 2024 with
    | Ok report => report
    | Raise _ => VNone
    end.

(** ** [reports.py]: the delivery log and the activity report *)

(** *** More of MongoDB *)

(** [{k: {"$gte": s}}], [{k: {"$lte": s}}] and [{k: {"$lt": s}}] for a
    string [s]: only strings compare with a string, byte by byte. *)
Definition q_gte_str (k : string) (s : string) (d : dict) : bool :=
  existsb (fun v => match v with
                    | VStr u => String.leb s u
                    | _ => false
                    end) (query_values k d).

Definition q_lte_str (k : string) (s : string) (d : dict) : bool :=
  existsb (fun v => match v with
                    | VStr u => String.leb u s
                    | _ => false
                    end) (query_values k d).

Definition q_lt_str (k : string) (s : string) (d : dict) : bool :=
  existsb (fun v => match v with
                    | VStr u => String.ltb u s
                    | _ => false
                    end) (query_values k d).

(** [{k: {"$in": xs}}] *)
Definition q_in (k : string) (xs : list value) (d : dict) : bool :=
  existsb (fun x => q_eq k x d) xs.

(** The values [$lookup] matches for a local field ["k1.k2"] that goes
    through an embedded document; null when the field is missing.  (Through
    an array of documents it collects the values of each; the pipeline below
    reads the path after [$unwind], where [k1] holds one document.) *)
Definition local_path (k1 k2 : string) (d : dict) : list value :=
  match lookup k1 d with
  | Some (VDict sub) =>
      match lookup k2 sub with
      | None => [VNone]
      | Some (VList xs) => xs
      | Some v => [v]
      end
  | Some (VList subs) =>
      flat_map (fun x => match x with
                         | VDict sub =>
                             match lookup k2 sub with
                             | None => []
                             | Some (VList xs) => xs
                             | Some v => [v]
                             end
                         | _ => []
                         end) subs
  | _ => [VNone]
  end.

(** [{"$lookup": {"from", "localField": "k1.k2", "foreignField", "as"}}] *)
Definition S_lookup_path (from k1 k2 foreignField as_ : string) : stage := fun db docs =>
  Ok (map (fun d =>
             dict_set as_
               (VList (map VDict
                         (filter (fun f => existsb (fun x => q_eq foreignField x f)
                                                   (local_path k1 k2 d))
                                 (collection db from)))) d) docs).

(** [{"$dateDiff": {"startDate": e1, "endDate": e2, "unit": "minute"}}]: the
    number of minute boundaries between the two dates; null when one of
    them is null or missing. *)
Definition E_dateDiff_minute (e1 e2 : expr) : expr := fun d =>
  x <- e1 d ;;
  y <- e2 d ;;
  match x, y with
  | Some (VDatetime t), Some (VDatetime u) =>
      Ok (Some (VNum (inject_Z (u / 60000 - t / 60000))))
  | _, _ =>
      if nullish x || nullish y then Ok (Some VNone)
      else Raise (OperationFailure "$dateDiff: the dates must be dates")
  end.

(** An accumulator of [$group], over the documents of the group. *)
Definition accumulator : Type := list dict -> result value.

(** The numbers among the results of an expression. *)
Definition numbers (xs : list operand) : list Q :=
  flat_map (fun x => match x with
                     | Some v => match num_of v with
                                 | Some q => [q]
                                 | None => []
                                 end
                     | None => []
                     end) xs.

(** [{"$sum": e}]: what is not a number counts for nothing. *)
Definition A_sum (e : expr) : accumulator := fun docs =>
  xs <- map_result e docs ;;
  Ok (VNum (Qsum (numbers xs))).

(** [{"$avg": e}]: the mean of the numbers, null when there is none. *)
Definition mean (qs : list Q) : value :=
  match qs with
  | [] => VNone
  | _ => VNum (Qsum qs / inject_Z (Z.of_nat (List.length qs)))
  end.

Definition A_avg (e : expr) : accumulator := fun docs =>
  xs <- map_result e docs ;;
  Ok (mean (numbers xs)).

(** [{"$group": {"_id": None, k: accumulator, ...}}]: one document for all
    the input, none when there is no input. *)
Definition S_group_null (fields : list (string * accumulator)) : stage := fun _ docs =>
  match docs with
  | [] => Ok []
  | _ =>
      computed <- map_result (fun f => v <- snd f docs ;; Ok (fst f, v)) fields ;;
      Ok [("_id", VNone) :: computed]
  end.

(** [db.<name>.find(q)] and [db.<name>.count_documents(q)] *)
Definition find_all (db : database) (name : string) (q : dict -> bool) : list dict :=
  filter q (collection db name).

Definition count_documents (db : database) (name : string) (q : dict -> bool) : Z :=
  Z.of_nat (List.length (filter q (collection db name))).

(** *** More of Python *)

(** The exceptions of the code below: those above, [KeyError] and
    [AttributeError]. *)
Inductive error : Type :=
| Exn (e : exn)
| KeyError (key : string)
| AttributeError (msg : string).

Inductive outcome (A : Type) : Type :=
| Returns (a : A)
| Raises (e : error).

Arguments Returns {A} a.
Arguments Raises {A} e.

Definition bindO {A B : Type} (c : outcome A) (k : A -> outcome B) : outcome B :=
  match c with
  | Returns a => k a
  | Raises e => Raises e
  end.

Notation "x <-- c ;; k" := (bindO c (fun x => k))
  (at level 61, c at next level, right associativity).

Definition of_result {A : Type} (r : result A) : outcome A :=
  match r with
  | Ok a => Returns a
  | Raise e => Raises (Exn e)
  end.

(** [[f(x) for x in xs]] *)
Fixpoint map_outcome {A B : Type} (f : A -> outcome B) (xs : list A) : outcome (list B) :=
  match xs with
  | [] => Returns []
  | x :: xs' => y <-- f x ;; ys <-- map_outcome f xs' ;; Returns (y :: ys)
  end.

(** [d[k]] *)
Definition subscript (d : dict) (k : string) : outcome value :=
  match lookup k d with
  | Some v => Returns v
  | None => Raises (KeyError k)
  end.

(** [d.get(k, default)] *)
Definition dict_get_or (k : string) (default : value) (d : dict) : value :=
  match lookup k d with
  | Some v => v
  | None => default
  end.

(** [round(x, ndigits)] *)
Definition round_value (x : value) (ndigits : Z) : result value :=
  match py_number x with
  | Some q => Ok (VNum (py_round q ndigits))
  | None => Raise (TypeError "type doesn't define __round__ method")
  end.

(** *** [ReportService.get_daily_delivery_log] *)

Module Reports.
Section Reports.
Context {rt : Runtime}.

Definition delivery_pipeline (start end_ : string) : list stage :=
  [ S_match (q_and [ q_gte_str "start_time" start; q_lte_str "start_time" end_ ]);
    S_lookup "Delivery" "visit_id" "visit_id" "delivery_info";
    S_unwind "delivery_info";
    S_lookup "Patient" "patient_id" "patient_id" "patient";
    S_unwind "patient";
    S_lookup_path "Staff" "delivery_info" "performed_by" "staff_id" "staff";
    S_unwind "staff";
    S_project
      [ ("time", E_field "start_time");
        ("patient",
          E_concat [E_path "patient" "first_name"; E_const (Some (VStr " "));
                    E_path "patient" "last_name"]);
        ("performed_by",
          E_concat [E_path "staff" "first_name"; E_const (Some (VStr " "));
                    E_path "staff" "last_name"]);
        ("visit_type", E_field "visit_type") ] ].

(** [datetime.combine(log_date, datetime.min.time()).isoformat()] and the
    same with [datetime.max.time()]: the date, then the time of day. *)
Definition day_start (log_date : date) : string :=
  (date_isoformat log_date ++ "T00:00:00")%string.

Definition day_end (log_date : date) : string :=
  (date_isoformat log_date ++ "T23:59:59.999999")%string.

Definition get_daily_delivery_log (db : database) (log_date : date)
  : result (list dict) :=
  let start := day_start log_date in
  let end_ := day_end log_date in
  aggregate db "Visit" (delivery_pipeline start end_).

End Reports.
End Reports.

(** *** [ReportService.get_monthly_activity_report] *)

Module Activity.
Section Activity.
Context {rt : Runtime}.

Definition visit_pipeline (start_str end_str : string) : list stage :=
  [ S_match (q_and [ q_gte_str "start_time" start_str; q_lt_str "start_time" end_str ]);
    S_group_null
      [ ("total_visits", A_sum (E_const (Some (VNum 1))));
        ("avg_duration_minutes",
          A_avg (E_dateDiff_minute (E_toDate (E_field "start_time"))
                                   (E_toDate (E_field "end_time")))) ] ].

Definition get_monthly_activity_report (db : database) (month year : Z) : outcome value :=
  range <-- of_result (ReportService.month_range month year) ;;
  let start_str := datetime_isoformat (fst range) in
  let end_str := datetime_isoformat (snd range) in
  (* 1. visit stats and average duration *)
  visit_res <-- of_result (aggregate db "Visit" (visit_pipeline start_str end_str)) ;;
  let visit_stats :=
    match visit_res with
    | stats :: _ => stats
    | [] => [("total_visits", VNum 0); ("avg_duration_minutes", VNum 0)]
    end in
  (* 2. counts for the other collections *)
  visit_ids <-- map_outcome (fun v => subscript v "visit_id")
                  (find_all db "Visit"
                     (q_and [ q_gte_str "start_time" start_str;
                              q_lt_str "start_time" end_str ])) ;;
  let deliveries := count_documents db "Delivery" (q_in "visit_id" visit_ids) in
  let lab_tests := count_documents db "LabTestOrder" (fun _ => true) in
  let prescriptions := count_documents db "Prescription" (fun _ => true) in
  let total_visits := dict_get_or "total_visits" (VNum 0) visit_stats in
  average <-- of_result
                (round_value
                   (py_or (dict_get_or "avg_duration_minutes" (VNum 0) visit_stats)
                          (VNum 0)) 2) ;;
  Returns
    (VDict
       [ ("report_month", VStr (str_int month ++ "/" ++ str_int year));
         ("metrics",
           VDict [ ("total_patient_visits", total_visits);
                   ("average_visit_duration_mins", average);
                   ("total_deliveries", VNum (inject_Z deliveries));
                   ("total_lab_tests", VNum (inject_Z lab_tests));
                   ("total_prescriptions", VNum (inject_Z prescriptions)) ]) ]).

End Activity.
End Activity.

(** ** The report routes of [backend/app.py] *)

(** What Flask and the [datetime] module decide. *)
Class Framework : Type := {
  (* how the JSON provider prints a [datetime] and a [date] *)
  http_date : datetime -> string;
  http_date_of_date : date -> string;
  (* the message of the [TypeError] of [json.dumps] on a value it cannot
     encode *)
  json_error : value -> string;
  (* [date.fromisoformat(s)], [None] on a [ValueError] *)
  date_fromisoformat : string -> option date;
  (* [repr(s)] *)
  repr_str : string -> string;
  (* [str(v)] for a value that is not a text, as an f-string prints it *)
  str_value : value -> string;
  (* [s.strip()] *)
  str_strip : string -> string;
  (* the message of the [AttributeError] of [v.get] on a value without it *)
  no_attribute : value -> string;
  (* the documents of a cursor after [.sort(k, direction)] *)
  cursor_sort : string -> Z -> list dict -> list dict;
  (* whether [bson.Decimal128] objects can be hashed *)
  decimal128_hashable : bool;
  (* the filter [{k: {"$op": ...}}] of query operators, or the failure of
     the server on it *)
  operator_query : string -> dict -> result (dict -> bool)
}.

(** The values Flask's JSON provider encodes: those of [json.dumps], and
    dates. *)
Fixpoint flask_serializable (v : value) : bool :=
  match v with
  | VNone | VBool _ | VNum _ | VStr _ | VDatetime _ | VDate _ => true
  | VDict items => forallb (fun kv => flask_serializable (snd kv)) items
  | VList xs | VTuple xs => forallb flask_serializable xs
  | VObjectId _ | VDBRef _ | VDecimal128 _ | VSet _ => false
  end.

Section Flask.
Context {fw : Framework}.

(** The JSON value sent: dates as texts, tuples as arrays. *)
Fixpoint flask_encode (v : value) : value :=
  match v with
  | VDatetime t => VStr (http_date t)
  | VDate d => VStr (http_date_of_date d)
  | VDict items => VDict (map (fun kv => (fst kv, flask_encode (snd kv))) items)
  | VList xs | VTuple xs => VList (map flask_encode xs)
  | _ => v
  end.

(** [jsonify(v)] on any value. *)
Definition flask_jsonify (v : value) : result value :=
  if flask_serializable v then Ok (flask_encode v)
  else Raise (TypeError (json_error v)).

End Flask.

(** [request.args.get(k)] *)
Definition args_get (k : string) (req : request) : option string :=
  match find (fun kv => String.eqb (fst kv) k) (args req) with
  | Some kv => Some (snd kv)
  | None => None
  end.

(** [not s] for an optional text. *)
Definition not_str (s : option string) : bool :=
  match s with
  | None => true
  | Some s => String.eqb s ""
  end.

Module AppReports.
Section AppReports.
Context {rt : Runtime} {fw : Framework}.

(** [GET /reports/monthly-activity] *)
Definition get_monthly_report (db : database) (req : request) : outcome response :=
  let month := args_get_int "month" req in
  let year := args_get_int "year" req in
  if not_int month || not_int year then
    b <-- of_result (flask_jsonify (VDict [("error", VStr "Month and Year required")])) ;;
    Returns {| status := 400; body := b |}
  else
    match month, year with
    | Some m, Some y =>
        report <-- Activity.get_monthly_activity_report db m y ;;
        b <-- of_result (flask_jsonify report) ;;
        Returns {| status := 200; body := b |}
    | _, _ =>
        (* excluded by the test above: [datetime(None, ...)] *)
        Raises (Exn (TypeError "an integer is required"))
    end.

(** [GET /reports/outstanding-balances] *)
Definition get_outstanding_balances (db : database) : result response :=
  balances <- ReportService.get_outstanding_balances db ;;
  b <- flask_jsonify (VList (map VDict balances)) ;;
  Ok {| status := 200; body := b |}.

(** [GET /reports/daily-delivery-log] *)
Definition get_delivery_log (db : database) (req : request) : result response :=
  let date_str := args_get "date" req in
  if not_str date_str then
    b <- flask_jsonify (VDict [("error", VStr "Date required")]) ;;
    Ok {| status := 400; body := b |}
  else
    match date_str with
    | Some s =>
        log_date <- match date_fromisoformat s with
                    | Some d => Ok d
                    | None =>
                        Raise (ValueError ("Invalid isoformat string: " ++ repr_str s))
                    end ;;
        log <- Reports.get_daily_delivery_log db log_date ;;
        b <- flask_jsonify (VList (map VDict log)) ;;
        Ok {| status := 200; body := b |}
    | None =>
        (* excluded by the test above: [date.fromisoformat(None)] *)
        Raise (TypeError "fromisoformat: argument must be str")
    end.

End AppReports.
End AppReports.

(** ** A concrete framework, and a ward *)

Module Web.

Definition parse_iso_date (s : string) : option date :=
  match String.length s with
  | 10%nat =>
      Iso.opt_bind (Iso.number (substring 0 4 s)) (fun y =>
      Iso.opt_bind (Iso.check (String.eqb (substring 4 1 s) "-")) (fun _ =>
      Iso.opt_bind (Iso.number (substring 5 2 s)) (fun m =>
      Iso.opt_bind (Iso.check (String.eqb (substring 7 1 s) "-")) (fun _ =>
      Iso.opt_bind (Iso.number (substring 8 2 s)) (fun d =>
      Iso.opt_bind
        (Iso.check ((1 <=? y) && (1 <=? m) && (m <=? 12)
                    && (1 <=? d) && (d <=? days_in_month y m)))
        (fun _ => Some {| date_year := y; date_month := m; date_day := d |}))))))
  | _ => None
  end.

(** Spaces off both ends. *)
Fixpoint lstrip (s : string) : string :=
  match s with
  | String " "%char s' => lstrip s'
  | _ => s
  end.

Fixpoint rstrip (s : string) : string :=
  match s with
  | EmptyString => EmptyString
  | String c s' =>
      match c, rstrip s' with
      | " "%char, EmptyString => EmptyString
      | _, t => String c t
      end
  end.

Definition strip (s : string) : string := rstrip (lstrip s).

(** A stable sort on one field, missing fields first when ascending. *)
Definition sort_key (k : string) (d : dict) : operand := lookup k d.

Fixpoint insert_by (k : string) (direction : Z) (d : dict) (sorted : list dict)
  : list dict :=
  match sorted with
  | [] => [d]
  | x :: rest =>
      match operand_compare (sort_key k d) (sort_key k x) with
      | Lt => if 0 <=? direction then d :: sorted else x :: insert_by k direction d rest
      | Gt => if 0 <=? direction then x :: insert_by k direction d rest else d :: sorted
      | Eq => x :: insert_by k direction d rest
      end
  end.

Definition sort_by (k : string) (direction : Z) (docs : list dict) : list dict :=
  fold_left (fun sorted d => insert_by k direction d sorted) docs [].

Definition framework : Framework :=
  {| http_date := fun t => (Iso.format_datetime t ++ " GMT")%string;
     http_date_of_date := fun d =>
       (Iso.format_date (date_year d) (date_month d) (date_day d)
          ++ "T00:00:00 GMT")%string;
     json_error := fun _ => "Object is not JSON serializable";
     date_fromisoformat := parse_iso_date;
     repr_str := fun s => ("'" ++ s ++ "'")%string;
     str_value := fun v => match v with
                           | VNone => "None"
                           | VBool true => "True"
                           | VBool false => "False"
                           | VNum q => str_int (Qfloor q)
                           | _ => "?"
                           end;
     str_strip := strip;
     no_attribute := fun _ => "object has no attribute 'get'";
     cursor_sort := sort_by;
     decimal128_hashable := false;
     operator_query := fun _ _ => Raise (OperationFailure "unknown operator") |}.

End Web.

Module Ward.

Definition visit (id pid : Z) (start_time end_time visit_type : string) : dict :=
  [ ("_id", Sample.oid "dd" id); ("visit_id", VNum (inject_Z id));
    ("patient_id", VNum (inject_Z pid)); ("start_time", VStr start_time);
    ("end_time", VStr end_time); ("visit_type", VStr visit_type) ].

Definition delivery (id visit_id performed_by : Z) : dict :=
  [ ("_id", Sample.oid "ee" id); ("delivery_id", VNum (inject_Z id));
    ("visit_id", VNum (inject_Z visit_id));
    ("performed_by", VNum (inject_Z performed_by)) ].

Definition staff (id : Z) (first last : string) : dict :=
  [ ("_id", Sample.oid "ff" id); ("staff_id", VNum (inject_Z id));
    ("first_name", VStr first); ("last_name", VStr last) ].

(** Three visits in February 2024, one of them stored with a BSON date, and
    one in March; a delivery for each visit of February. *)
Definition ward : database :=
  [ ("Patient", [ Sample.patient 1 "Ann" "Lee"; Sample.patient 2 "Bea" "Roy" ]);
    ("Staff", [ staff 7 "Eve" "Moss" ]);
    ("Visit",
      [ visit 1 1 "2024-02-05T09:00:00" "2024-02-05T09:45:30" "delivery";
        visit 2 2 "2024-02-05T23:10:00" "2024-02-06T01:00:00" "delivery";
        [ ("_id", Sample.oid "dd" 3); ("visit_id", VNum 3); ("patient_id", VNum 1);
          ("start_time", VDatetime 1707123600000);
          ("end_time", VDatetime 1707127200000); ("visit_type", VStr "checkup") ];
        visit 4 2 "2024-03-01T10:00:00" "2024-03-01T10:20:00" "checkup" ]);
    ("Delivery", [ delivery 1 1 7; delivery 2 2 7; delivery 3 3 7 ]);
    ("LabTestOrder", [ [("labtest_id", VNum 1)]; [("labtest_id", VNum 2)] ]);
    ("Prescription", [ [("prescription_id", VNum 1)] ]) ].

Definition february_5 : date := {| date_year := 2024; date_month := 2; date_day := 5 |}.

End Ward.

(** ** The delivery log, row by row *)

Module Log.
Section Log.
Context {rt : Runtime}.

(** The visit starts on the day: its [start_time] is a text between the
    first and the last instant of the day. *)
Definition on_day (log_date : date) (visit : dict) : bool :=
  q_gte_str "start_time" (Reports.day_start log_date) visit
  && q_lte_str "start_time" (Reports.day_end log_date) visit.

Definition deliveries_of (db : database) (visit : dict) : list dict :=
  filter (join_eq "visit_id" "visit_id" visit) (collection db "Delivery").

Definition performers_of (db : database) (delivery : dict) : list dict :=
  filter (join_eq "performed_by" "staff_id" delivery) (collection db "Staff").

(** A visit with one of its deliveries, one patient document and one
    document of the staff member who performed the delivery. *)
Record entry : Type := mk_entry {
  en_visit : dict;
  en_delivery : dict;
  en_patient : dict;
  en_staff : dict
}.

Definition entries_of (db : database) (visit : dict) : list entry :=
  flat_map (fun delivery =>
    flat_map (fun pat =>
      map (fun stf => mk_entry visit delivery pat stf) (performers_of db delivery))
      (Spec.patients_of db visit))
    (deliveries_of db visit).

Definition entries (db : database) (log_date : date) : list entry :=
  flat_map (entries_of db) (filter (on_day log_date) (collection db "Visit")).

(** The row of an entry. *)
Definition row (e : entry) : dict :=
  fold_left Spec.assign
    [ ("time", lookup "start_time" (en_visit e));
      ("patient", Some (Spec.full_name (en_patient e)));
      ("performed_by", Some (Spec.full_name (en_staff e)));
      ("visit_type", lookup "visit_type" (en_visit e)) ]
    match lookup "_id" (en_visit e) with
    | Some v => [("_id", v)]
    | None => []
    end.

(** [$concat] accepts both names. *)
Definition names_ok (e : entry) : bool :=
  Spec.name_ok (en_patient e) && Spec.name_ok (en_staff e).

(** The document of an entry before the projection. *)
Definition joined_doc (e : entry) : dict :=
  dict_set "staff" (VDict (en_staff e))
    (dict_set "patient" (VDict (en_patient e))
       (dict_set "delivery_info" (VDict (en_delivery e)) (en_visit e))).

(** The stored time is a text, or an array (which may hold one). *)
Definition text_time (visit : dict) : bool :=
  match lookup "start_time" visit with
  | Some (VStr _) | Some (VList _) => true
  | _ => false
  end.

(** The database without the visits whose [start_time] is not a text. *)
Definition text_visits (db : database) : database :=
  ("Visit", filter text_time (collection db "Visit")) :: db.

End Log.
End Log.

(** ** The monthly activity report, metric by metric *)

Module Month.
Section Month.
Context {rt : Runtime}.

(** The visit starts in the month: its [start_time] is a text from the
    first instant of the month on and before the first instant of the
    next. *)
Definition in_month (month year : Z) (visit : dict) : bool :=
  q_gte_str "start_time" (datetime_isoformat (Spec.first_day year month)) visit
  && q_lt_str "start_time" (datetime_isoformat (Spec.next_first_day year month)) visit.

Definition visits (db : database) (month year : Z) : list dict :=
  filter (in_month month year) (collection db "Visit").

(** The minutes of a visit, by the clock: from the minute it starts in to
    the minute it ends in. *)
Definition duration (visit : dict) : option Z :=
  match Spec.as_date (lookup "start_time" visit),
        Spec.as_date (lookup "end_time" visit) with
  | Some t, Some u => Some (u / 60000 - t / 60000)
  | _, _ => None
  end.

Definition duration_value (visit : dict) : value :=
  match duration visit with
  | Some m => VNum (inject_Z m)
  | None => VNone
  end.

Definition durations (vs : list dict) : list Q :=
  flat_map (fun v => match duration v with
                     | Some m => [inject_Z m]
                     | None => []
                     end) vs.

(** The mean duration, zero when no visit has one, to two decimals. *)
Definition average (vs : list dict) : Q :=
  py_round match durations vs with
           | [] => 0
           | qs => Qsum qs / inject_Z (Z.of_nat (List.length qs))
           end 2.

(** The delivery belongs to one of the visits. *)
Definition delivered (vs : list dict) (delivery : dict) : bool :=
  existsb (fun v => match lookup "visit_id" v with
                    | Some id => q_eq "visit_id" id delivery
                    | None => false
                    end) vs.

(** [$toDate] accepts both times of the visit. *)
Definition dates_ok (visit : dict) : bool :=
  Spec.date_ok (lookup "start_time" visit) && Spec.date_ok (lookup "end_time" visit).

Definition has_id (visit : dict) : bool :=
  match lookup "visit_id" visit with
  | Some _ => true
  | None => false
  end.

Definition size (docs : list dict) : Q := inject_Z (Z.of_nat (List.length docs)).

Definition report (db : database) (month year : Z) : value :=
  let vs := visits db month year in
  VDict
    [ ("report_month", VStr (str_int month ++ "/" ++ str_int year));
      ("metrics",
        VDict
          [ ("total_patient_visits", VNum (size vs));
            ("average_visit_duration_mins", VNum (average vs));
            ("total_deliveries",
              VNum (size (filter (delivered vs) (collection db "Delivery"))));
            ("total_lab_tests", VNum (size (collection db "LabTestOrder")));
            ("total_prescriptions", VNum (size (collection db "Prescription"))) ]) ].

(** What the function answers: the report, or the first exception. *)
Definition answer (db : database) (month year : Z) : outcome value :=
  match ReportService.month_range month year with
  | Raise e => Raises (Exn e)
  | Ok _ =>
      let vs := visits db month year in
      if negb (forallb dates_ok vs)
      then Raises (Exn (OperationFailure "$toDate: conversion failed"))
      else if negb (forallb has_id vs) then Raises (KeyError "visit_id")
      else Returns (report db month year)
  end.

End Month.
End Month.

(** ** [GET /prescriptions/all] *)

(** The projections [{"_id": 0}] and [{k: 1, ..., "_id": 0}]. *)
Definition without_id (d : dict) : dict :=
  filter (fun kv => negb (String.eqb (fst kv) "_id")) d.

Definition only (ks : list string) (d : dict) : dict :=
  filter (fun kv => existsb (String.eqb (fst kv)) ks) d.

(** [db.<name>.find_one(q, projection)] *)
Definition find_one (db : database) (name : string) (q : dict -> bool)
    (projection : dict -> dict) : option dict :=
  option_map projection (find q (collection db name)).

(** [if doc:] for the answer of [find_one]. *)
Definition found (doc : option dict) : bool :=
  match doc with
  | Some d => truthy (VDict d)
  | None => false
  end.

(** The first field name of the document starts with [$]: the server reads
    the document as query operators. *)
Definition is_operator (spec : dict) : bool :=
  match spec with
  | (k, _) :: _ => prefix "$" k
  | [] => false
  end.

Section Filters.
Context {fw : Framework}.

(** The filter [{k: v}]: equality, unless [v] is a document of query
    operators. *)
Definition match_field (k : string) (v : value) : result (dict -> bool) :=
  match v with
  | VDict spec => if is_operator spec then operator_query k spec else Ok (q_eq k v)
  | _ => Ok (q_eq k v)
  end.

(** The filter [{"$or": [{k1: v}, {k2: v}]}] *)
Definition match_either (k1 k2 : string) (v : value) : result (dict -> bool) :=
  q1 <- match_field k1 v ;;
  q2 <- match_field k2 v ;;
  Ok (fun d => q1 d || q2 d).

End Filters.

Section Hashing.
Context {fw : Framework}.

(** The type of the first part of a value that cannot be hashed, if any:
    dictionaries, lists and sets cannot, and a tuple can when its elements
    can. *)
Fixpoint unhashable_type (v : value) : option string :=
  match v with
  | VDict _ => Some "dict"
  | VList _ => Some "list"
  | VSet _ => Some "set"
  | VDecimal128 _ => if decimal128_hashable then None else Some "Decimal128"
  | VTuple xs =>
      (fix first (xs : list value) : option string :=
         match xs with
         | [] => None
         | x :: xs' =>
             match unhashable_type x with
             | Some t => Some t
             | None => first xs'
             end
         end) xs
  | _ => None
  end.

(** [v in seen] for a set [seen]: [TypeError] when [v] cannot be hashed. *)
Definition set_contains (seen : list value) (v : value) : result bool :=
  match unhashable_type v with
  | Some t => Raise (TypeError ("unhashable type: '" ++ t ++ "'"))
  | None => Ok (existsb (fun s => key_eqb s v) seen)
  end.

End Hashing.

Module AppPrescriptions.
Section AppPrescriptions.
Context {rt : Runtime} {fw : Framework}.

(** [f"{v}"] *)
Definition format_value (v : value) : string :=
  match v with
  | VStr s => s
  | _ => str_value v
  end.

(** [rx.get("Prescription_Id") or rx.get("prescription_id")] *)
Definition rx_id (rx : dict) : value :=
  py_or (dict_get "Prescription_Id" rx) (dict_get "prescription_id" rx).

Definition patient_name (db : database) (patient_id : value) : result value :=
  if truthy patient_id then
    q <- match_either "Patient_Id" "patient_id" patient_id ;;
    let patient :=
      find_one db "Patient" q
        (only ["First_Name"; "Last_Name"; "first_name"; "last_name"]) in
    match patient with
    | Some p =>
        if found patient then
          let first := py_or (py_or (dict_get "First_Name" p) (dict_get "first_name" p))
                             (VStr "") in
          let last := py_or (py_or (dict_get "Last_Name" p) (dict_get "last_name" p))
                            (VStr "") in
          Ok (VStr (str_strip (format_value first ++ " " ++ format_value last)))
        else Ok (VStr "Unknown Patient")
    | None => Ok (VStr "Unknown Patient")
    end
  else Ok (VStr "Unknown Patient").

Definition drug_name (db : database) (drug_id : value) : result value :=
  if truthy drug_id then
    q <- match_either "Drug_Id" "drug_id" drug_id ;;
    let drug := find_one db "Drug" q (only ["Brand_Name"; "brand_name"]) in
    match drug with
    | Some d =>
        if found drug then
          Ok (py_or (py_or (dict_get "Brand_Name" d) (dict_get "brand_name" d))
                    (VStr "Unknown Drug"))
        else Ok (VStr "Unknown Drug")
    | None => Ok (VStr "Unknown Drug")
    end
  else Ok (VStr "Unknown Drug").

(** The dictionary appended to [result]. *)
Definition listing (db : database) (rx : dict) : result dict :=
  let patient_id := py_or (dict_get "Patient_Id" rx) (dict_get "patient_id" rx) in
  let drug_id := py_or (dict_get "Drug_Id" rx) (dict_get "drug_id" rx) in
  patient_name <- patient_name db patient_id ;;
  drug_name <- drug_name db drug_id ;;
  Ok [ ("prescription_id", rx_id rx);
       ("patient_name", patient_name);
       ("drug_name", drug_name);
       ("dosage",
         py_or (py_or (py_or (dict_get "Dosage_Instruction" rx) (dict_get "dosage" rx))
                      (dict_get "Dosage" rx))
               (VStr ""));
       ("dispensed_at", py_or (dict_get "Dispensed_At" rx) (dict_get "dispensed_at" rx)) ].

(** One turn of [for rx in prescriptions], on [result] and [seen_ids]. *)
Definition rx_step (db : database) (st : list dict * list value) (rx : dict)
  : result (list dict * list value) :=
  let id := rx_id rx in
  seen <- set_contains (snd st) id ;;
  if seen then Ok st
  else
    entry <- listing db rx ;;
    Ok (fst st ++ [entry], snd st ++ [id]).

(** [db.Prescription.find({}, {"_id": 0}).sort("Prescription_Id", -1).limit(100)] *)
Definition fetched (db : database) : list dict :=
  map without_id
      (firstn 100 (cursor_sort "Prescription_Id" (-1) (collection db "Prescription"))).

Definition get_all_prescriptions : M response :=
  try_except
    (db <~ get_db ;;
     let prescriptions := fetched db in
     st <~ lift (for_each (rx_step db) prescriptions ([], [])) ;;
     b <~ lift (flask_jsonify (_sanitize_for_json (VList (map VDict (fst st))))) ;;
     ret {| status := 200; body := b |})
    (fun e =>
       _ <~ logger_exception "Error fetching all prescriptions" ;;
       b <~ lift (flask_jsonify (VDict [("error", VStr (str_exn e))])) ;;
       ret {| status := 500; body := b |}).

End AppPrescriptions.
End AppPrescriptions.

(** ** The prescriptions listed *)

Module Listed.
Section Listed.
Context {rt : Runtime} {fw : Framework}.

(** The prescriptions whose id was not seen before, in order. *)
Fixpoint firsts (seen : list value) (rxs : list dict) : list dict :=
  match rxs with
  | [] => []
  | rx :: rest =>
      let id := AppPrescriptions.rx_id rx in
      if existsb (fun s => key_eqb s id) seen then firsts seen rest
      else rx :: firsts (seen ++ [id]) rest
  end.

(** No id read is a document or an array. *)
Definition hashable_ids (rxs : list dict) : bool :=
  forallb (fun rx => match unhashable_type (AppPrescriptions.rx_id rx) with
                     | Some _ => false
                     | None => true
                     end) rxs.

(** The type that stops the loop: that of the first id that cannot be
    hashed. *)
Fixpoint first_unhashable (rxs : list dict) : option string :=
  match rxs with
  | [] => None
  | rx :: rest =>
      match unhashable_type (AppPrescriptions.rx_id rx) with
      | Some t => Some t
      | None => first_unhashable rest
      end
  end.

(** The value is not a document of query operators. *)
Definition plain (v : value) : bool :=
  match v with
  | VDict spec => negb (is_operator spec)
  | _ => true
  end.

(** The patient and the drug of the prescription are named by plain
    values. *)
Definition plain_ids (rx : dict) : bool :=
  plain (py_or (dict_get "Patient_Id" rx) (dict_get "patient_id" rx))
  && plain (py_or (dict_get "Drug_Id" rx) (dict_get "drug_id" rx)).

(** The name of a patient: the two names found, or "Unknown Patient". *)
Definition name_of (db : database) (patient_id : value) : value :=
  if truthy patient_id then
    match find (fun d => q_eq "Patient_Id" patient_id d || q_eq "patient_id" patient_id d)
               (collection db "Patient") with
    | Some doc =>
        let p := only ["First_Name"; "Last_Name"; "first_name"; "last_name"] doc in
        match p with
        | [] => VStr "Unknown Patient"
        | _ =>
            let first := py_or (py_or (dict_get "First_Name" p) (dict_get "first_name" p))
                               (VStr "") in
            let last := py_or (py_or (dict_get "Last_Name" p) (dict_get "last_name" p))
                              (VStr "") in
            VStr (str_strip (AppPrescriptions.format_value first ++ " "
                               ++ AppPrescriptions.format_value last))
        end
    | None => VStr "Unknown Patient"
    end
  else VStr "Unknown Patient".

(** The brand of a drug, or "Unknown Drug". *)
Definition brand_of (db : database) (drug_id : value) : value :=
  if truthy drug_id then
    match find (fun d => q_eq "Drug_Id" drug_id d || q_eq "drug_id" drug_id d)
               (collection db "Drug") with
    | Some doc =>
        let d := only ["Brand_Name"; "brand_name"] doc in
        match d with
        | [] => VStr "Unknown Drug"
        | _ => py_or (py_or (dict_get "Brand_Name" d) (dict_get "brand_name" d))
                     (VStr "Unknown Drug")
        end
    | None => VStr "Unknown Drug"
    end
  else VStr "Unknown Drug".

(** The entry of a prescription. *)
Definition entry_of (db : database) (rx : dict) : dict :=
  [ ("prescription_id", AppPrescriptions.rx_id rx);
    ("patient_name",
      name_of db (py_or (dict_get "Patient_Id" rx) (dict_get "patient_id" rx)));
    ("drug_name", brand_of db (py_or (dict_get "Drug_Id" rx) (dict_get "drug_id" rx)));
    ("dosage",
      py_or (py_or (py_or (dict_get "Dosage_Instruction" rx) (dict_get "dosage" rx))
                   (dict_get "Dosage" rx))
            (VStr ""));
    ("dispensed_at", py_or (dict_get "Dispensed_At" rx) (dict_get "dispensed_at" rx)) ].

End Listed.
End Listed.

Module Pharmacy.

(** Three prescriptions, two of them with the same id under the two
    spellings of the field; the third names a patient and a drug that do not
    exist. *)
Definition pharmacy : database :=
  [ ("Patient", [ Sample.patient 1 "Ann" "Lee" ]);
    ("Drug", [ [ ("_id", Sample.oid "88" 3); ("drug_id", VNum 3);
                 ("brand_name", VStr "Amoxil") ] ]);
    ("Prescription",
      [ [ ("_id", Sample.oid "99" 1); ("Prescription_Id", VNum 5);
          ("Patient_Id", VNum 1); ("Drug_Id", VNum 3);
          ("Dosage_Instruction", VStr "one a day") ];
        [ ("_id", Sample.oid "99" 2); ("prescription_id", VNum 5);
          ("patient_id", VNum 1); ("drug_id", VNum 3) ];
        [ ("_id", Sample.oid "99" 3); ("prescription_id", VNum 4);
          ("patient_id", VNum 9); ("drug_id", VNum 8) ] ]) ].

Definition world : world := {| w_db := pharmacy; w_log := [] |}.

End Pharmacy.

(** ** [/connect] *)

(** A request that may carry a JSON body. *)
Record json_request : Type := mk_json_request {
  jr_request : request;
  jr_is_json : bool;           (* [request.is_json] *)
  jr_json : option value       (* [request.get_json(silent=True)] *)
}.

(** [db.list_collection_names()] *)
Definition list_collection_names (db : database) : list string := map fst db.

Section Connect.
Context {fw : Framework}.

(** [db[name].find_one({k: v}, {'_id': 0})] *)
Definition find_one_by (db : database) (name k : string) (v : value)
  : result (option dict) :=
  q <- match_field k v ;;
  Ok (find_one db name q without_id).

(** [str(e)] *)
Definition str_error (e : error) : string :=
  match e with
  | Exn e => str_exn e
  | KeyError key => repr_str key
  | AttributeError msg => msg
  end.

End Connect.

Module AppConnect.
Section AppConnect.
Context {fw : Framework}.

(** The token, from the query string or the JSON body. *)
Definition read_token (req : json_request) : outcome value :=
  let token := match args_get "token" (jr_request req) with
               | Some s => VStr s
               | None => VNone
               end in
  if negb (truthy token) && jr_is_json req then
    (* request.get_json(silent=True) and request.get_json().get('token') *)
    match jr_json req with
    | None => Returns VNone
    | Some parsed =>
        if truthy parsed then
          match parsed with
          | VDict d => Returns (dict_get "token" d)
          | _ => Raises (AttributeError (no_attribute parsed))
          end
        else Returns parsed
    end
  else Returns token.

Definition candidate_collections : list string :=
  ["auth_tokens"; "tokens"; "sessions"; "api_tokens"].

(** [for coll_name in candidate_collections], until the [break]. *)
Fixpoint search (db : database) (token : value) (names : list string)
  : result (option (string * dict)) :=
  match names with
  | [] => Ok None
  | coll_name :: rest =>
      if existsb (String.eqb coll_name) (list_collection_names db) then
        doc <- find_one_by db coll_name "token" token ;;
        match doc with
        | Some d => if found doc then Ok (Some (coll_name, d)) else search db token rest
        | None => search db token rest
        end
      else search db token rest
  end.

(** The second look, in [users]. *)
Definition search_users (db : database) (token : value)
  : result (option (string * dict)) :=
  if existsb (String.eqb "users") (list_collection_names db) then
    user_doc <- find_one_by db "users" "api_token" token ;;
    match user_doc with
    | Some d => if found user_doc then Ok (Some ("users", d)) else Ok None
    | None => Ok None
    end
  else Ok None.

(** The body of the [try]. *)
Definition connect (db : database) (req : json_request) : outcome response :=
  token <-- read_token req ;;
  if negb (truthy token) then
    b <-- of_result (flask_jsonify (VDict [("error", VStr "token parameter required")])) ;;
    Returns {| status := 400; body := b |}
  else
    first <-- of_result (search db token candidate_collections) ;;
    second <-- match first with
               | Some _ => Returns first
               | None => of_result (search_users db token)
               end ;;
    match second with
    | None =>
        b <-- of_result (flask_jsonify (VDict [("error", VStr "token not found")])) ;;
        Returns {| status := 404; body := b |}
    | Some (source, document) =>
        b <-- of_result
                (flask_jsonify (VDict [ ("status", VStr "ok"); ("source", VStr source);
                                        ("data", VDict document) ])) ;;
        Returns {| status := 200; body := b |}
    end.

(** [/connect]: the [try] and its handler. *)
Definition connect_with_token (req : json_request) : M response := fun w =>
  match connect (w_db w) req with
  | Returns resp => (Ok resp, w)
  | Raises e =>
      (_ <~ logger_exception "Error in /connect endpoint" ;;
       b <~ lift (flask_jsonify (VDict [ ("error", VStr "internal server error");
                                         ("detail", VStr (str_error e)) ])) ;;
       ret {| status := 500; body := b |}) w
  end.

End AppConnect.
End AppConnect.

(** ** Who holds a token *)

Module Holders.

(** The first document of the collection [name] whose field [k] is the
    text [token], when there is such a collection. *)
Definition holder (db : database) (k token name : string) : option dict :=
  if existsb (String.eqb name) (list_collection_names db)
  then find (q_eq k (VStr token)) (collection db name)
  else None.

(** The first of the collections that holds the token. *)
Fixpoint first_holder (db : database) (token : string) (names : list string)
  : option (string * dict) :=
  match names with
  | [] => None
  | name :: rest =>
      match holder db "token" token name with
      | Some d => Some (name, d)
      | None => first_holder db token rest
      end
  end.

(** Where the token is found: in the candidate collections, then in
    [users]. *)
Definition located (db : database) (token : string) : option (string * dict) :=
  match first_holder db token AppConnect.candidate_collections with
  | Some cd => Some cd
  | None =>
      match holder db "api_token" token "users" with
      | Some d => Some ("users", d)
      | None => None
      end
  end.

(** A clinic with the same token in two collections. *)
Definition registry : database :=
  [ ("sessions", [ [ ("_id", Sample.oid "77" 1); ("token", VStr "abc");
                     ("user", VStr "ann") ] ]);
    ("tokens", [ [ ("_id", Sample.oid "77" 2); ("token", VStr "xyz");
                   ("user", VStr "bob") ];
                 [ ("_id", Sample.oid "77" 3); ("token", VStr "abc");
                   ("user", VStr "eve") ] ]);
    ("users", [ [ ("_id", Sample.oid "77" 4); ("api_token", VStr "key");
                  ("name", VStr "Ann") ] ]) ].

End Holders.

(** ** [/prescriptions/<id>/details] (app.py) *)

(** *** The string methods of [get_field], on ASCII text *)

Definition is_lower (c : ascii) : bool :=
  ((97 <=? nat_of_ascii c) && (nat_of_ascii c <=? 122))%nat.

Definition is_upper (c : ascii) : bool :=
  ((65 <=? nat_of_ascii c) && (nat_of_ascii c <=? 90))%nat.

Definition upper (c : ascii) : ascii :=
  if is_lower c then ascii_of_nat (nat_of_ascii c - 32) else c.

Definition lower (c : ascii) : ascii :=
  if is_upper c then ascii_of_nat (nat_of_ascii c + 32) else c.

Fixpoint map_string (f : ascii -> ascii) (s : string) : string :=
  match s with
  | EmptyString => EmptyString
  | String c rest => String (f c) (map_string f rest)
  end.

(** [s.title()]: a letter after a letter is lowered, any other letter is
    raised. *)
Fixpoint title_from (previous_is_cased : bool) (s : string) : string :=
  match s with
  | EmptyString => EmptyString
  | String c rest =>
      if is_lower c || is_upper c then
        String (if previous_is_cased then lower c else upper c) (title_from true rest)
      else String c (title_from false rest)
  end.

Definition title (s : string) : string := title_from false s.

(** [s.capitalize()] *)
Definition capitalize (s : string) : string :=
  match s with
  | EmptyString => EmptyString
  | String c rest => String (upper c) (map_string lower rest)
  end.

(** [s.split(sep)] for a separator of one character. *)
Fixpoint split (sep : ascii) (s : string) : list string :=
  match s with
  | EmptyString => [EmptyString]
  | String c rest =>
      if Ascii.eqb c sep then EmptyString :: split sep rest
      else match split sep rest with
           | part :: parts => String c part :: parts
           | [] => [String c EmptyString]
           end
  end.

Module AppDetails.
Section AppDetails.
Context {rt : Runtime} {fw : Framework}.

(** The nested [get_field(doc, field_name)]; [None] is the document that
    was not found. *)
Definition get_field (doc : option dict) (field_name : string) : value :=
  if negb (found doc) then VNone
  else
    let doc := match doc with Some d => d | None => [] end in
    match lookup field_name doc with
    | Some v => v
    | None =>
        let capitalized := title field_name in
        match lookup capitalized doc with
        | Some v => v
        | None =>
            let parts := split "_" field_name in
            let cap_field := String.concat "_" (map capitalize parts) in
            match lookup cap_field doc with
            | Some v => v
            | None => VNone
            end
        end
    end.

(** [db.<name>.find_one({k1: v}) or db.<name>.find_one({k2: v})] *)
Definition find_either (db : database) (name k1 k2 : string) (v : value)
  : result (option dict) :=
  q1 <- match_field k1 v ;;
  let first := find_one db name q1 (fun d => d) in
  if found first then Ok first
  else
    q2 <- match_field k2 v ;;
    Ok (find_one db name q2 (fun d => d)).

(** [x = None; if id: x = db.<name>.find_one(..) or db.<name>.find_one(..)] *)
Definition related (db : database) (name k1 k2 : string) (id : value)
  : result (option dict) :=
  if truthy id then find_either db name k1 k2 id else Ok None.

(** [_sanitize_for_json(doc)] for a document or [None]. *)
Definition sanitized (doc : option dict) : value :=
  _sanitize_for_json (match doc with Some d => VDict d | None => VNone end).

(** The prescription of the id, under either spelling of the field. *)
Definition prescription_of (db : database) (prescription_id : Z) : option dict :=
  let prescription :=
    find_one db "Prescription" (q_eq "prescription_id" (VNum (inject_Z prescription_id)))
             (fun d => d) in
  if negb (found prescription) then
    find_one db "Prescription" (q_eq "Prescription_Id" (VNum (inject_Z prescription_id)))
             (fun d => d)
  else prescription.

(** The body of the [try]. *)
Definition details (db : database) (prescription_id : Z) : result response :=
  let prescription := prescription_of db prescription_id in
  if negb (found prescription) then
    b <- flask_jsonify (VDict [("error", VStr "Prescription not found")]) ;;
    Ok {| status := 404; body := b |}
  else
    let visit_id :=
      py_or (get_field prescription "visit_id") (get_field prescription "Visit_Id") in
    let drug_id :=
      py_or (get_field prescription "drug_id") (get_field prescription "Drug_Id") in
    let patient_id :=
      py_or (get_field prescription "patient_id") (get_field prescription "Patient_Id") in
    let dispensed_by_id :=
      py_or (get_field prescription "dispensed_by")
            (get_field prescription "Dispensed_By") in
    patient <- related db "Patient" "patient_id" "Patient_Id" patient_id ;;
    drug <- related db "Drug" "drug_id" "Drug_Id" drug_id ;;
    visit <- related db "Visit" "visit_id" "Visit_Id" visit_id ;;
    dispensed_by <- related db "Staff" "staff_id" "Staff_Id" dispensed_by_id ;;
    patient <-
      (if negb (found patient) && found visit then
         let visit_patient_id :=
           py_or (get_field visit "patient_id") (get_field visit "Patient_Id") in
         if truthy visit_patient_id then
           find_either db "Patient" "patient_id" "Patient_Id" visit_patient_id
         else Ok patient
       else Ok patient) ;;
    let result :=
      VDict [ ("prescription", sanitized prescription);
              ("patient", sanitized patient);
              ("drug", sanitized drug);
              ("visit", sanitized visit);
              ("dispensed_by", sanitized dispensed_by) ] in
    b <- flask_jsonify result ;;
    Ok {| status := 200; body := b |}.

Definition get_prescription_details (prescription_id : Z) : M response :=
  try_except
    (db <~ get_db ;;
     lift (details db prescription_id))
    (fun e =>
       _ <~ logger_exception "Error fetching prescription details" ;;
       b <~ lift (flask_jsonify (VDict [("error", VStr (str_exn e))])) ;;
       ret {| status := 500; body := b |}).

End AppDetails.
End AppDetails.

(** A document of the collection, or [None]. *)
Definition taken_from (db : database) (name : string) (doc : option dict) : Prop :=
  match doc with
  | Some d => In d (collection db name)
  | None => True
  end.

(** A field name of small letters and underscores. *)
Fixpoint lowercase_name (s : string) : bool :=
  match s with
  | EmptyString => true
  | String c rest => (is_lower c || Ascii.eqb c "_") && lowercase_name rest
  end.

(** A field name of letters and underscores. *)
Fixpoint word_name (s : string) : bool :=
  match s with
  | EmptyString => true
  | String c rest => (is_lower c || is_upper c || Ascii.eqb c "_") && word_name rest
  end.

Module Dispensary.

(** A prescription that names its visit but no patient: the patient is the
    one of the visit. *)
Definition dispensary : database :=
  [ ("Patient", [ Sample.patient 1 "Ann" "Lee" ]);
    ("Visit", [ [ ("_id", Sample.oid "77" 2); ("visit_id", VNum 2);
                  ("patient_id", VNum 1) ] ]);
    ("Drug", [ [ ("_id", Sample.oid "88" 3); ("Drug_Id", VNum 3);
                 ("Brand_Name", VStr "Amoxil") ] ]);
    ("Prescription",
      [ [ ("_id", Sample.oid "99" 1); ("Prescription_Id", VNum 5);
          ("Visit_Id", VNum 2); ("Drug_Id", VNum 3) ] ]) ].

Definition world : world := {| w_db := dispensary; w_log := [] |}.

End Dispensary.

(* ===================================================================== *)
(** * Part II: properties *)
(* ===================================================================== *)

(** ** Dictionaries *)

Lemma lookup_dict_set_same k v d : lookup k (dict_set k v d) = Some v.
Proof.
  induction d as [|[k' v'] d IH]; simpl.
  - now rewrite String.eqb_refl.
  - destruct (String.eqb k k') eqn:E; simpl; rewrite ?String.eqb_refl, ?E; auto.
Qed.

Lemma lookup_dict_set_other k k' v d :
  k <> k' -> lookup k (dict_set k' v d) = lookup k d.
Proof.
  intros Hk. apply String.eqb_neq in Hk.
  induction d as [|[k2 v2] d IH]; simpl.
  - now rewrite Hk.
  - destruct (String.eqb k' k2) eqn:E; simpl.
    + apply String.eqb_eq in E. subst k2. now rewrite Hk.
    + destruct (String.eqb k k2); auto.
Qed.

Lemma dict_set_twice k v w d : dict_set k w (dict_set k v d) = dict_set k w d.
Proof.
  induction d as [|[k' v'] d IH]; simpl.
  - now rewrite String.eqb_refl.
  - destruct (String.eqb k k') eqn:E; simpl; rewrite ?String.eqb_refl, ?E; congruence.
Qed.

Lemma existsb_eqb_In k ks : existsb (String.eqb k) ks = true <-> In k ks.
Proof.
  rewrite existsb_exists. split.
  - intros [x [Hx E]]. apply String.eqb_eq in E. now subst.
  - intros H. exists k. split; auto. apply String.eqb_refl.
Qed.

Lemma dict_set_fresh k v d :
  existsb (String.eqb k) (map fst d) = false -> dict_set k v d = d ++ [(k, v)].
Proof.
  induction d as [|[k' v'] d IH]; simpl; auto.
  intros H. apply orb_false_iff in H. destruct H as [E H].
  rewrite E. now rewrite IH.
Qed.

Lemma dict_set_keys k v d :
  map fst (dict_set k v d)
  = if existsb (String.eqb k) (map fst d) then map fst d else map fst d ++ [k].
Proof.
  induction d as [|[k' v'] d IH]; simpl; auto.
  destruct (String.eqb k k') eqn:E; simpl.
  - apply String.eqb_eq in E. now subst.
  - rewrite IH. now destruct (existsb (String.eqb k) (map fst d)).
Qed.

Lemma dict_set_forallb (Q : string * value -> bool) k v d :
  Q (k, v) = true -> forallb Q d = true -> forallb Q (dict_set k v d) = true.
Proof.
  intros Hkv. induction d as [|[k' v'] d IH]; simpl.
  - now rewrite Hkv.
  - intros H. apply andb_true_iff in H. destruct H as [H1 H2].
    destruct (String.eqb k k'); simpl.
    + now rewrite Hkv, H2.
    + now rewrite H1, IH.
Qed.

Lemma distinct_app_fresh ks k :
  distinct ks = true -> existsb (String.eqb k) ks = false -> distinct (ks ++ [k]) = true.
Proof.
  induction ks as [|a ks IH]; simpl; auto.
  intros H1 H2. apply andb_true_iff in H1. destruct H1 as [Ha Hd].
  apply orb_false_iff in H2. destruct H2 as [Hka Hk].
  rewrite IH by auto. rewrite andb_true_r.
  rewrite existsb_app. simpl. rewrite orb_false_r.
  apply negb_true_iff in Ha. rewrite Ha. simpl.
  rewrite String.eqb_sym. now rewrite Hka.
Qed.

Lemma dict_set_distinct k v d :
  distinct (map fst d) = true -> distinct (map fst (dict_set k v d)) = true.
Proof.
  intros H. rewrite dict_set_keys.
  destruct (existsb (String.eqb k) (map fst d)) eqn:E; auto.
  now apply distinct_app_fresh.
Qed.

Lemma dict_get_forallb (Q : value -> bool) (R : string * value -> bool) k d :
  Q VNone = true ->
  (forall kv, R kv = true -> Q (snd kv) = true) ->
  forallb R d = true -> Q (dict_get k d) = true.
Proof.
  intros HN HR. unfold dict_get.
  induction d as [|[k' v'] d IH]; simpl; auto.
  intros H. apply andb_true_iff in H. destruct H as [H1 H2].
  destruct (String.eqb k k'); auto.
  apply (HR (k', v') H1).
Qed.

(** ** [_sanitize_for_json] *)

Section SanitizeFacts.
Context {rt : Runtime}.

Lemma sanitize_dict items :
  _sanitize_for_json (VDict items) = VDict (fold_left sanitize_step items []).
Proof. reflexivity. Qed.

Lemma sanitize_fold_normal items :
  Forall (fun kv => json_normal (_sanitize_for_json (snd kv)) = true) items ->
  forall acc,
    distinct (map fst acc) = true -> forallb normal_field acc = true ->
    distinct (map fst (fold_left sanitize_step items acc)) = true
    /\ forallb normal_field (fold_left sanitize_step items acc) = true.
Proof.
  induction 1 as [|[k v] items Hv _ IH]; simpl; intros acc Hd Hn; auto.
  apply IH; unfold sanitize_step; simpl; destruct (String.eqb k "_id") eqn:E; auto.
  - now apply dict_set_distinct.
  - apply dict_set_forallb; auto. unfold normal_field. simpl. now rewrite E.
Qed.

Lemma forallb_map_Forall {A B} (f : A -> B) (Q : B -> bool) xs :
  Forall (fun x => Q (f x) = true) xs -> forallb Q (map f xs) = true.
Proof. induction 1; simpl; auto. now rewrite H, IHForall. Qed.

(** The result is a JSON value with proper dictionaries and no [_id]. *)
Lemma sanitize_normal v : json_normal (_sanitize_for_json v) = true.
Proof.
  induction v using value_ind; try reflexivity.
  - simpl. destruct (float_of_decimal128 d); reflexivity.
  - rewrite sanitize_dict. simpl.
    destruct (sanitize_fold_normal items H [] eq_refl eq_refl) as [H1 H2].
    fold normal_field. now rewrite H1, H2.
  - simpl. now apply forallb_map_Forall.
  - simpl. now apply forallb_map_Forall.
  - simpl. now apply forallb_map_Forall.
Qed.

Lemma normal_clean v : json_normal v = true -> json_clean v = true.
Proof.
  induction v using value_ind; simpl; try congruence.
  - intros Hn. apply andb_true_iff in Hn. destruct Hn as [_ Hn].
    induction H as [|[k w] items Hw _ IH]; simpl in *; auto.
    apply andb_true_iff in Hn. destruct Hn as [Hkw Hn].
    apply andb_true_iff in Hkw. destruct Hkw as [Hk Hw'].
    now rewrite Hk, Hw, IH.
  - induction H as [|w xs Hw _ IH]; simpl; auto.
    intros Hn. apply andb_true_iff in Hn. destruct Hn as [H1 H2].
    now rewrite Hw, IH.
Qed.

Lemma sanitize_clean v : json_clean (_sanitize_for_json v) = true.
Proof. apply normal_clean, sanitize_normal. Qed.

Lemma sanitize_fold_id items :
  Forall (fun kv => json_normal (snd kv) = true ->
                    _sanitize_for_json (snd kv) = snd kv) items ->
  forall acc,
    distinct (map fst (acc ++ items)) = true ->
    forallb normal_field items = true ->
    fold_left sanitize_step items acc = acc ++ items.
Proof.
  induction 1 as [|[k v] items Hv _ IH]; simpl; intros acc Hd Hn.
  - now rewrite app_nil_r.
  - apply andb_true_iff in Hn. destruct Hn as [Hkv Hn].
    unfold normal_field in Hkv. simpl in Hkv.
    apply andb_true_iff in Hkv. destruct Hkv as [Hk Hv'].
    apply negb_true_iff in Hk.
    simpl in Hv. unfold sanitize_step at 2. simpl. rewrite Hk, (Hv Hv').
    assert (Hfresh : existsb (String.eqb k) (map fst acc) = false).
    { clear - Hd. induction acc as [|[a w] acc IHa]; simpl in *; auto.
      apply andb_true_iff in Hd. destruct Hd as [Ha Hd].
      rewrite (IHa Hd), orb_false_r.
      apply negb_true_iff in Ha. rewrite map_app, existsb_app in Ha. simpl in Ha.
      apply orb_false_iff in Ha. destruct Ha as [_ Ha].
      apply orb_false_iff in Ha. destruct Ha as [Ha _].
      now rewrite String.eqb_sym. }
    rewrite (dict_set_fresh _ _ _ Hfresh).
    rewrite IH; auto.
    + now rewrite <- app_assoc.
    + now rewrite <- app_assoc.
Qed.

(** On such a value the function changes nothing. *)
Lemma sanitize_normal_id v : json_normal v = true -> _sanitize_for_json v = v.
Proof.
  induction v using value_ind; simpl; try congruence.
  - intros Hn. apply andb_true_iff in Hn. destruct Hn as [Hd Hn].
    fold sanitize_step. f_equal.
    now rewrite (sanitize_fold_id items H []).
  - intros Hn. f_equal.
    induction H as [|w xs Hw _ IH]; simpl in *; auto.
    apply andb_true_iff in Hn. destruct Hn as [H1 H2].
    now rewrite Hw, IH.
Qed.

Lemma sanitize_idempotent v :
  _sanitize_for_json (_sanitize_for_json v) = _sanitize_for_json v.
Proof. apply sanitize_normal_id, sanitize_normal. Qed.

End SanitizeFacts.

(** ** Exceptions and loops *)

Lemma bind_ok {A B} (c : result A) (k : A -> result B) b :
  (x <- c ;; k x) = Ok b <-> exists a, c = Ok a /\ k a = Ok b.
Proof.
  destruct c as [a|e]; simpl; split.
  - intros H. now exists a.
  - intros [a' [E H]]. now inversion E; subst.
  - discriminate.
  - intros [a' [E _]]. discriminate.
Qed.

Lemma Ok_inj {A} (a b : A) : Ok a = Ok b -> a = b.
Proof. congruence. Qed.

Lemma map_result_ok {A B} (f : A -> result B) (g : A -> B) xs ys :
  (forall x y, In x xs -> f x = Ok y -> y = g x) ->
  map_result f xs = Ok ys -> ys = map g xs.
Proof.
  revert ys. induction xs as [|x xs IH]; simpl; intros ys Hg H.
  - now inversion H.
  - apply bind_ok in H. destruct H as [y [Hy H]].
    apply bind_ok in H. destruct H as [ys' [Hys H]].
    inversion H; subst. f_equal.
    + apply Hg; auto.
    + apply IH; auto.
Qed.

Lemma map_result_total {A B} (f : A -> result B) (g : A -> B) xs :
  (forall x, In x xs -> f x = Ok (g x)) -> map_result f xs = Ok (map g xs).
Proof.
  induction xs as [|x xs IH]; simpl; intros H; auto.
  rewrite H by auto. simpl. rewrite IH by auto. reflexivity.
Qed.

Lemma map_result_each {A B} (f : A -> result B) xs ys :
  map_result f xs = Ok ys -> forall x, In x xs -> exists y, f x = Ok y.
Proof.
  revert ys. induction xs as [|a xs IH]; simpl; intros ys H x Hx.
  - contradiction.
  - apply bind_ok in H. destruct H as [y [Hy H]].
    apply bind_ok in H. destruct H as [ys' [Hys _]].
    destruct Hx as [<-|Hx]; eauto.
Qed.

Lemma for_each_app {A S} (step : S -> A -> result S) xs ys acc :
  for_each step (xs ++ ys) acc = (acc' <- for_each step xs acc ;; for_each step ys acc').
Proof.
  revert acc. induction xs as [|x xs IH]; simpl; intros acc; auto.
  destruct (step acc x); simpl; auto.
Qed.

Lemma run_cons s ps db docs :
  run (s :: ps) db docs = (docs' <- s db docs ;; run ps db docs').
Proof. reflexivity. Qed.

(** ** Collections *)

Lemma collection_other db name coll docs :
  name <> coll -> collection ((coll, docs) :: db) name = collection db name.
Proof. intros H. simpl. apply String.eqb_neq in H. now rewrite H. Qed.

Lemma collection_same db name docs : collection ((name, docs) :: db) name = docs.
Proof. simpl. now rewrite String.eqb_refl. Qed.

Lemma join_eq_local l f d d' x :
  lookup l d = lookup l d' -> join_eq l f d x = join_eq l f d' x.
Proof. unfold join_eq. now intros ->. Qed.

(** ** The aggregation pipelines, stage by stage *)

Section PipelineFacts.
Context {rt : Runtime}.

Lemma toDate_ok (e : expr) d x :
E_toDate e d = Ok x ->
exists y, e d = Ok y /\ x = Some (Spec.date_value (Spec.as_date y))
          /\ (Spec.as_date y = None -> nullish y = true).
Proof.
unfold E_toDate. intros H. apply bind_ok in H. destruct H as [y [Hy H]].
exists y. split; auto.
destruct y as [v|]; [destruct v|]; simpl in *;
  try (inversion H; split; auto; discriminate);
  match goal with
  | H : match convert_to_date ?v with _ => _ end = _ |- _ =>
      destruct (convert_to_date v); inversion H; split; auto; discriminate
  end.
Qed.

Lemma stage1 d o :
assign_fields [("invoice_date_dt", E_toDate (E_field "invoice_date"))] d d = Ok o ->
o = dict_set "invoice_date_dt" (Spec.date_value (Spec.as_date (lookup "invoice_date" d))) d.
Proof.
unfold assign_fields. simpl. intros H.
apply bind_ok in H. destruct H as [a [Ha H]].
apply bind_ok in Ha. destruct Ha as [x [Hx Ha]].
apply toDate_ok in Hx. destruct Hx as [y [Hy [-> _]]].
unfold E_field in Hy. inversion Hy; subst. inversion Ha; subst. now inversion H.
Qed.

Lemma stage2 s e dv d :
q_and [q_gte_date "invoice_date_dt" s; q_lt_date "invoice_date_dt" e]
      (dict_set "invoice_date_dt" (Spec.date_value dv) d)
= match dv with Some t => (s <=? t) && (t <? e) | None => false end.
Proof.
unfold q_and, q_gte_date, q_lt_date, query_values. simpl.
rewrite lookup_dict_set_same.
destruct dv; simpl; auto. now rewrite !orb_false_r, andb_true_r.
Qed.

Lemma unwind_lookup ps d :
unwind "patient" (dict_set "patient" (VList (map VDict ps)) d)
= map (fun pat => dict_set "patient" (VDict pat) d) ps.
Proof.
unfold unwind. rewrite lookup_dict_set_same, map_map.
apply map_ext. intros pat. apply dict_set_twice.
Qed.

Lemma match_expr_ok (e : expr) (g : dict -> bool) db docs out :
(forall d x, e d = Ok x -> coerce_bool x = g d) ->
S_match_expr e db docs = Ok out -> out = filter g docs.
Proof.
intros Hg H. unfold S_match_expr in H.
apply bind_ok in H. destruct H as [kept [Hk H]]. inversion H; subst. clear H.
apply (map_result_ok _ (fun d => (g d, d))) in Hk.
- subst kept. clear. induction docs as [|d docs IH]; simpl; auto.
  destruct (g d); simpl; now rewrite IH.
- intros d y _ Hy. apply bind_ok in Hy. destruct Hy as [x [Hx Hy]].
  inversion Hy; subst. now rewrite (Hg d x Hx).
Qed.

Lemma payment_expr_ok inv_id cutoff pay x :
E_and [ E_eq (E_field "invoice_id") (E_const inv_id);
        E_lte (E_toDate (E_field "payment_date"))
              (E_const (Some (VDatetime cutoff))) ] pay = Ok x ->
coerce_bool x
= match operand_compare (lookup "invoice_id" pay) inv_id with
  | Eq => true
  | _ => false
  end && Spec.on_or_before cutoff pay.
Proof.
simpl. unfold E_eq, E_field, E_const. simpl.
destruct (operand_compare (lookup "invoice_id" pay) inv_id) eqn:E; simpl;
  try (intros H; now inversion H).
intros H. apply bind_ok in H. destruct H as [y [Hy H]].
unfold E_lte in Hy. apply bind_ok in Hy. destruct Hy as [t [Ht Hy]].
apply toDate_ok in Ht. destruct Ht as [z [Hz [-> Hnull]]]. inversion Hz; subst z. clear Hz.
simpl in Hy. inversion Hy; subst y. clear Hy.
unfold Spec.on_or_before.
destruct (lookup "payment_date" pay) as [v|]; [destruct v|]; simpl in *;
  try (inversion H; reflexivity);
  try (destruct (convert_to_date _) as [u|]; simpl in *;
       [ unfold Z.leb; destruct (u ?= cutoff); simpl in H; now inversion H
       | now specialize (Hnull eq_refl) ]).
unfold Z.leb; destruct (t ?= cutoff); simpl in H; now inversion H.
Qed.

Lemma sum_path_payments pays d :
lookup "payments" d = Some (VList (map VDict pays)) ->
E_sum (E_path "payments" "amount") d = Ok (Some (VNum (Spec.total_paid pays))).
Proof.
intros H. unfold E_sum, E_path. simpl. rewrite H. do 3 f_equal.
unfold Spec.total_paid, Spec.amounts. f_equal.
clear. induction pays as [|p pays IH]; simpl; auto. now rewrite IH.
Qed.

Lemma subtract_ok k (e2 : expr) q d x :
e2 d = Ok (Some (VNum q)) ->
E_subtract (E_field k) e2 d = Ok x -> x = Some (Spec.balance_due (lookup k d) q).
Proof.
intros H2. unfold E_subtract, E_field. simpl. rewrite H2. simpl.
destruct (lookup k d) as [v|]; [|intros H; now inversion H].
destruct v as [| | | | | |dd| | | | | |]; simpl; try (intros H; now inversion H).
destruct dd; simpl; intros H; now inversion H.
Qed.

Lemma string_app_assoc (a b c : string) : ((a ++ b) ++ c = a ++ (b ++ c))%string.
Proof. induction a as [|ch a IH]; simpl; auto. now rewrite IH. Qed.

Lemma concat_name_ok pat d x :
lookup "patient" d = Some (VDict pat) ->
E_concat [E_path "patient" "first_name"; E_const (Some (VStr " "));
          E_path "patient" "last_name"] d = Ok x ->
x = Some (Spec.full_name pat).
Proof.
intros Hp. unfold E_concat, E_path, E_const, Spec.full_name. simpl. rewrite Hp.
destruct (lookup "first_name" pat) as [f|]; [|intros H; now inversion H].
destruct f; simpl; try (intros H; now inversion H).
destruct (lookup "last_name" pat) as [l|]; [|intros H; now inversion H].
destruct l; simpl; try (intros H; now inversion H).
intros H. inversion H. now rewrite string_app_assoc.
Qed.

(** What the stages make of one invoice. *)
Lemma assign_totals_ok pat pays d o :
lookup "patient" d = Some (VDict pat) ->
lookup "payments" d = Some (VList (map VDict pays)) ->
assign_fields
  [ ("total_paid", E_sum (E_path "payments" "amount"));
    ("balance_due",
      E_subtract (E_field "patient_portion") (E_sum (E_path "payments" "amount")));
    ("patient_name",
      E_concat [E_path "patient" "first_name"; E_const (Some (VStr " "));
                E_path "patient" "last_name"]) ] d d = Ok o ->
o = dict_set "patient_name" (Spec.full_name pat)
      (dict_set "balance_due"
         (Spec.balance_due (lookup "patient_portion" d) (Spec.total_paid pays))
         (dict_set "total_paid" (VNum (Spec.total_paid pays)) d)).
Proof.
intros Hpat Hpays. unfold assign_fields. cbn [for_each fst snd].
rewrite (sum_path_payments pays d Hpays). cbn [bind].
intros H. apply bind_ok in H. destruct H as [d2 [H2 H]].
apply bind_ok in H2. destruct H2 as [x [Hx H2]].
apply (subtract_ok _ _ _ _ _ (sum_path_payments pays d Hpays)) in Hx. subst x.
inversion H2; subst d2. clear H2.
apply bind_ok in H. destruct H as [d3 [H3 H]].
apply bind_ok in H3. destruct H3 as [x [Hx H3]].
apply (concat_name_ok pat) in Hx; auto. subst x.
inversion H3; subst d3. now inversion H.
Qed.

Lemma map_result_ok_map {A B C} (f : B -> result C) (h : A -> B) (g : A -> C) xs ys :
(forall a y, In a xs -> f (h a) = Ok y -> y = g a) ->
map_result f (map h xs) = Ok ys -> ys = map g xs.
Proof.
revert ys. induction xs as [|x xs IH]; simpl; intros ys Hg H.
- now inversion H.
- apply bind_ok in H. destruct H as [y [Hy H]].
  apply bind_ok in H. destruct H as [ys' [Hys H]].
  inversion H; subst. f_equal.
  + apply Hg; auto.
  + apply IH; auto.
Qed.

Lemma with_patient_lookup inv pat k :
k <> "patient" -> k <> "invoice_date_dt" ->
lookup k (Spec.with_patient inv pat) = lookup k inv.
Proof.
intros H1 H2. unfold Spec.with_patient.
now rewrite !lookup_dict_set_other by auto.
Qed.

Lemma unwound db s e invoices :
flat_map (unwind "patient")
  (map (fun d =>
          dict_set "patient"
            (VList (map VDict (filter (join_eq "patient_id" "patient_id" d)
                                      (collection db "Patient")))) d)
     (filter (q_and [ q_gte_date "invoice_date_dt" s; q_lt_date "invoice_date_dt" e ])
        (map (fun d => dict_set "invoice_date_dt"
                         (Spec.date_value (Spec.as_date (lookup "invoice_date" d))) d)
             invoices)))
= map (fun ip => Spec.with_patient (fst ip) (snd ip))
      (Spec.joined db (filter (Spec.issued_in s e) invoices)).
Proof.
induction invoices as [|inv invoices IH]; [reflexivity|].
cbn [map filter]. rewrite stage2. unfold Spec.issued_in at 1.
destruct (Spec.as_date (lookup "invoice_date" inv)) as [t|] eqn:Et; auto.
destruct ((s <=? t) && (t <? e)); auto.
cbn [map flat_map Spec.joined]. rewrite IH, map_app. f_equal.
rewrite unwind_lookup, map_map. unfold Spec.patients_of, Spec.with_patient.
cbn [fst snd]. rewrite Et.
erewrite filter_ext; [reflexivity|].
intros pat. apply join_eq_local. now rewrite lookup_dict_set_other.
Qed.

Lemma lookup_payments_ok db cutoff inv pat o :
(x <- E_field "invoice_id" (Spec.with_patient inv pat) ;;
 found <- run [ S_match_expr
                  (E_and [ E_eq (E_field "invoice_id") (E_const x);
                           E_lte (E_toDate (E_field "payment_date"))
                                 (E_const (Some (VDatetime cutoff))) ]) ]
              db (collection db "Payment") ;;
 Ok (dict_set "payments" (VList (map VDict found)) (Spec.with_patient inv pat))) = Ok o ->
o = dict_set "payments" (VList (map VDict (Spec.payments_by db cutoff inv)))
      (Spec.with_patient inv pat).
Proof.
unfold E_field at 1. cbn [bind]. rewrite with_patient_lookup by discriminate.
intros H. apply bind_ok in H. destruct H as [found [Hf H]].
inversion H; subst o. clear H. rewrite run_cons in Hf.
apply bind_ok in Hf. destruct Hf as [out [Hout Hf]]. inversion Hf; subst out. clear Hf.
apply (match_expr_ok _ (fun pay => Spec.same_invoice inv pay
                                   && Spec.on_or_before cutoff pay)) in Hout.
- now subst found.
- intros pay x Hx. now apply payment_expr_ok in Hx.
Qed.

Lemma monthly_rows db s e rows :
aggregate db "Invoice" (ReportService.monthly_pipeline s e) = Ok rows ->
rows = Spec.invoice_rows db s e.
Proof.
unfold aggregate, ReportService.monthly_pipeline. intros H.
rewrite run_cons in H. apply bind_ok in H. destruct H as [l1 [H1 H]].
apply (map_result_ok _ (fun d => dict_set "invoice_date_dt"
         (Spec.date_value (Spec.as_date (lookup "invoice_date" d))) d)) in H1;
  [|intros d o _; apply stage1].
subst l1.
rewrite run_cons in H. cbn [S_match bind] in H.
rewrite run_cons in H. unfold S_lookup at 1 in H. cbn [bind] in H.
rewrite run_cons in H. unfold S_unwind at 1 in H. cbn [bind] in H.
rewrite unwound in H.
rewrite run_cons in H. apply bind_ok in H. destruct H as [l5 [H5 H]].
unfold S_lookup_pipeline in H5.
apply (map_result_ok_map _ _
         (fun ip => dict_set "payments"
                      (VList (map VDict (Spec.payments_by db e (fst ip))))
                      (Spec.with_patient (fst ip) (snd ip)))) in H5;
  [|intros [inv pat] o _; apply lookup_payments_ok].
subst l5.
rewrite run_cons in H. unfold S_lookup at 1 in H. cbn [bind] in H.
rewrite map_map in H.
rewrite run_cons in H. apply bind_ok in H. destruct H as [l7 [H7 H]].
unfold S_addFields in H7.
apply (map_result_ok_map _ _ (fun ip => Spec.invoice_totals (Spec.look_up db e ip))) in H7.
- subst l7. rewrite run_cons in H. cbn [S_project_fields bind run] in H.
  inversion H. unfold Spec.invoice_rows, Spec.matched. now rewrite !map_map.
- intros [inv pat] o _ Ho. cbn [fst snd] in Ho.
  apply (assign_totals_ok pat (Spec.payments_by db e inv)) in Ho.
  + subst o. unfold Spec.invoice_totals, Spec.look_up.
    cbn [fold_left fst snd Spec.lk_invoice Spec.lk_patient Spec.lk_payments Spec.lk_lines].
    rewrite !lookup_dict_set_other by discriminate.
    rewrite with_patient_lookup by discriminate.
    unfold Spec.lines_of, Spec.with_patient.
    erewrite (filter_ext (join_eq "invoice_id" "invoice_id" _)); [reflexivity|].
    intros l. apply join_eq_local.
    now rewrite !lookup_dict_set_other by discriminate.
  + rewrite !lookup_dict_set_other by discriminate. apply lookup_dict_set_same.
  + rewrite lookup_dict_set_other by discriminate. apply lookup_dict_set_same.
Qed.

Lemma unwound_plain db (q : dict -> bool) invoices :
  flat_map (unwind "patient")
    (map (fun d =>
            dict_set "patient"
              (VList (map VDict (filter (join_eq "patient_id" "patient_id" d)
                                        (collection db "Patient")))) d)
       (filter q invoices))
  = map (fun ip => dict_set "patient" (VDict (snd ip)) (fst ip))
        (Spec.joined db (filter q invoices)).
Proof.
  induction (filter q invoices) as [|inv invs IH]; [reflexivity|].
  cbn [map flat_map Spec.joined]. rewrite IH, map_app. f_equal.
  now rewrite unwind_lookup, map_map.
Qed.

Lemma outstanding_project_ok db inv pat o :
  let d := dict_set "payments" (VList (map VDict (Spec.payments_of db inv)))
             (dict_set "patient" (VDict pat) inv) in
  assign_fields
    [ ("patient_name",
        E_concat [E_path "patient" "first_name"; E_const (Some (VStr " "));
                  E_path "patient" "last_name"]);
      ("patient_id", E_field "patient_id");
      ("invoice_id", E_field "invoice_id");
      ("total_amount", E_field "total_amount");
      ("patient_portion", E_field "patient_portion");
      ("total_paid", E_sum (E_path "payments" "amount"));
      ("balance_due",
        E_subtract (E_field "patient_portion") (E_sum (E_path "payments" "amount"))) ]
    d
    match lookup "_id" d with
    | Some v => [("_id", v)]
    | None => []
    end = Ok o ->
  o = Spec.outstanding_row db (inv, pat).
Proof.
  intros d.
  assert (Hpat : lookup "patient" d = Some (VDict pat)).
  { unfold d. rewrite lookup_dict_set_other by discriminate. apply lookup_dict_set_same. }
  assert (Hpays : lookup "payments" d
                  = Some (VList (map VDict (Spec.payments_of db inv)))).
  { apply lookup_dict_set_same. }
  assert (Hinv : forall k, k <> "patient" -> k <> "payments" -> lookup k d = lookup k inv).
  { intros k H1 H2. unfold d. now rewrite !lookup_dict_set_other by auto. }
  unfold assign_fields. cbn [for_each fst snd]. unfold E_field. cbn [bind].
  rewrite (sum_path_payments _ d Hpays). cbn [bind].
  rewrite !Hinv by discriminate.
  intros H. apply bind_ok in H. destruct H as [d1 [H1 H]].
  apply bind_ok in H1. destruct H1 as [x [Hx H1]].
  apply (concat_name_ok pat) in Hx; auto. subst x. inversion H1; subst d1. clear H1.
  apply bind_ok in H. destruct H as [d2 [H2 H]].
  apply bind_ok in H2. destruct H2 as [x [Hx H2]].
  apply (subtract_ok _ _ _ _ _ (sum_path_payments _ d Hpays)) in Hx. subst x.
  rewrite Hinv in H2 by discriminate.
  inversion H2; subst d2. clear H2. now inversion H.
Qed.

Lemma outstanding_rows db rows :
  ReportService.get_outstanding_balances db = Ok rows ->
  rows = Spec.outstanding_rows db.
Proof.
  unfold ReportService.get_outstanding_balances, aggregate,
    ReportService.outstanding_pipeline.
  intros H.
  rewrite run_cons in H. cbn [S_match bind] in H.
  rewrite run_cons in H. unfold S_lookup at 1 in H. cbn [bind] in H.
  rewrite run_cons in H. unfold S_unwind at 1 in H. cbn [bind] in H.
  rewrite unwound_plain in H.
  rewrite run_cons in H. unfold S_lookup at 1 in H. cbn [bind] in H.
  rewrite map_map in H.
  rewrite run_cons in H. apply bind_ok in H. destruct H as [l5 [H5 H]].
  unfold S_project in H5.
  apply (map_result_ok_map _ _ (Spec.outstanding_row db)) in H5.
  - subst l5. rewrite run_cons in H. cbn [S_match bind run] in H. now inversion H.
  - intros [inv pat] o _ Ho. cbn [fst snd] in Ho.
    apply outstanding_project_ok.
    erewrite (filter_ext (join_eq "invoice_id" "invoice_id" _)) in Ho; [exact Ho|].
    intros l. apply join_eq_local. now rewrite lookup_dict_set_other by discriminate.
Qed.

Import Spec.

Lemma toDate_iff (e : expr) d y :
  e d = Ok y ->
  (exists x, E_toDate e d = Ok x) <-> date_ok y = true.
Proof.
  intros Hy. unfold E_toDate, date_ok. rewrite Hy. cbn [bind].
  destruct y as [v|]; [destruct v|]; cbn [nullish orb as_date];
    try (split; [reflexivity|eauto]);
    destruct (convert_to_date _); split; eauto; try discriminate;
    intros [x Hx]; discriminate.
Qed.

Lemma toDate_total (e : expr) d y :
  e d = Ok y -> date_ok y = true ->
  E_toDate e d = Ok (Some (date_value (as_date y))).
Proof.
  intros Hy Hok. apply (toDate_iff e d y Hy) in Hok. destruct Hok as [x Hx].
  rewrite Hx. apply toDate_ok in Hx. destruct Hx as [y' [Hy' [Hx _]]].
  rewrite Hy in Hy'. apply Ok_inj in Hy'. now subst.
Qed.

Lemma stage1_iff d :
  (exists o, assign_fields [("invoice_date_dt", E_toDate (E_field "invoice_date"))] d d = Ok o)
  <-> date_ok (lookup "invoice_date" d) = true.
Proof.
  rewrite <- (toDate_iff (E_field "invoice_date") d _ eq_refl).
  unfold assign_fields. cbn [for_each fst snd]. split.
  - intros [o H]. apply bind_ok in H. destruct H as [a [Ha _]].
    apply bind_ok in Ha. destruct Ha as [x [Hx _]]. eauto.
  - intros [x Hx]. rewrite Hx. cbn [bind]. eauto.
Qed.

Lemma payment_expr_iff inv_id cutoff pay :
  (exists x, E_and [ E_eq (E_field "invoice_id") (E_const inv_id);
                     E_lte (E_toDate (E_field "payment_date"))
                           (E_const (Some (VDatetime cutoff))) ] pay = Ok x)
  <-> (match operand_compare (lookup "invoice_id" pay) inv_id with
       | Eq => false
       | _ => true
       end || date_ok (lookup "payment_date" pay)) = true.
Proof.
  cbn [E_and]. unfold E_eq, E_field, E_const. cbn [bind].
  destruct (operand_compare (lookup "invoice_id" pay) inv_id) eqn:E;
    cbn [coerce_bool orb negb];
    try (split; [reflexivity|intros _; eexists; reflexivity]).
  rewrite <- (toDate_iff (E_field "payment_date") pay _ eq_refl).
  unfold E_lte. split.
  - intros [x H]. apply bind_ok in H. destruct H as [y [Hy _]].
    apply bind_ok in Hy. destruct Hy as [t [Ht _]]. eauto.
  - intros [t Ht]. unfold E_field in Ht. rewrite Ht. cbn [bind].
    destruct (coerce_bool _); eauto.
Qed.

Lemma map_result_all {A B} (f : A -> result B) xs :
  (exists ys, map_result f xs = Ok ys) <-> (forall x, In x xs -> exists y, f x = Ok y).
Proof.
  split.
  - intros [ys H]. eapply map_result_each; eauto.
  - induction xs as [|x xs IH]; intros H; cbn [map_result]; eauto.
    destruct (H x) as [y Hy]; [now left|]. rewrite Hy. cbn [bind].
    destruct IH as [ys Hys]; [intros; apply H; now right|]. rewrite Hys. cbn [bind]. eauto.
Qed.

Lemma match_expr_iff (e : expr) db docs :
  (exists out, S_match_expr e db docs = Ok out)
  <-> (forall d, In d docs -> exists x, e d = Ok x).
Proof.
  unfold S_match_expr. split.
  - intros [out H] d Hd. apply bind_ok in H. destruct H as [kept [Hk _]].
    destruct (map_result_each _ _ _ Hk d Hd) as [y Hy].
    apply bind_ok in Hy. destruct Hy as [x [Hx _]]. eauto.
  - intros H.
    destruct (proj2 (map_result_all (fun d => x <- e d ;; Ok (coerce_bool x, d)) docs))
      as [kept Hk].
    + intros d Hd. destruct (H d Hd) as [x Hx]. rewrite Hx. cbn [bind]. eauto.
    + rewrite Hk. cbn [bind]. eauto.
Qed.

Lemma lookup_payments_iff db cutoff inv pat :
  (exists o,
     (x <- E_field "invoice_id" (with_patient inv pat) ;;
      found <- run [ S_match_expr
                       (E_and [ E_eq (E_field "invoice_id") (E_const x);
                                E_lte (E_toDate (E_field "payment_date"))
                                      (E_const (Some (VDatetime cutoff))) ]) ]
                   db (collection db "Payment") ;;
      Ok (dict_set "payments" (VList (map VDict found)) (with_patient inv pat))) = Ok o)
  <-> payments_ok db inv = true.
Proof.
  unfold E_field at 1. cbn [bind]. rewrite with_patient_lookup by discriminate.
  rewrite run_cons. unfold payments_ok. rewrite forallb_forall.
  split.
  - intros [o H] pay Hpay. apply bind_ok in H. destruct H as [found [Hf _]].
    apply bind_ok in Hf. destruct Hf as [out [Hout _]].
    assert (Hex : exists out, S_match_expr
              (E_and [ E_eq (E_field "invoice_id") (E_const (lookup "invoice_id" inv));
                       E_lte (E_toDate (E_field "payment_date"))
                             (E_const (Some (VDatetime cutoff))) ]) db
              (collection db "Payment") = Ok out) by eauto.
    rewrite match_expr_iff in Hex. specialize (Hex pay Hpay).
    apply payment_expr_iff in Hex. unfold same_invoice.
    destruct (operand_compare _ _); exact Hex.
  - intros H.
    destruct (proj2 (match_expr_iff
              (E_and [ E_eq (E_field "invoice_id") (E_const (lookup "invoice_id" inv));
                       E_lte (E_toDate (E_field "payment_date"))
                             (E_const (Some (VDatetime cutoff))) ]) db
              (collection db "Payment"))) as [out Hout].
    + intros pay Hpay. apply payment_expr_iff. specialize (H pay Hpay).
      unfold same_invoice in H. destruct (operand_compare _ _); exact H.
    + rewrite Hout. cbn [bind run]. eauto.
Qed.

Lemma subtract_iff k (e2 : expr) q d :
  e2 d = Ok (Some (VNum q)) ->
  (exists x, E_subtract (E_field k) e2 d = Ok x) <-> portion_ok (lookup k d) = true.
Proof.
  intros H2. unfold E_subtract, E_field, portion_ok. cbn [bind]. rewrite H2. cbn [bind].
  destruct (lookup k d) as [v|]; [|split; eauto].
  destruct v as [| | | | | |dd| | | | | |]; cbn [num_of nullish orb];
    try (split; [reflexivity|eauto]);
    try (split; [intros [x Hx]; discriminate|discriminate]).
  destruct (float_of_decimal128 dd); cbn [nullish orb];
    split; eauto; try discriminate. intros [x Hx]; discriminate.
Qed.

Lemma concat_name_iff pat d :
  lookup "patient" d = Some (VDict pat) ->
  (exists x, E_concat [E_path "patient" "first_name"; E_const (Some (VStr " "));
                       E_path "patient" "last_name"] d = Ok x)
  <-> name_ok pat = true.
Proof.
  intros Hp. unfold E_concat, E_path, E_const, name_ok. cbn [concat_from bind].
  rewrite Hp.
  destruct (lookup "first_name" pat) as [f|]; [|split; eauto].
  destruct f; cbn [bind]; try (split; [reflexivity|eauto]);
    try (split; [intros [x Hx]; discriminate|discriminate]).
  destruct (lookup "last_name" pat) as [l|]; [|split; eauto].
  destruct l; cbn [bind]; try (split; [reflexivity|eauto]);
    try (split; [intros [x Hx]; discriminate|discriminate]).
Qed.

Lemma assign_totals_iff pat pays d :
  lookup "patient" d = Some (VDict pat) ->
  lookup "payments" d = Some (VList (map VDict pays)) ->
  (exists o,
     assign_fields
       [ ("total_paid", E_sum (E_path "payments" "amount"));
         ("balance_due",
           E_subtract (E_field "patient_portion") (E_sum (E_path "payments" "amount")));
         ("patient_name",
           E_concat [E_path "patient" "first_name"; E_const (Some (VStr " "));
                     E_path "patient" "last_name"]) ] d d = Ok o)
  <-> portion_ok (lookup "patient_portion" d) && name_ok pat = true.
Proof.
  intros Hpat Hpays. rewrite andb_true_iff.
  rewrite <- (subtract_iff "patient_portion" _ _ d (sum_path_payments pays d Hpays)).
  rewrite <- (concat_name_iff pat d Hpat).
  unfold assign_fields. cbn [for_each fst snd].
  rewrite (sum_path_payments pays d Hpays). cbn [bind].
  split.
  - intros [o H]. apply bind_ok in H. destruct H as [d2 [H2 H]].
    apply bind_ok in H2. destruct H2 as [x [Hx _]].
    apply bind_ok in H. destruct H as [d3 [H3 _]].
    apply bind_ok in H3. destruct H3 as [y [Hy _]]. eauto.
  - intros [[x Hx] [y Hy]]. rewrite Hx. cbn [bind]. rewrite Hy. cbn [bind]. eauto.
Qed.

Lemma map_result_map_all {A B C} (f : B -> result C) (h : A -> B) xs :
  (exists ys, map_result f (map h xs) = Ok ys)
  <-> (forall a, In a xs -> exists y, f (h a) = Ok y).
Proof.
  rewrite map_result_all. split.
  - intros H a Ha. apply H. now apply in_map.
  - intros H x Hx. apply in_map_iff in Hx. destruct Hx as [a [<- Ha]]. auto.
Qed.

Lemma map_result_total_map {A B C} (f : B -> result C) (h : A -> B) (g : A -> C) xs :
  (forall a, In a xs -> f (h a) = Ok (g a)) -> map_result f (map h xs) = Ok (map g xs).
Proof.
  induction xs as [|x xs IH]; cbn [map map_result]; intros H; auto.
  rewrite H by now left. cbn [bind]. rewrite IH by (intros; apply H; now right).
  reflexivity.
Qed.

Lemma bind_runs {A B} (c : result A) (k : A -> result B) :
  (exists b, (x <- c ;; k x) = Ok b) <-> exists a, c = Ok a /\ exists b, k a = Ok b.
Proof.
  split.
  - intros [b H]. apply bind_ok in H. destruct H as [a [Ha Hb]]. eauto.
  - intros [a [Ha [b Hb]]]. exists b. apply bind_ok. eauto.
Qed.

(** The monthly aggregation succeeds exactly on a computable database. *)
Lemma monthly_pipeline_runs db s e :
  (exists rows, aggregate db "Invoice" (ReportService.monthly_pipeline s e) = Ok rows)
  <-> computable db s e = true.
Proof.
  unfold aggregate, ReportService.monthly_pipeline, computable.
  rewrite andb_true_iff, !forallb_forall.
  rewrite run_cons, bind_runs. unfold S_addFields at 1.
  split.
  - intros [l1 [H1 [rows H]]].
    assert (Hdates : forall inv, In inv (collection db "Invoice") ->
                                 date_ok (lookup "invoice_date" inv) = true).
    { intros inv Hinv. apply stage1_iff. apply (map_result_each _ _ _ H1 inv Hinv). }
    split; [exact Hdates|].
    apply (map_result_ok _ (fun d => dict_set "invoice_date_dt"
             (date_value (as_date (lookup "invoice_date" d))) d)) in H1;
      [|intros d o _; apply stage1].
    subst l1.
    rewrite run_cons in H. cbn [S_match bind] in H.
    rewrite run_cons in H. unfold S_lookup at 1 in H. cbn [bind] in H.
    rewrite run_cons in H. unfold S_unwind at 1 in H. cbn [bind] in H.
    rewrite unwound in H.
    rewrite run_cons in H. apply bind_ok in H. destruct H as [l5 [H5 H]].
    unfold S_lookup_pipeline in H5.
    assert (Hpays : forall ip, In ip (joined db (matched db s e)) ->
                               payments_ok db (fst ip) = true).
    { intros [inv pat] Hip. apply (lookup_payments_iff db e inv pat).
      apply (map_result_each _ _ _ H5 (with_patient inv pat)).
      apply in_map_iff. now exists (inv, pat). }
    apply (map_result_ok_map _ _
             (fun ip => dict_set "payments"
                          (VList (map VDict (payments_by db e (fst ip))))
                          (with_patient (fst ip) (snd ip)))) in H5;
      [|intros [inv pat] o _; apply lookup_payments_ok].
    subst l5.
    rewrite run_cons in H. unfold S_lookup at 1 in H. cbn [bind] in H.
    rewrite map_map in H.
    rewrite run_cons in H. apply bind_ok in H. destruct H as [l7 [H7 _]].
    unfold S_addFields in H7.
    intros [inv pat] Hip. rewrite (Hpays _ Hip). cbn [andb fst snd].
    assert (Hex := map_result_each _ _ _ H7 _
                     (in_map _ _ _ Hip)).
    cbn [fst snd] in Hex.
    apply (assign_totals_iff pat (payments_by db e inv)) in Hex.
    + rewrite !lookup_dict_set_other in Hex by discriminate.
      now rewrite with_patient_lookup in Hex by discriminate.
    + rewrite !lookup_dict_set_other by discriminate. apply lookup_dict_set_same.
    + rewrite lookup_dict_set_other by discriminate. apply lookup_dict_set_same.
  - intros [Hdates Hrows].
    exists (map (fun d => dict_set "invoice_date_dt"
                            (date_value (as_date (lookup "invoice_date" d))) d)
                (collection db "Invoice")).
    split.
    { apply map_result_total. intros inv Hinv.
      destruct (proj2 (stage1_iff inv) (Hdates inv Hinv)) as [o Ho].
      rewrite Ho. f_equal. now apply stage1. }
    rewrite run_cons. cbn [S_match bind].
    rewrite run_cons. unfold S_lookup at 1. cbn [bind].
    rewrite run_cons. unfold S_unwind at 1. cbn [bind].
    rewrite unwound.
    rewrite run_cons. apply bind_runs.
    exists (map (fun ip => dict_set "payments"
                             (VList (map VDict (payments_by db e (fst ip))))
                             (with_patient (fst ip) (snd ip)))
                (joined db (matched db s e))).
    split.
    { unfold S_lookup_pipeline.
      apply map_result_total_map. intros [inv pat] Hip. specialize (Hrows _ Hip).
      apply andb_true_iff in Hrows. destruct Hrows as [Hrows _].
      apply andb_true_iff in Hrows. destruct Hrows as [Hp _].
      destruct (proj2 (lookup_payments_iff db e inv pat) Hp) as [o Ho].
      cbn [fst snd]. rewrite Ho. f_equal. now apply lookup_payments_ok in Ho. }
    rewrite run_cons. unfold S_lookup at 1. cbn [bind]. rewrite map_map.
    rewrite run_cons. apply bind_runs.
    destruct (proj2 (map_result_map_all
      (fun d => assign_fields
         [ ("total_paid", E_sum (E_path "payments" "amount"));
           ("balance_due",
             E_subtract (E_field "patient_portion") (E_sum (E_path "payments" "amount")));
           ("patient_name",
             E_concat [E_path "patient" "first_name"; E_const (Some (VStr " "));
                       E_path "patient" "last_name"]) ] d d)
      (fun x =>
         dict_set "lines"
           (VList (map VDict
              (filter (join_eq "invoice_id" "invoice_id"
                         (dict_set "payments"
                            (VList (map VDict (payments_by db e (fst x))))
                            (with_patient (fst x) (snd x))))
                      (collection db "InvoiceLine"))))
           (dict_set "payments" (VList (map VDict (payments_by db e (fst x))))
                     (with_patient (fst x) (snd x))))
      (joined db (matched db s e)))) as [l7 H7].
    { intros [inv pat] Hip. specialize (Hrows _ Hip). cbn [fst snd] in *.
      apply andb_true_iff in Hrows. destruct Hrows as [Hrows Hname].
      apply andb_true_iff in Hrows. destruct Hrows as [_ Hportion].
      apply (assign_totals_iff pat (payments_by db e inv)).
      - rewrite !lookup_dict_set_other by discriminate. apply lookup_dict_set_same.
      - rewrite lookup_dict_set_other by discriminate. apply lookup_dict_set_same.
      - rewrite !lookup_dict_set_other by discriminate.
        rewrite with_patient_lookup by discriminate.
        now rewrite Hportion, Hname. }
    exists l7. split; [exact H7|].
    rewrite run_cons. cbn [S_project_fields bind run]. eauto.
Qed.

End PipelineFacts.

(** ** The grouping and classification loops *)

Lemma key_eqb_refl a : scalar a = true -> key_eqb a a = true.
Proof.
  destruct a; simpl; try discriminate; intros _; try reflexivity;
    try (apply Qeq_bool_iff; reflexivity).
  apply String.eqb_refl.
Qed.

Lemma Qeq_bool_sym p q : Qeq_bool p q = Qeq_bool q p.
Proof.
  destruct (Qeq_bool p q) eqn:E1, (Qeq_bool q p) eqn:E2; auto.
  - apply Qeq_bool_iff in E1. symmetry in E1. apply Qeq_bool_iff in E1. congruence.
  - apply Qeq_bool_iff in E2. symmetry in E2. apply Qeq_bool_iff in E2. congruence.
Qed.

Lemma key_eqb_sym a b : scalar a = true -> scalar b = true -> key_eqb a b = key_eqb b a.
Proof.
  destruct a, b; simpl; try discriminate; intros _ _; auto using Qeq_bool_sym, String.eqb_sym.
Qed.

Lemma key_eqb_trans a b c :
  scalar a = true -> scalar b = true -> scalar c = true ->
  key_eqb a b = true -> key_eqb b c = true -> key_eqb a c = true.
Proof.
  destruct a, b, c; simpl; try discriminate; intros _ _ _; auto;
    try (rewrite !Qeq_bool_iff; intros -> ->; reflexivity).
  rewrite !String.eqb_eq. congruence.
Qed.



Section GroupingFacts.
Context {rt : Runtime}.
Import Spec.

Lemma distinct_keys_incl ks k : In k (distinct_keys ks) -> In k ks.
Proof.
revert k. induction ks as [|a ks IH]; simpl; auto.
intros k [->|H]; auto. apply filter_In in H. right. apply IH. tauto.
Qed.

Lemma distinct_keys_scalars ks : scalars ks -> scalars (distinct_keys ks).
Proof.
unfold scalars. rewrite !Forall_forall. intros H k Hk. apply H.
now apply distinct_keys_incl.
Qed.

Lemma distinct_keys_snoc ks k :
scalars ks -> scalar k = true ->
distinct_keys (ks ++ [k])
= if existsb (fun k' => key_eqb k' k) (distinct_keys ks)
  then distinct_keys ks else distinct_keys ks ++ [k].
Proof.
intros Hks Hk. induction Hks as [|a ks Ha Hks IH]; simpl; auto.
rewrite IH. clear IH.
assert (Hd := distinct_keys_scalars ks Hks).
set (D := distinct_keys ks) in *.
destruct (existsb (fun k' => key_eqb k' k) D) eqn:E.
- destruct (key_eqb a k) eqn:Eak; simpl; auto.
  replace (existsb (fun k' => key_eqb k' k) (filter (fun k' => negb (key_eqb a k')) D))
    with true; auto.
  symmetry. apply existsb_exists in E. destruct E as [k' [Hin Hk']].
  apply existsb_exists. exists k'. split; auto.
  apply filter_In. split; auto.
  apply negb_true_iff. destruct (key_eqb a k') eqn:Eak'; auto.
  assert (Hs : scalar k' = true) by (eapply Forall_forall in Hd; eauto).
  rewrite (key_eqb_trans a k' k) in Eak; auto.
- rewrite filter_app. simpl.
  destruct (key_eqb a k) eqn:Eak; simpl.
  + now rewrite app_nil_r.
  + replace (existsb (fun k' => key_eqb k' k) (filter (fun k' => negb (key_eqb a k')) D))
      with false; auto.
    symmetry. apply not_true_is_false. intros Hex.
    apply existsb_exists in Hex. destruct Hex as [k' [Hin Hk']].
    apply filter_In in Hin. destruct Hin as [Hin _].
    assert (existsb (fun k' => key_eqb k' k) D = true); [|congruence].
    apply existsb_exists. eauto.
Qed.

Lemma apart_filter (q : value -> bool) ks : apart ks -> apart (filter q ks).
Proof.
induction ks as [|a ks IH]; simpl; auto.
intros [Ha Hks]. destruct (q a); simpl; auto. split; auto.
rewrite Forall_forall in *. intros k Hk. apply filter_In in Hk. apply Ha. tauto.
Qed.

Lemma distinct_keys_apart ks : apart (distinct_keys ks).
Proof.
induction ks as [|a ks IH]; simpl; auto. split.
- apply Forall_forall. intros k Hk. apply filter_In in Hk.
  destruct Hk as [_ Hk]. now apply negb_true_iff in Hk.
- now apply apart_filter.
Qed.

Lemma apart_snoc ks k :
apart ks -> Forall (fun k' => key_eqb k' k = false) ks -> apart (ks ++ [k]).
Proof.
induction ks as [|a ks IH]; simpl; auto.
intros [Ha Hks] Hk. inversion Hk; subst. split; auto.
apply Forall_app. split; auto.
Qed.

Lemma distinct_keys_cover ks a :
scalars ks -> In a ks ->
exists k, In k (distinct_keys ks) /\ key_eqb k a = true.
Proof.
intros Hks. induction Hks as [|b ks Hb Hks IH]; simpl; [tauto|].
intros [->|Ha].
- exists a. split; auto. now apply key_eqb_refl.
- destruct (IH Ha) as [k [Hk Hka]].
  assert (Hsk : scalar k = true).
  { apply distinct_keys_scalars in Hks. eapply Forall_forall in Hks; eauto. }
  assert (Hsa : scalar a = true) by (eapply Forall_forall in Hks; eauto).
  destruct (key_eqb b k) eqn:E.
  + exists b. split; auto. apply (key_eqb_trans b k a); auto.
  + exists k. split; auto. right. apply filter_In. split; auto. now rewrite E.
Qed.

Lemma update_patient_grouped pid f (S S' : value -> statement) ks patients :
scalars ks -> apart ks -> scalar pid = true ->
(forall k p', In k ks -> key_eqb k pid = true -> f (S k) = Ok p' -> p' = S' k) ->
ReportService.update_patient pid f (map (fun k => (k, S k)) ks) = Ok patients ->
patients = map (fun k => (k, if key_eqb k pid then S' k else S k)) ks.
Proof.
intros Hks Hap Hpid. revert patients.
induction Hks as [|a ks Ha Hks IH]; simpl; intros patients Hf H.
- now inversion H.
- destruct Hap as [Hak Hap]. destruct (key_eqb a pid) eqn:E.
  + apply bind_ok in H. destruct H as [p' [Hp' H]]. inversion H; subst. clear H.
    f_equal.
    * f_equal. apply Hf; auto.
    * apply map_ext_in. intros k Hk.
      assert (Hsk : scalar k = true) by (eapply Forall_forall in Hks; eauto).
      destruct (key_eqb k pid) eqn:Ek; auto.
      assert (key_eqb a k = true).
      { apply (key_eqb_trans a pid k); auto. rewrite key_eqb_sym; auto. }
      eapply Forall_forall in Hak; eauto. congruence.
  + apply bind_ok in H. destruct H as [rest [Hrest H]]. inversion H; subst. clear H.
    f_equal. apply IH; auto.
Qed.

Lemma float_add_amount acc v q :
float_add acc (py_or v (VNum 0)) = Ok q -> q = (acc + amount v)%Q.
Proof.
unfold amount. destruct (py_or v (VNum 0)); simpl; intros H; now inversion H.
Qed.

Lemma sum_field_snoc k rows r :
sum_field k (rows ++ [r]) = (sum_field k rows + amount (dict_get k r))%Q.
Proof. unfold sum_field. now rewrite fold_left_app. Qed.

Lemma add_invoice_statement k rows r p' :
ReportService.add_invoice (before r k rows) r = Ok p' ->
p' = statement_of k (rows ++ [r]).
Proof.
unfold ReportService.add_invoice. intros H.
apply bind_ok in H. destruct H as [t1 [H1 H]].
apply bind_ok in H. destruct H as [t2 [H2 H]].
apply bind_ok in H. destruct H as [t3 [H3 H]].
apply float_add_amount in H1, H2, H3. inversion H; subst. clear H.
unfold statement_of. rewrite !sum_field_snoc, map_app.
destruct rows; reflexivity.
Qed.

Lemma grouped_group rows : map snd (grouped rows) = group rows.
Proof. unfold grouped, group. now rewrite map_map. Qed.

Lemma rows_of_snoc k rows r :
rows_of k (rows ++ [r])
= if key_eqb k (patient_key r) then rows_of k rows ++ [r] else rows_of k rows.
Proof.
unfold rows_of. rewrite filter_app. simpl.
destruct (key_eqb k (patient_key r)); auto. now rewrite app_nil_r.
Qed.

Lemma rows_of_key_nonempty k rows :
scalars (map patient_key rows) ->
In k (distinct_keys (map patient_key rows)) -> rows_of k rows <> [].
Proof.
intros Hs Hk. apply distinct_keys_incl in Hk. apply in_map_iff in Hk.
destruct Hk as [row [<- Hrow]].
assert (In row (rows_of (patient_key row) rows)).
{ apply filter_In. split; auto. apply key_eqb_refl.
  eapply Forall_forall in Hs; eauto. now apply in_map. }
intros E. rewrite E in H. contradiction.
Qed.

Lemma clean_hashable_scalar v :
json_clean v = true -> hashable v = true -> scalar v = true.
Proof. destruct v; simpl; congruence. Qed.

Lemma key_in_grouped pid rows :
ReportService.key_in pid (grouped rows)
= existsb (fun k => key_eqb k pid) (distinct_keys (map patient_key rows)).
Proof.
unfold ReportService.key_in, grouped.
induction (distinct_keys (map patient_key rows)) as [|k ks IH]; simpl; auto.
now rewrite IH.
Qed.

Lemma group_step_grouped done r patients :
scalars (map patient_key done) ->
json_clean (patient_key r) = true ->
ReportService.group_step (grouped done) r = Ok patients ->
patients = grouped (done ++ [r]).
Proof.
intros Hdone Hclean. unfold ReportService.group_step.
fold (patient_key r). destruct (hashable (patient_key r)) eqn:Hh; [|discriminate].
assert (Hpid : scalar (patient_key r) = true) by now apply clean_hashable_scalar.
set (pid := patient_key r) in *.
assert (Hks := distinct_keys_scalars _ Hdone).
assert (Hsnoc := distinct_keys_snoc _ pid Hdone Hpid).
rewrite key_in_grouped.
set (ks := distinct_keys (map patient_key done)) in *.
assert (Hbefore : grouped done = map (fun k => (k, before r k (rows_of k done))) ks).
{ unfold grouped. fold ks. apply map_ext_in. intros k Hk.
  apply (rows_of_key_nonempty k done Hdone) in Hk.
  unfold before. now destruct (rows_of k done). }
assert (Hafter :
  forall l, (forall k, In k l -> In k (distinct_keys (map patient_key (done ++ [r])))) ->
  map (fun k => (k, if key_eqb k pid
                    then statement_of k (rows_of k done ++ [r])
                    else before r k (rows_of k done))) l
  = map (fun k => (k, statement_of k (rows_of k (done ++ [r])))) l).
{ intros l Hl. apply map_ext_in. intros k Hk. rewrite rows_of_snoc. fold pid.
  destruct (key_eqb k pid) eqn:E; auto.
  specialize (Hl k Hk).
  assert (Hne : rows_of k (done ++ [r]) <> []).
  { apply rows_of_key_nonempty; auto. rewrite map_app. apply Forall_app. split; auto.
    constructor; auto. }
  rewrite rows_of_snoc in Hne. fold pid in Hne. rewrite E in Hne.
  unfold before. now destruct (rows_of k done). }
assert (Hgoal : grouped (done ++ [r])
                = map (fun k => (k, statement_of k (rows_of k (done ++ [r]))))
                      (if existsb (fun k => key_eqb k pid) ks then ks else ks ++ [pid])).
{ unfold grouped. rewrite map_app. cbn [map]. fold pid. now rewrite Hsnoc. }
rewrite Hgoal. clear Hgoal.
destruct (existsb (fun k => key_eqb k pid) ks) eqn:E.
- rewrite Hbefore. intros H.
  apply (update_patient_grouped pid _ _
           (fun k => statement_of k (rows_of k done ++ [r]))) in H; auto.
  + rewrite H. apply Hafter. intros k Hk. rewrite map_app. cbn [map]. fold pid.
    now rewrite Hsnoc.
  + apply distinct_keys_apart.
  + intros k p' _ _. apply add_invoice_statement.
- assert (Hnone : Forall (fun k => key_eqb k pid = false) ks).
  { apply Forall_forall. intros k Hk. apply not_true_is_false. intros Hkp.
    assert (existsb (fun k => key_eqb k pid) ks = true); [|congruence].
    apply existsb_exists. eauto. }
  assert (Hnew : rows_of pid done = []).
  { unfold rows_of.
    destruct (filter (fun row => key_eqb pid (patient_key row)) done) as [|row rest] eqn:Ef;
      auto.
    assert (Hin : In row (filter (fun row => key_eqb pid (patient_key row)) done)).
    { rewrite Ef. now left. }
    apply filter_In in Hin. destruct Hin as [Hin Hrow].
    assert (Hsr : scalar (patient_key row) = true).
    { eapply Forall_forall in Hdone; eauto. now apply in_map. }
    destruct (distinct_keys_cover (map patient_key done) (patient_key row) Hdone)
      as [k [Hk Hkr]]; [now apply in_map|].
    assert (Hsk : scalar k = true) by (eapply Forall_forall in Hks; eauto).
    eapply Forall_forall in Hnone; eauto.
    rewrite (key_eqb_trans k (patient_key row) pid) in Hnone; auto; try discriminate.
    rewrite key_eqb_sym; auto. }
  replace (grouped done ++ [(pid, ReportService.new_statement pid r)])
    with (map (fun k => (k, before r k (rows_of k done))) (ks ++ [pid])).
  2:{ rewrite map_app, Hbefore. cbn [map]. now rewrite Hnew. }
  intros H.
  apply (update_patient_grouped pid _ _
           (fun k => statement_of k (rows_of k done ++ [r]))) in H; auto.
  + rewrite H. apply Hafter. intros k Hk. rewrite map_app. cbn [map]. fold pid.
    now rewrite Hsnoc.
  + apply Forall_app. split; auto.
  + apply apart_snoc; auto. apply distinct_keys_apart.
  + intros k p' _ _. apply add_invoice_statement.
Qed.

Lemma group_by_patient_grouped rows patients :
Forall (fun row => json_clean (patient_key row) = true) rows ->
ReportService.group_by_patient rows = Ok patients ->
patients = grouped rows /\ scalars (map patient_key rows).
Proof.
unfold ReportService.group_by_patient. revert patients.
induction rows as [|r done IH] using rev_ind; intros patients Hc H.
- inversion H. split; [reflexivity|constructor].
- apply Forall_app in Hc. destruct Hc as [Hc Hr]. inversion Hr; subst.
  rewrite for_each_app in H. apply bind_ok in H. destruct H as [p0 [H0 H]].
  destruct (IH p0 Hc H0) as [-> Hs].
  cbn [for_each] in H. apply bind_ok in H. destruct H as [p1 [H1 H]].
  inversion H; subst. clear H.
  split.
  + now apply group_step_grouped.
  + rewrite map_app. apply Forall_app. split; auto. constructor; auto.
    unfold ReportService.group_step in H1. fold (patient_key r) in H1.
    destruct (hashable (patient_key r)) eqn:Hh; [|discriminate].
    now apply clean_hashable_scalar.
Qed.

Lemma classify_fold sts b :
fold_left ReportService.classify_step sts b
= {| paid_list := paid_list b ++ filter is_paid sts;
     unpaid_list := unpaid_list b ++ filter (fun p => negb (is_paid p)) sts;
     totals_paid := fold_left ReportService.add_totals (filter is_paid sts) (totals_paid b);
     totals_unpaid :=
       fold_left ReportService.add_totals (filter (fun p => negb (is_paid p)) sts)
                 (totals_unpaid b) |}.
Proof.
revert b. induction sts as [|p sts IH]; intros b; simpl.
- rewrite !app_nil_r. now destruct b.
- rewrite IH. unfold ReportService.classify_step. fold (is_paid p).
  destruct (is_paid p); simpl; now rewrite <- app_assoc.
Qed.

Lemma classify_filter patients :
ReportService.classify patients
= {| paid_list := filter is_paid (map snd patients);
     unpaid_list := filter (fun p => negb (is_paid p)) (map snd patients);
     totals_paid := sum_totals (filter is_paid (map snd patients));
     totals_unpaid := sum_totals (filter (fun p => negb (is_paid p)) (map snd patients)) |}.
Proof. unfold ReportService.classify. now rewrite classify_fold. Qed.

Lemma sanitize_doc_normal d : normal_dict (ReportService.sanitize_doc d).
Proof.
unfold normal_dict, ReportService.sanitize_doc.
assert (H := sanitize_normal (VDict d)). rewrite sanitize_dict in *. exact H.
Qed.

Lemma normal_dict_get k row : normal_dict row -> json_normal (dict_get k row) = true.
Proof.
unfold normal_dict. simpl. intros H. apply andb_true_iff in H. destruct H as [_ H].
apply (dict_get_forallb json_normal
         (fun kv => negb (String.eqb (fst kv) "_id") && json_normal (snd kv))); auto.
intros kv Hkv. apply andb_true_iff in Hkv. tauto.
Qed.

Lemma py_or_normal v w :
json_normal v = true -> json_normal w = true -> json_normal (py_or v w) = true.
Proof. unfold py_or. now destruct (truthy v). Qed.

Lemma invoice_entry_normal row :
normal_dict row -> normal_dict (ReportService.invoice_entry row).
Proof.
intros H. unfold normal_dict, ReportService.invoice_entry.
cbn [json_normal map fst snd forallb distinct existsb String.eqb Ascii.eqb Bool.eqb
     negb andb orb].
rewrite !py_or_normal, !normal_dict_get; auto using normal_dict_get.
Qed.

Lemma statement_of_normal k rows :
json_normal k = true -> Forall normal_dict rows -> normal_statement (statement_of k rows).
Proof.
intros Hk Hrows. unfold normal_statement, ReportService.statement_value, statement_of.
cbn [json_normal map fst snd forallb distinct existsb String.eqb Ascii.eqb Bool.eqb
     negb andb orb st_patient_id st_patient_name st_invoices st_total_invoiced
     st_payments_received st_balance].
rewrite Hk. 
assert (Hname : json_normal match rows with
                            | row :: _ => dict_get "patient_name" row
                            | [] => VNone
                            end = true).
{ destruct Hrows; auto. now apply normal_dict_get. }
rewrite Hname.
assert (Hinv : forallb json_normal (map VDict (map ReportService.invoice_entry rows)) = true).
{ rewrite map_map. apply forallb_map_Forall.
  eapply Forall_impl; [|exact Hrows]. intros row. apply invoice_entry_normal. }
rewrite Hinv. reflexivity.
Qed.

Lemma group_normal rows : Forall normal_dict rows -> Forall normal_statement (group rows).
Proof.
intros H. unfold group. apply Forall_forall. intros p Hp.
apply in_map_iff in Hp. destruct Hp as [k [<- Hk]].
apply statement_of_normal.
- apply distinct_keys_incl in Hk. apply in_map_iff in Hk. destruct Hk as [row [<- Hrow]].
  apply normal_dict_get. eapply Forall_forall in H; eauto.
- apply Forall_forall. intros row Hrow. apply filter_In in Hrow.
  eapply Forall_forall in H; [eauto|tauto].
Qed.

Lemma report_value_normal month year b :
Forall normal_statement (paid_list b) -> Forall normal_statement (unpaid_list b) ->
json_normal (ReportService.report_value month year b) = true.
Proof.
intros Hp Hu. unfold ReportService.report_value, ReportService.totals_value.
cbn [json_normal map fst snd forallb distinct existsb String.eqb Ascii.eqb Bool.eqb
     negb andb orb].
rewrite !forallb_map_Forall; auto.
Qed.

Lemma datetime_new_ok y m d t :
datetime_new y m d = Ok t -> t = days_from_civil y m d * 86400000.
Proof.
unfold datetime_new.
repeat match goal with |- context [if ?c then _ else _] => destruct c end;
  intros H; now inversion H.
Qed.

Lemma month_range_ok month year range :
ReportService.month_range month year = Ok range ->
range = (first_day year month, next_first_day year month).
Proof.
unfold ReportService.month_range, next_first_day, first_day. intros H.
apply bind_ok in H. destruct H as [s [Hs H]].
apply bind_ok in H. destruct H as [e [He H]].
inversion H; subst. clear H. apply datetime_new_ok in Hs. subst s. f_equal.
destruct (month =? 12); now apply datetime_new_ok in He.
Qed.

Lemma monthly_statements_inv db month year r :
  ReportService.get_monthly_statements db month year = Ok r ->
  let rows := map ReportService.sanitize_doc
                  (invoice_rows db (first_day year month) (next_first_day year month)) in
  r = monthly_statements db month year /\ scalars (map patient_key rows).
Proof.
  intros H rows. unfold ReportService.get_monthly_statements in H.
  apply bind_ok in H. destruct H as [range [Hr H]].
  apply month_range_ok in Hr. subst range. cbn [fst snd] in H.
  apply bind_ok in H. destruct H as [found [Hrows H]].
  apply monthly_rows in Hrows. subst found.
  apply bind_ok in H. destruct H as [patients [Hp H]].
  apply Ok_inj in H. subst r. fold rows in Hp.
  assert (Hn : Forall normal_dict rows).
  { apply Forall_forall. intros row Hrow. apply in_map_iff in Hrow.
    destruct Hrow as [d [<- _]]. apply sanitize_doc_normal. }
  apply group_by_patient_grouped in Hp.
  - destruct Hp as [-> Hs]. split; auto.
    rewrite classify_filter, grouped_group.
    unfold monthly_statements. cbv zeta.
    apply sanitize_normal_id. apply report_value_normal; cbn [paid_list unpaid_list].
    + apply Forall_forall. intros p Hp. apply filter_In in Hp.
      eapply Forall_forall; [apply group_normal; eauto|tauto].
    + apply Forall_forall. intros p Hp. apply filter_In in Hp.
      eapply Forall_forall; [apply group_normal; eauto|tauto].
  - eapply Forall_impl; [|exact Hn]. intros row Hrow.
    apply normal_clean. now apply normal_dict_get.
Qed.

Lemma monthly_statements_refine db month year r :
  ReportService.get_monthly_statements db month year = Ok r ->
  r = monthly_statements db month year.
Proof. intros H. now apply monthly_statements_inv in H. Qed.

Lemma float_add_runs acc v :
  (exists q, float_add acc (py_or v (VNum 0)) = Ok q) <-> addable v = true.
Proof.
  unfold addable, float_add.
  destruct (py_or v (VNum 0)); split; eauto; try discriminate;
    intros [q Hq]; discriminate.
Qed.

Lemma add_invoice_runs p inv :
  (exists p', ReportService.add_invoice p inv = Ok p')
  <-> addable (dict_get "patient_portion" inv)
      && addable (dict_get "total_paid" inv)
      && addable (dict_get "balance_due" inv) = true.
Proof.
  rewrite !andb_true_iff.
  rewrite <- (float_add_runs (st_total_invoiced p) (dict_get "patient_portion" inv)).
  rewrite <- (float_add_runs (st_payments_received p) (dict_get "total_paid" inv)).
  rewrite <- (float_add_runs (st_balance p) (dict_get "balance_due" inv)).
  unfold ReportService.add_invoice. split.
  - intros [p' H]. apply bind_ok in H. destruct H as [t1 [H1 H]].
    apply bind_ok in H. destruct H as [t2 [H2 H]].
    apply bind_ok in H. destruct H as [t3 [H3 H]]. repeat split; eauto.
  - intros [[[t1 H1] [t2 H2]] [t3 H3]]. rewrite H1, H2, H3. cbn [bind]. eauto.
Qed.

Lemma update_patient_runs pid (f : statement -> result statement) (c : Prop) patients :
  ReportService.key_in pid patients = true ->
  (forall p, (exists p', f p = Ok p') <-> c) ->
  (exists patients', ReportService.update_patient pid f patients = Ok patients') <-> c.
Proof.
  intros Hin Hf. induction patients as [|[k p] rest IH]; [discriminate|].
  cbn [ReportService.update_patient]. cbn [ReportService.key_in existsb fst] in Hin.
  destruct (key_eqb k pid) eqn:E.
  - rewrite <- (Hf p). split.
    + intros [l H]. apply bind_ok in H. destruct H as [p' [Hp' _]]. eauto.
    + intros [p' Hp']. rewrite Hp'. cbn [bind]. eauto.
  - rewrite <- (IH Hin). split.
    + intros [l H]. apply bind_ok in H. destruct H as [rest' [Hr _]]. eauto.
    + intros [rest' Hr]. rewrite Hr. cbn [bind]. eauto.
Qed.

Lemma group_step_runs patients inv :
  json_clean (patient_key inv) = true ->
  (exists patients', ReportService.group_step patients inv = Ok patients')
  <-> groupable inv = true.
Proof.
  intros Hc. unfold ReportService.group_step, groupable. fold (patient_key inv).
  destruct (hashable (patient_key inv)) eqn:Hh; cbn [andb].
  2:{ split; [intros [l H]; discriminate|discriminate]. }
  assert (Hs : scalar (patient_key inv) = true) by now apply clean_hashable_scalar.
  apply update_patient_runs.
  - destruct (ReportService.key_in (patient_key inv) patients) eqn:E; auto.
    unfold ReportService.key_in. rewrite existsb_app. cbn [existsb fst].
    now rewrite key_eqb_refl, orb_true_r.
  - intros p. apply add_invoice_runs.
Qed.

Lemma for_each_runs {A S} (step : S -> A -> result S) (ok : A -> bool) xs :
  (forall s x, In x xs -> (exists s', step s x = Ok s') <-> ok x = true) ->
  forall s, (exists s', for_each step xs s = Ok s') <-> forallb ok xs = true.
Proof.
  induction xs as [|x xs IH]; intros Hstep s; cbn [for_each forallb].
  - split; eauto.
  - rewrite andb_true_iff, <- (Hstep s x) by now left. split.
    + intros [s' H]. apply bind_ok in H. destruct H as [s1 [H1 H]].
      split; eauto. apply (IH (fun s x Hx => Hstep s x (or_intror Hx)) s1). eauto.
    + intros [[s1 H1] Hrest]. rewrite H1. cbn [bind].
      apply (IH (fun s x Hx => Hstep s x (or_intror Hx)) s1). exact Hrest.
Qed.

Lemma group_by_patient_runs rows :
  Forall (fun row => json_clean (patient_key row) = true) rows ->
  (exists patients, ReportService.group_by_patient rows = Ok patients)
  <-> forallb groupable rows = true.
Proof.
  intros Hc. unfold ReportService.group_by_patient. apply for_each_runs.
  intros s row Hrow. apply group_step_runs. eapply Forall_forall in Hc; eauto.
Qed.

Lemma days_in_month_pos y m : 1 <= days_in_month y m.
Proof.
  unfold days_in_month.
  repeat match goal with |- context [if ?c then _ else _] => destruct c end; lia.
Qed.

Lemma datetime_new_first y m :
  (exists t, datetime_new y m 1 = Ok t)
  <-> (1 <=? y) && (y <=? 9999) && (1 <=? m) && (m <=? 12) = true.
Proof.
  unfold datetime_new.
  assert (Hd := days_in_month_pos y m). apply Z.leb_le in Hd.
  rewrite Hd. change (1 <=? 1) with true.
  destruct (1 <=? y), (y <=? 9999), (1 <=? m), (m <=? 12); cbn [andb negb];
    split; intros H; eauto; try discriminate; destruct H; discriminate.
Qed.

Lemma month_range_runs month year :
  (exists range, ReportService.month_range month year = Ok range)
  <-> valid_month month year = true.
Proof.
  unfold ReportService.month_range, valid_month.
  rewrite bind_runs. split.
  - intros [s [Hs [range H]]]. apply bind_ok in H. destruct H as [e [He _]].
    assert (H1 : exists t, datetime_new year month 1 = Ok t) by eauto.
    apply datetime_new_first in H1. rewrite H1. cbn [andb].
    destruct (month =? 12) eqn:E.
    + assert (H2 : exists t, datetime_new (year + 1) 1 1 = Ok t) by eauto.
      apply datetime_new_first in H2.
      apply andb_true_iff in H2. destruct H2 as [H2 _].
      apply andb_true_iff in H2. destruct H2 as [H2 _].
      apply andb_true_iff in H2. destruct H2 as [_ H2].
      rewrite H2. apply orb_true_r.
    + apply Z.eqb_neq in E.
      repeat (apply andb_true_iff in H1; destruct H1 as [H1 ?]).
      apply orb_true_iff. left. apply Z.ltb_lt. apply Z.leb_le in H0. lia.
  - intros H. apply andb_true_iff in H. destruct H as [H1 H2].
    destruct (proj2 (datetime_new_first year month) H1) as [s Hs].
    exists s. split; auto.
    assert (Hex : exists e, (if month =? 12 then datetime_new (year + 1) 1 1
                             else datetime_new year (month + 1) 1) = Ok e).
    { repeat (apply andb_true_iff in H1; destruct H1 as [H1 ?]).
      apply Z.leb_le in H1, H3, H0, H.
      apply orb_true_iff in H2. rewrite Z.ltb_lt, Z.leb_le in H2.
      destruct (month =? 12) eqn:E; apply datetime_new_first.
      - apply Z.eqb_eq in E.
        repeat (apply andb_true_iff; split); try reflexivity; apply Z.leb_le; lia.
      - apply Z.eqb_neq in E.
        repeat (apply andb_true_iff; split); apply Z.leb_le; lia. }
    destruct Hex as [e He]. rewrite He. cbn [bind]. eauto.
Qed.




Lemma monthly_statements_runs db month year :
  (exists r, ReportService.get_monthly_statements db month year = Ok r)
  <-> returns db month year = true.
Proof.
  unfold returns. rewrite !andb_true_iff.
  rewrite <- month_range_runs, <- monthly_pipeline_runs.
  assert (Hclean : forall rows,
            Forall (fun row => json_clean (patient_key row) = true)
                   (map ReportService.sanitize_doc rows)).
  { intros rows. apply Forall_forall. intros row Hrow. apply in_map_iff in Hrow.
    destruct Hrow as [d [<- _]]. apply normal_clean, normal_dict_get, sanitize_doc_normal. }
  rewrite <- (group_by_patient_runs _ (Hclean _)).
  unfold ReportService.get_monthly_statements. split.
  - intros [r H]. apply bind_ok in H. destruct H as [range [Hr H]].
    assert (Hrange := month_range_ok _ _ _ Hr). subst range. cbn [fst snd] in H.
    apply bind_ok in H. destruct H as [rows [Hrows H]].
    assert (Hspec := monthly_rows _ _ _ _ Hrows). subst rows.
    apply bind_ok in H. destruct H as [patients [Hp _]]. repeat split; eauto.
  - intros [[[range Hr] [rows Hrows]] [patients Hp]].
    assert (Hrange := month_range_ok _ _ _ Hr). subst range.
    assert (Hspec := monthly_rows _ _ _ _ Hrows). subst rows.
    rewrite Hr. cbn [bind fst snd]. rewrite Hrows. cbn [bind]. rewrite Hp. cbn [bind].
    eauto.
Qed.

Lemma monthly_statements_iff db month year r :
  ReportService.get_monthly_statements db month year = Ok r
  <-> returns db month year = true /\ r = monthly_statements db month year.
Proof.
  split.
  - intros H. split; [|now apply monthly_statements_refine].
    apply monthly_statements_runs. eauto.
  - intros [Hruns ->]. apply monthly_statements_runs in Hruns.
    destruct Hruns as [r Hr]. rewrite Hr. f_equal. now apply monthly_statements_refine.
Qed.

Lemma filter_all_false {A} (f : A -> bool) l :
  (forall x, In x l -> f x = false) -> filter f l = [].
Proof.
  induction l as [|x l IH]; simpl; auto. intros H.
  rewrite (H x) by auto. apply IH. auto.
Qed.





End GroupingFacts.

(** ** The routes *)

Lemma clean_serializable v : json_clean v = true -> json_serializable v = true.
Proof.
  induction v using value_ind; simpl; try congruence.
  - induction H as [|[k w] items Hw _ IH]; simpl in *; auto.
    intros Hn. apply andb_true_iff in Hn. destruct Hn as [Hkw Hn].
    apply andb_true_iff in Hkw. destruct Hkw as [_ Hc].
    now rewrite Hw, IH.
  - induction H as [|w xs Hw _ IH]; simpl; auto.
    intros Hn. apply andb_true_iff in Hn. destruct Hn as [H1 H2].
    now rewrite Hw, IH.
Qed.

Lemma jsonify_sanitized {rt : Runtime} v :
  jsonify (_sanitize_for_json v) = Ok (_sanitize_for_json v).
Proof.
  unfold jsonify. now rewrite (clean_serializable _ (sanitize_clean v)).
Qed.

Lemma find_filter {A} (q : A -> bool) xs :
  find q xs = match filter q xs with
              | [] => None
              | x :: _ => Some x
              end.
Proof. induction xs as [|x xs IH]; simpl; auto. now destruct (q x). Qed.

(** ** The fields of a row *)

Lemma lookup_filter_keep (keep : string -> bool) k d :
  keep k = true -> lookup k (filter (fun kv => keep (fst kv)) d) = lookup k d.
Proof.
  intros Hk. induction d as [|[k' v] d IH]; [reflexivity|]. cbn [filter fst lookup].
  destruct (keep k') eqn:E; cbn [lookup].
  - now rewrite IH.
  - rewrite IH. destruct (String.eqb k k') eqn:Ek; auto.
    apply String.eqb_eq in Ek. congruence.
Qed.

Lemma lookup_dict_remove_same k d : lookup k (dict_remove k d) = None.
Proof.
  induction d as [|[k' v] d IH]; [reflexivity|]. cbn [dict_remove].
  destruct (String.eqb k k') eqn:E; auto. cbn [lookup]. now rewrite E.
Qed.

Lemma lookup_dict_remove_other k k' d :
  k <> k' -> lookup k (dict_remove k' d) = lookup k d.
Proof.
  intros Hk. induction d as [|[k2 v] d IH]; [reflexivity|]. cbn [dict_remove lookup].
  destruct (String.eqb k' k2) eqn:E.
  - apply String.eqb_eq in E. subst k2. apply String.eqb_neq in Hk. now rewrite Hk.
  - cbn [lookup]. now rewrite IH.
Qed.

Section RowFacts.
Context {rt : Runtime}.
Import Spec.

Lemma lookup_assign_same d k x : lookup k (assign d (k, x)) = x.
Proof.
  unfold assign. cbn [fst snd]. destruct x.
  - apply lookup_dict_set_same.
  - apply lookup_dict_remove_same.
Qed.

Lemma lookup_assign_other d k k' x : k <> k' -> lookup k (assign d (k', x)) = lookup k d.
Proof.
  intros H. unfold assign. cbn [fst snd]. destruct x.
  - now apply lookup_dict_set_other.
  - now apply lookup_dict_remove_other.
Qed.

(** The fields of a monthly row. *)
Lemma invoice_row_fields l :
  lookup "payments" (invoice_row l) = Some (VList (map VDict (lk_payments l)))
  /\ lookup "total_paid" (invoice_row l) = Some (VNum (total_paid (lk_payments l)))
  /\ lookup "balance_due" (invoice_row l)
     = Some (balance_due (lookup "patient_portion" (lk_invoice l))
                         (total_paid (lk_payments l)))
  /\ lookup "patient_portion" (invoice_row l) = lookup "patient_portion" (lk_invoice l)
  /\ lookup "invoice_id" (invoice_row l) = lookup "invoice_id" (lk_invoice l)
  /\ lookup "patient_id" (invoice_row l) = lookup "patient_id" (lk_invoice l)
  /\ lookup "patient_name" (invoice_row l) = Some (full_name (lk_patient l)).
Proof.
  unfold invoice_row.
  repeat split;
    rewrite (lookup_filter_keep
               (fun k => String.eqb k "_id" || existsb (String.eqb k) projected))
      by reflexivity;
    unfold invoice_totals; cbn [fold_left fst snd];
    repeat first [ apply lookup_dict_set_same
                 | rewrite lookup_dict_set_other by discriminate ];
    reflexivity.
Qed.





(** ** Invoices without a patient *)

Lemma filter_filter_comm {A} (p q : A -> bool) l :
  filter q (filter p l) = filter p (filter q l).
Proof.
  induction l as [|x l IH]; [reflexivity|]. cbn [filter].
  destruct (p x) eqn:P, (q x) eqn:Q'; cbn [filter]; rewrite ?P, ?Q'; now rewrite IH.
Qed.

Lemma joined_has_patient db invs :
  joined db (filter (has_patient db) invs) = joined db invs.
Proof.
  unfold joined. induction invs as [|inv invs IH]; [reflexivity|]. cbn [filter].
  destruct (has_patient db inv) eqn:E; cbn [flat_map]; rewrite IH; [reflexivity|].
  unfold patients_of. rewrite filter_all_false; [reflexivity|].
  intros pat Hpat. apply not_true_is_false. intros Hj.
  unfold has_patient in E.
  assert (existsb (join_eq "patient_id" "patient_id" inv) (collection db "Patient") = true);
    [|congruence].
  apply existsb_exists. eauto.
Qed.

Lemma joined_without_orphans db (q : dict -> bool) invs :
  joined db (filter q (filter (has_patient db) invs)) = joined db (filter q invs).
Proof. rewrite filter_filter_comm. apply joined_has_patient. Qed.

Lemma without_orphans_invoices db :
  collection (without_orphans db) "Invoice"
  = filter (has_patient db) (collection db "Invoice").
Proof. reflexivity. Qed.

Lemma without_orphans_joined db invs : joined (without_orphans db) invs = joined db invs.
Proof. reflexivity. Qed.

Lemma without_orphans_look_up db cutoff ip :
  look_up (without_orphans db) cutoff ip = look_up db cutoff ip.
Proof. reflexivity. Qed.

Lemma without_orphans_rows db s e :
  invoice_rows (without_orphans db) s e = invoice_rows db s e.
Proof.
  unfold invoice_rows, matched. rewrite without_orphans_invoices, without_orphans_joined.
  now rewrite joined_without_orphans.
Qed.

Lemma without_orphans_computable db s e :
  computable db s e = true -> computable (without_orphans db) s e = true.
Proof.
  unfold computable, matched. rewrite !andb_true_iff, !forallb_forall.
  rewrite without_orphans_invoices, without_orphans_joined, joined_without_orphans.
  intros [H1 H2]. split; [|exact H2].
  intros inv Hinv. apply filter_In in Hinv. apply H1. tauto.
Qed.

Lemma without_orphans_monthly db month year r :
  ReportService.get_monthly_statements db month year = Ok r ->
  ReportService.get_monthly_statements (without_orphans db) month year = Ok r.
Proof.
  rewrite !monthly_statements_iff. intros [Hruns ->]. split.
  - unfold returns in *. rewrite without_orphans_rows.
    apply andb_true_iff in Hruns. destruct Hruns as [Hruns Hg].
    apply andb_true_iff in Hruns. destruct Hruns as [Hm Hc].
    now rewrite Hm, Hg, (without_orphans_computable _ _ _ Hc).
  - unfold monthly_statements. cbv zeta.
    change (map invoice_row
              (map (look_up (without_orphans db) (next_first_day year month))
                   (joined (without_orphans db)
                      (matched (without_orphans db) (first_day year month)
                               (next_first_day year month)))))
      with (invoice_rows (without_orphans db) (first_day year month)
                         (next_first_day year month)).
    now rewrite without_orphans_rows.
Qed.

Lemma without_orphans_outstanding db :
  ReportService.get_outstanding_balances (without_orphans db)
  = ReportService.get_outstanding_balances db.
Proof.
  unfold ReportService.get_outstanding_balances, aggregate,
    ReportService.outstanding_pipeline.
  rewrite without_orphans_invoices.
  rewrite !run_cons. cbn [S_match bind].
  rewrite !run_cons. unfold S_lookup at 1 3. cbn [bind].
  rewrite !run_cons. unfold S_unwind at 1 2. cbn [bind].
  change (collection (without_orphans db) "Patient") with (collection db "Patient").
  rewrite !unwound_plain, joined_without_orphans.
  reflexivity.
Qed.

End RowFacts.

(** ** Rounding and sums *)








Lemma Qsum_partition {A} (f : A -> Q) (q : A -> bool) xs :
  (Qsum (map f (filter q xs)) + Qsum (map f (filter (fun x => negb (q x)) xs))
   == Qsum (map f xs))%Q.
Proof.
  induction xs as [|x xs IH]; simpl; [ring|].
  destruct (q x); simpl; rewrite <- IH; ring.
Qed.

Section StatementFacts.
Context {rt : Runtime}.
Import Spec.




Lemma monthly_report_shape db month year r :
  ReportService.get_monthly_statements db month year = Ok r ->
  let patients :=
    group (map ReportService.sanitize_doc
               (invoice_rows db (first_day year month) (next_first_day year month))) in
  r = ReportService.report_value month year
        {| paid_list := filter is_paid patients;
           unpaid_list := filter (fun p => negb (is_paid p)) patients;
           totals_paid := sum_totals (filter is_paid patients);
           totals_unpaid := sum_totals (filter (fun p => negb (is_paid p)) patients) |}.
Proof. intros H. now apply monthly_statements_refine in H. Qed.



End StatementFacts.

(** ** The claims *)

(** C8.  For every input value, the result of [_sanitize_for_json] holds no
    dictionary key ['_id'] at any depth and no ObjectId, DBRef, Decimal128,
    datetime, date, tuple or set: an ObjectId and a DBRef become strings, a
    Decimal128 becomes a float, or a string when the conversion fails,
    datetimes and dates become ISO-format strings, tuples and sets become
    lists, recursively. *)
Theorem sanitize_for_json_is_json {rt : Runtime} :
  (forall obj, json_clean (_sanitize_for_json obj) = true)
  /\ (forall hex, _sanitize_for_json (VObjectId hex) = VStr (str_objectid hex))
  /\ (forall r, _sanitize_for_json (VDBRef r) = VStr (str_dbref r))
  /\ (forall d, _sanitize_for_json (VDecimal128 d)
                = match float_of_decimal128 d with
                  | Some q => VNum q
                  | None => VStr (str_decimal128 d)
                  end)
  /\ (forall t, _sanitize_for_json (VDatetime t) = VStr (datetime_isoformat t))
  /\ (forall d, _sanitize_for_json (VDate d) = VStr (date_isoformat d))
  /\ (forall xs, _sanitize_for_json (VTuple xs) = VList (map _sanitize_for_json xs))
  /\ (forall xs, _sanitize_for_json (VSet xs) = VList (map _sanitize_for_json xs)).
Proof.
  split; [exact sanitize_clean|].
  repeat split; intros; reflexivity.
Qed.

(** C6.  [GET /statements/monthly] never lets an exception through and never
    changes the database.  When [month] or [year] is missing or zero the
    answer is 400 with [{"error": "Month and Year required"}], whatever the
    database holds; when the report raises, the answer is 500 with an error
    body; otherwise it is 200 with the sanitized report.  The generic
    [handle_error] answers 500 with the message of the exception. *)
Theorem monthly_statements_route {rt : Runtime} (req : request) (w : world) :
  (exists resp w',
      App.get_monthly_statements req w = (Ok resp, w')
      /\ w_db w' = w_db w
      /\ match args_get_int "month" req, args_get_int "year" req with
         | Some m, Some y =>
             if (m =? 0) || (y =? 0) then
               resp = {| status := 400;
                         body := VDict [("error", VStr "Month and Year required")] |}
               /\ w' = w
             else
               match ReportService.get_monthly_statements (w_db w) m y with
               | Ok report =>
                   resp = {| status := 200; body := _sanitize_for_json report |}
                   /\ w' = w
               | Raise e =>
                   resp = {| status := 500;
                             body := VDict [ ("error", VStr "internal server error");
                                             ("detail", VStr (str_exn e));
                                             ("trace", VStr (traceback_format_exc e)) ] |}
               end
         | _, _ =>
             resp = {| status := 400;
                       body := VDict [("error", VStr "Month and Year required")] |}
             /\ w' = w
         end)
  /\ (forall e,
        App.handle_error e w
        = (Ok {| status := 500; body := VDict [("error", VStr (str_exn e))] |}, w)).
Proof.
  split; [|reflexivity].
  unfold App.get_monthly_statements, try_except.
  destruct (args_get_int "month" req) as [m|], (args_get_int "year" req) as [y|];
    cbn [not_int orb];
    try (eexists; eexists; repeat split; reflexivity).
  - destruct (m =? 0); cbn [orb];
      [eexists; eexists; repeat split; reflexivity|].
    destruct (y =? 0);
      [eexists; eexists; repeat split; reflexivity|].
    unfold bindM, get_db, lift.
    destruct (ReportService.get_monthly_statements (w_db w) m y) as [report|e].
    + unfold ret. rewrite jsonify_sanitized.
      eexists; eexists; repeat split; reflexivity.
    + eexists; eexists; repeat split; reflexivity.
  - destruct (m =? 0); eexists; eexists; repeat split; reflexivity.
Qed.

(** C7.  [GET /patients/<patient_id>], in both backends, reads the patient
    collection through the single filter on [patient_id]: it answers 404
    with "Patient not found" exactly when no patient has that id, otherwise
    200 with the record found as JSON; the answer depends on no other
    record, and nothing is modified. *)
Theorem get_patient_route {rt : Runtime} (patient_id : Z) (w : world) :
  let found := filter (q_eq "patient_id" (VNum (inject_Z patient_id)))
                      (collection (w_db w) "Patient") in
  AppPatients.get_patient patient_id w
  = (Ok match found with
        | [] => {| status := 404; body := VDict [("error", VStr "Patient not found")] |}
        | patient :: _ => {| status := 200; body := model_dump patient |}
        end, w)
  /\ MainV2.get_patient patient_id w
     = (Ok match found with
           | [] => {| status := 404; body := VDict [("detail", VStr "Patient not found")] |}
           | patient :: _ => {| status := 200; body := model_dump patient |}
           end, w).
Proof.
  unfold AppPatients.get_patient, MainV2.get_patient, PatientCRUD.get, bindM, get_db.
  rewrite find_filter.
  destruct (filter _ _) as [|patient rest]; split; try reflexivity.
  unfold lift, model_dump. now rewrite jsonify_sanitized.
Qed.















(** C10.  An invoice whose [patient_id] matches no Patient document is
    omitted without an error from both reports: deleting every such invoice
    from the database changes neither the outstanding balances nor any
    monthly statements that are returned. *)
Theorem orphan_invoices_omitted {rt : Runtime} db :
  ReportService.get_outstanding_balances (Spec.without_orphans db)
  = ReportService.get_outstanding_balances db
  /\ (forall month year r,
        ReportService.get_monthly_statements db month year = Ok r ->
        ReportService.get_monthly_statements (Spec.without_orphans db) month year = Ok r)
  /\ (forall inv, Spec.has_patient db inv = false -> Spec.joined db [inv] = []).
Proof.
  split; [apply without_orphans_outstanding|].
  split; [intros month year r; apply without_orphans_monthly|].
  intros inv H. rewrite <- (joined_has_patient db [inv]). cbn [filter]. now rewrite H.
Qed.

Lemma orphan_invoices_omitted_witness :
  ReportService.get_monthly_statements (rt := Iso.runtime) Sample.clinic 2 2024
  = Ok Sample.february
  /\ ReportService.get_monthly_statements (rt := Iso.runtime)
       (Spec.without_orphans Sample.clinic) 2 2024
     = Ok Sample.february
  /\ List.length (collection (Spec.without_orphans Sample.clinic) "Invoice") = 3%nat.
Proof.
  assert (H : ReportService.get_monthly_statements (rt := Iso.runtime) Sample.clinic 2 2024
              = Ok Sample.february) by (vm_compute; reflexivity).
  split; [exact H|]. split; [|reflexivity].
  apply (proj1 (proj2 (orphan_invoices_omitted (rt := Iso.runtime) Sample.clinic))).
  exact H.
Defined.

(* ===================================================================== *)
(** * Part III: further properties of the reports and the routes *)
(* ===================================================================== *)

Section MoreSanitize.
Context {rt : Runtime}.

Lemma sanitize_fold_items items acc :
  distinct (map fst acc ++ map fst items) = true ->
  fold_left sanitize_step items acc = acc ++ sanitized_items items.
Proof.
  revert acc. induction items as [|[k v] items IH]; intros acc H.
  - cbn. now rewrite app_nil_r.
  - cbn [fold_left]. unfold sanitize_step at 2. cbn [fst snd].
    unfold sanitized_items. cbn [filter fst snd].
    destruct (String.eqb k "_id") eqn:E; cbn [negb].
    + apply IH. cbn [map fst] in H.
      clear - H. induction (map fst acc) as [|a l IHl]; cbn in *.
      * apply andb_true_iff in H. tauto.
      * apply andb_true_iff in H. destruct H as [H1 H2].
        rewrite IHl by auto. rewrite andb_true_r.
        apply negb_true_iff in H1. apply negb_true_iff.
        rewrite existsb_app in *. apply orb_false_iff in H1. destruct H1 as [H1 H3].
        cbn in H3. apply orb_false_iff in H3. destruct H3 as [_ H3].
        now rewrite H1, H3.
    + cbn [map fst snd].
      assert (Hk : existsb (String.eqb k) (map fst acc) = false).
      { clear - H. cbn [map fst] in H.
        induction (map fst acc) as [|a l IHl]; cbn in *; auto.
        apply andb_true_iff in H. destruct H as [H1 H2].
        rewrite IHl by auto. rewrite orb_false_r.
        apply negb_true_iff in H1. rewrite existsb_app in H1.
        apply orb_false_iff in H1. destruct H1 as [_ H1]. cbn in H1.
        apply orb_false_iff in H1. destruct H1 as [H1 _].
        now rewrite String.eqb_sym. }
      rewrite dict_set_fresh by auto.
      rewrite IH.
      * now rewrite <- app_assoc.
      * rewrite map_app. cbn [map fst]. rewrite <- app_assoc. exact H.
Qed.

Lemma sanitize_distinct items :
  distinct (map fst items) = true ->
  _sanitize_for_json (VDict items) = VDict (sanitized_items items).
Proof.
  intros H. cbn [_sanitize_for_json]. f_equal.
  exact (sanitize_fold_items items [] H).
Qed.

Lemma lookup_sanitized_items k items :
  String.eqb k "_id" = false ->
  lookup k (sanitized_items items) = option_map _sanitize_for_json (lookup k items).
Proof.
  intros Hk. unfold sanitized_items.
  induction items as [|[k' v] items IH]; cbn [filter map lookup fst snd option_map]; auto.
  destruct (String.eqb k' "_id") eqn:E; cbn [negb].
  - destruct (String.eqb k k') eqn:E'; auto.
    apply String.eqb_eq in E'. subst. congruence.
  - cbn [map lookup fst snd]. destruct (String.eqb k k'); auto.
Qed.

Lemma lookup_sanitized_id items : lookup "_id" (sanitized_items items) = None.
Proof.
  unfold sanitized_items.
  induction items as [|[k' v] items IH]; cbn [filter map lookup fst snd]; auto.
  destruct (String.eqb k' "_id") eqn:E; cbn [negb]; auto.
  cbn [map lookup fst snd]. rewrite String.eqb_sym, E. auto.
Qed.

End MoreSanitize.

(** X1.  [_sanitize_for_json] is idempotent: sanitizing a sanitized value changes
    nothing, so the second pass of the [/statements/monthly] route returns the
    report of the service as it is. *)
Theorem sanitize_for_json_idempotent {rt : Runtime} (obj : value) :
  _sanitize_for_json (_sanitize_for_json obj) = _sanitize_for_json obj.
Proof. apply sanitize_idempotent. Qed.

(** X2.  On a dictionary (no key twice) [_sanitize_for_json] drops the key
    ['_id'] and nothing else: the other keys stay, in their order, each with
    its value sanitized, so that [new.get(k)] is the sanitized [obj.get(k)]
    for every other key [k]. *)
Theorem sanitize_for_json_dict {rt : Runtime} (items : dict) :
  distinct (map fst items) = true ->
  _sanitize_for_json (VDict items) = VDict (sanitized_items items)
  /\ lookup "_id" (sanitized_items items) = None
  /\ forall k, k <> "_id" ->
       lookup k (sanitized_items items)
       = option_map _sanitize_for_json (lookup k items).
Proof.
  intros H. split; [now apply sanitize_distinct|].
  split; [apply lookup_sanitized_id|].
  intros k Hk. apply lookup_sanitized_items. now apply String.eqb_neq.
Qed.

Lemma sanitize_for_json_dict_witness :
  distinct (map fst (Sample.patient 1 "Ann" "Lee")) = true
  /\ _sanitize_for_json (rt := Iso.runtime) (VDict (Sample.patient 1 "Ann" "Lee"))
     = VDict [ ("patient_id", VNum 1); ("first_name", VStr "Ann");
               ("last_name", VStr "Lee") ].
Proof.
  split; [reflexivity|].
  apply (proj1 (sanitize_for_json_dict (rt := Iso.runtime)
                  (Sample.patient 1 "Ann" "Lee") eq_refl)).
Defined.

Lemma map_result_raise {A B} (f : A -> result B) (e : exn) xs x :
  (forall y, In y xs -> (exists b, f y = Ok b) \/ f y = Raise e) ->
  In x xs -> f x = Raise e -> map_result f xs = Raise e.
Proof.
  induction xs as [|a xs IH]; intros Hall Hin Hx; [destruct Hin|].
  cbn [map_result].
  destruct (Hall a (or_introl eq_refl)) as [[b Hb]|Hb]; rewrite Hb; cbn [bind]; auto.
  destruct Hin as [->|Hin]; [congruence|].
  rewrite IH; auto. intros y Hy. apply Hall. now right.
Qed.

Lemma run_ext (pipeline : list stage) db db' docs :
  Forall (fun s : stage => forall docs, s db' docs = s db docs) pipeline ->
  run pipeline db' docs = run pipeline db docs.
Proof.
  intros H. revert docs. induction H as [|s ps Hs _ IH]; intros docs; cbn [run]; auto.
  rewrite Hs. destruct (s db docs); cbn [bind]; auto.
Qed.

Lemma map_result_ext {A B} (f g : A -> result B) xs :
  (forall x, In x xs -> f x = g x) -> map_result f xs = map_result g xs.
Proof.
  induction xs as [|a xs IH]; intros H; cbn [map_result]; auto.
  rewrite (H a (or_introl eq_refl)). rewrite IH; auto.
  intros x Hx. apply H. now right.
Qed.

Lemma map_result_snoc {A B} (f : A -> result B) xs x :
  map_result f (xs ++ [x])
  = (ys <- map_result f xs ;; y <- f x ;; Ok (ys ++ [y])).
Proof.
  induction xs as [|a xs IH]; cbn [map_result app bind].
  - destruct (f x); reflexivity.
  - destruct (f a); cbn [bind]; auto. rewrite IH.
    destruct (map_result f xs); cbn [bind]; auto.
    destruct (f x); reflexivity.
Qed.

Section MoreMonthly.
Context {rt : Runtime}.
Import Spec.


Lemma stage1_cases (d : dict) :
  (exists d', assign_fields [("invoice_date_dt", E_toDate (E_field "invoice_date"))] d d
              = Ok d')
  \/ assign_fields [("invoice_date_dt", E_toDate (E_field "invoice_date"))] d d
     = Raise (OperationFailure "$toDate: conversion failed").
Proof.
  unfold assign_fields, E_toDate, E_field. cbn [for_each fst snd bind].
  destruct (lookup "invoice_date" d) as [v|]; cbn [bind]; eauto.
  destruct v; cbn [bind]; eauto; destruct (convert_to_date _); cbn [bind]; eauto.
Qed.

Lemma stage1_fails (d : dict) :
  date_ok (lookup "invoice_date" d) = false ->
  assign_fields [("invoice_date_dt", E_toDate (E_field "invoice_date"))] d d
  = Raise (OperationFailure "$toDate: conversion failed").
Proof.
  unfold date_ok, as_date, nullish, assign_fields, E_toDate, E_field.
  cbn [for_each fst snd bind].
  destruct (lookup "invoice_date" d) as [v|]; cbn [bind orb]; try discriminate.
  destruct v; cbn [bind orb]; try discriminate;
    destruct (convert_to_date _); cbn [bind]; try discriminate; auto.
Qed.

End MoreMonthly.



(** X4.  One invoice whose [invoice_date] the server cannot convert to a date
    makes [get_monthly_statements] fail for every valid month, whatever the
    month of the other invoices: [$toDate] runs on every invoice, before
    the date-range [$match]. *)
Theorem monthly_statements_unreadable_invoice_date {rt : Runtime}
    (db : database) (month year : Z) (inv : dict) :
  Spec.valid_month month year = true ->
  In inv (collection db "Invoice") ->
  Spec.date_ok (lookup "invoice_date" inv) = false ->
  ReportService.get_monthly_statements db month year
  = Raise (OperationFailure "$toDate: conversion failed").
Proof.
  intros Hv Hin Hbad.
  apply month_range_runs in Hv. destruct Hv as [range Hr].
  unfold ReportService.get_monthly_statements. rewrite Hr. cbn [bind].
  unfold aggregate, ReportService.monthly_pipeline. rewrite run_cons.
  unfold S_addFields at 1.
  rewrite (map_result_raise _ (OperationFailure "$toDate: conversion failed") _ inv);
    auto.
  - intros y _. apply stage1_cases.
  - now apply stage1_fails.
Qed.

Lemma monthly_statements_unreadable_invoice_date_witness :
  let db := Sample.mk_db [] [Sample.invoice 20 1 "next week" "pending" 10] [] in
  ReportService.get_monthly_statements (rt := Iso.runtime) db 2 2024
  = Raise (OperationFailure "$toDate: conversion failed").
Proof.
  cbv zeta.
  apply (monthly_statements_unreadable_invoice_date (rt := Iso.runtime) _ 2 2024
           (Sample.invoice 20 1 "next week" "pending" 10)).
  - reflexivity.
  - left. reflexivity.
  - vm_compute. reflexivity.
Defined.

Section LatePayment.
Context {rt : Runtime}.
Import Spec.

Lemma late_payment_dropped inv_id cutoff pay t :
  as_date (lookup "payment_date" pay) = Some t ->
  cutoff < t ->
  (x <- E_and [ E_eq (E_field "invoice_id") (E_const inv_id);
                E_lte (E_toDate (E_field "payment_date"))
                      (E_const (Some (VDatetime cutoff))) ] pay ;;
   Ok (coerce_bool x, pay)) = Ok (false, pay).
Proof.
  intros Ht Hlt.
  assert (Hok : date_ok (lookup "payment_date" pay) = true).
  { unfold date_ok. rewrite Ht. apply orb_true_r. }
  destruct (proj2 (payment_expr_iff inv_id cutoff pay)) as [x Hx].
  { rewrite Hok. apply orb_true_r. }
  rewrite Hx. cbn [bind]. rewrite (payment_expr_ok _ _ _ _ Hx).
  assert (Hb : on_or_before cutoff pay = false).
  { assert (Hleb : (t <=? cutoff) = false) by (apply Z.leb_gt; lia).
    unfold on_or_before.
    destruct (lookup "payment_date" pay) as [v|]; [destruct v|];
      try discriminate Ht; rewrite Ht; exact Hleb. }
  rewrite Hb. now rewrite andb_false_r.
Qed.

Lemma match_expr_late_payment inv_id cutoff pay t db db' pays :
  as_date (lookup "payment_date" pay) = Some t ->
  cutoff < t ->
  S_match_expr
    (E_and [ E_eq (E_field "invoice_id") (E_const inv_id);
             E_lte (E_toDate (E_field "payment_date"))
                   (E_const (Some (VDatetime cutoff))) ]) db' (pays ++ [pay])
  = S_match_expr
      (E_and [ E_eq (E_field "invoice_id") (E_const inv_id);
               E_lte (E_toDate (E_field "payment_date"))
                     (E_const (Some (VDatetime cutoff))) ]) db pays.
Proof.
  intros Ht Hlt. unfold S_match_expr. rewrite map_result_snoc.
  rewrite (late_payment_dropped inv_id cutoff pay t Ht Hlt).
  destruct (map_result _ pays) as [kept|e]; cbn [bind]; auto.
  rewrite filter_app, map_app. cbn [filter fst map]. now rewrite app_nil_r.
Qed.

Lemma monthly_pipeline_late_payment db pay t s e docs :
  as_date (lookup "payment_date" pay) = Some t ->
  e < t ->
  run (ReportService.monthly_pipeline s e) (insert_payment db pay) docs
  = run (ReportService.monthly_pipeline s e) db docs.
Proof.
  intros Ht Hlt. apply run_ext. unfold ReportService.monthly_pipeline.
  repeat apply Forall_cons; try apply Forall_nil; intros ds; try reflexivity.
  unfold S_lookup_pipeline. apply map_result_ext. intros d _.
  destruct (E_field "invoice_id" d) as [x|err]; cbn [bind]; auto.
  unfold insert_payment at 2. rewrite collection_same.
  cbn [run].
  now rewrite (match_expr_late_payment x e pay t db (insert_payment db pay)).
Qed.

End LatePayment.

(** X5.  A payment dated after the cutoff (the first instant of the next month)
    does not change the statements of the month: with it in the [Payment]
    collection [get_monthly_statements] returns the same report, or raises
    the same exception. *)
Theorem monthly_statements_ignore_late_payment {rt : Runtime}
    (db : database) (month year : Z) (pay : dict) (t : datetime) :
  Spec.as_date (lookup "payment_date" pay) = Some t ->
  Spec.next_first_day year month < t ->
  ReportService.get_monthly_statements (insert_payment db pay) month year
  = ReportService.get_monthly_statements db month year.
Proof.
  intros Ht Hlt. unfold ReportService.get_monthly_statements.
  destruct (ReportService.month_range month year) as [range|err] eqn:Hr;
    cbn [bind]; auto.
  apply month_range_ok in Hr. subst range. cbn [fst snd].
  unfold aggregate.
  rewrite (monthly_pipeline_late_payment db pay t _ _ _ Ht Hlt).
  reflexivity.
Qed.

Lemma monthly_statements_ignore_late_payment_witness :
  ReportService.get_monthly_statements (rt := Iso.runtime)
    (insert_payment Sample.clinic (Sample.payment 4 11 "2024-03-01T00:00:01" 50))
    2 2024
  = ReportService.get_monthly_statements (rt := Iso.runtime) Sample.clinic 2 2024.
Proof.
  apply (monthly_statements_ignore_late_payment (rt := Iso.runtime) Sample.clinic 2 2024
           (Sample.payment 4 11 "2024-03-01T00:00:01" 50) 1709251201000).
  - vm_compute. reflexivity.
  - vm_compute. reflexivity.
Defined.

(** X6.  For a valid month in which no invoice was issued (every [invoice_date]
    being null, missing, a date or convertible), [get_monthly_statements]
    returns the report with no patient in either bucket and all six totals
    at zero. *)
Theorem monthly_statements_empty_month {rt : Runtime} (db : database) (month year : Z) :
  Spec.valid_month month year = true ->
  (forall inv, In inv (collection db "Invoice") ->
     Spec.date_ok (lookup "invoice_date" inv) = true
     /\ Spec.issued_in (Spec.first_day year month) (Spec.next_first_day year month) inv
        = false) ->
  ReportService.get_monthly_statements db month year
  = Ok (ReportService.report_value month year empty_buckets).
Proof.
  intros Hv Hinv. apply monthly_statements_iff.
  assert (Hm : Spec.matched db (Spec.first_day year month)
                 (Spec.next_first_day year month) = []).
  { unfold Spec.matched. apply filter_all_false. intros inv Hin.
    now apply Hinv. }
  unfold Spec.returns, Spec.computable, Spec.monthly_statements, Spec.invoice_rows.
  rewrite Hm, Hv. cbn. split; auto.
  rewrite !andb_true_r. apply forallb_forall. intros inv Hin. now apply Hinv.
Qed.

Lemma monthly_statements_empty_month_witness :
  ReportService.get_monthly_statements (rt := Iso.runtime) Sample.clinic 1 2024
  = Ok (ReportService.report_value 1 2024 empty_buckets).
Proof.
  apply (monthly_statements_empty_month (rt := Iso.runtime) Sample.clinic 1 2024).
  - reflexivity.
  - intros inv Hin. cbn in Hin.
    repeat (destruct Hin as [<-|Hin]; [split; vm_compute; reflexivity|]).
    destruct Hin.
Defined.

Lemma distinct_filter (p : string -> bool) ks :
  distinct ks = true -> distinct (filter p ks) = true.
Proof.
  induction ks as [|k ks IH]; cbn [distinct filter]; auto.
  intros H. apply andb_true_iff in H. destruct H as [H1 H2].
  destruct (p k); cbn [distinct]; auto.
  rewrite IH by auto. rewrite andb_true_r.
  apply negb_true_iff in H1. apply negb_true_iff.
  apply not_true_is_false. intros Hex. apply existsb_exists in Hex.
  destruct Hex as [x [Hx Hkx]]. apply filter_In in Hx.
  assert (existsb (String.eqb k) ks = true); [|congruence].
  apply existsb_exists. exists x. tauto.
Qed.

Lemma map_fst_filter (p : string -> bool) (d : dict) :
  map fst (filter (fun kv => p (fst kv)) d) = filter p (map fst d).
Proof.
  induction d as [|[k v] d IH]; cbn [filter map fst]; auto.
  destruct (p k); cbn [map fst]; now rewrite IH.
Qed.

Section NoPortion.
Context {rt : Runtime}.
Import Spec.

Lemma sanitize_doc_distinct d :
  distinct (map fst d) = true -> ReportService.sanitize_doc d = sanitized_items d.
Proof.
  intros H. unfold ReportService.sanitize_doc. now rewrite sanitize_distinct.
Qed.

Lemma invoice_row_distinct l :
  distinct (map fst (lk_invoice l)) = true -> distinct (map fst (invoice_row l)) = true.
Proof.
  intros H. unfold invoice_row.
  rewrite (map_fst_filter
             (fun k => String.eqb k "_id" || existsb (String.eqb k) projected)).
  apply distinct_filter. unfold invoice_totals. cbn [fold_left fst snd].
  repeat apply dict_set_distinct. exact H.
Qed.

Lemma joined_In db invs ip : In ip (joined db invs) -> In (fst ip) invs.
Proof.
  unfold joined. intros H. apply in_flat_map in H. destruct H as [inv [Hinv H]].
  apply in_map_iff in H. destruct H as [pat [<- _]]. exact Hinv.
Qed.

Lemma sum_field_none k rows :
  (forall row, In row rows -> dict_get k row = VNone) -> sum_field k rows = 0%Q.
Proof.
  unfold sum_field. induction rows as [|row rows IH]; intros H; cbn [fold_left]; auto.
  rewrite (H row (or_introl eq_refl)). cbn. apply IH. intros r Hr. apply H. now right.
Qed.

Lemma no_portion_row db cutoff ip :
  distinct (map fst (fst ip)) = true ->
  nullish (lookup "patient_portion" (fst ip)) = true ->
  let row := ReportService.sanitize_doc (invoice_row (look_up db cutoff ip)) in
  dict_get "patient_portion" row = VNone /\ dict_get "balance_due" row = VNone.
Proof.
  destruct ip as [inv pat]. cbn [fst]. intros Hd Hn. cbv zeta.
  rewrite sanitize_doc_distinct by (apply invoice_row_distinct; exact Hd).
  unfold dict_get. rewrite !lookup_sanitized_items by reflexivity.
  destruct (invoice_row_fields (look_up db cutoff (inv, pat))) as [_ [_ [Hb [Hp _]]]].
  rewrite Hb, Hp. cbn [look_up lk_invoice lk_payments fst].
  destruct (lookup "patient_portion" inv) as [v|]; [destruct v|];
    try discriminate Hn; split; reflexivity.
Qed.

End NoPortion.

(** X7.  An invoice without a [patient_portion] (missing or null) owes nothing:
    [$subtract] gives null, and [inv.get('balance_due') or 0.0] turns it into
    zero.  When no invoice of the month states a portion, every patient is
    listed as paid, with [total_invoiced] and [balance] at zero, and the
    unpaid bucket is empty. *)
Theorem monthly_statements_without_portion {rt : Runtime}
    (db : database) (month year : Z) (r : value) :
  ReportService.get_monthly_statements db month year = Ok r ->
  (forall inv,
      In inv (Spec.matched db (Spec.first_day year month)
                           (Spec.next_first_day year month)) ->
      distinct (map fst inv) = true
      /\ nullish (lookup "patient_portion" inv) = true) ->
  exists b : buckets,
    r = ReportService.report_value month year b
    /\ unpaid_list b = []
    /\ forall p, In p (paid_list b) ->
         st_total_invoiced p = 0%Q /\ st_balance p = 0%Q.
Proof.
  intros H Hinv. apply monthly_report_shape in H. cbv zeta in H.
  eexists. split; [exact H|]. cbn [paid_list unpaid_list].
  set (rows := map ReportService.sanitize_doc
                   (Spec.invoice_rows db (Spec.first_day year month)
                                      (Spec.next_first_day year month))).
  assert (Hrows : forall row, In row rows ->
            dict_get "patient_portion" row = VNone
            /\ dict_get "balance_due" row = VNone).
  { intros row Hrow. unfold rows, Spec.invoice_rows in Hrow.
    rewrite !map_map in Hrow. apply in_map_iff in Hrow.
    destruct Hrow as [ip [<- Hip]]. apply joined_In in Hip.
    destruct (Hinv _ Hip) as [Hd Hn]. now apply no_portion_row. }
  assert (Hst : forall p, In p (Spec.group rows) ->
            st_total_invoiced p = 0%Q /\ st_balance p = 0%Q).
  { intros p Hp. unfold Spec.group in Hp. apply in_map_iff in Hp.
    destruct Hp as [k [<- _]]. cbn [Spec.statement_of st_total_invoiced st_balance].
    split; apply sum_field_none; intros row Hrow; apply filter_In in Hrow;
      apply Hrows; tauto. }
  split.
  - apply filter_all_false. intros p Hp. apply Hst in Hp. destruct Hp as [_ Hb].
    unfold Spec.is_paid. rewrite Hb. reflexivity.
  - intros p Hp. apply filter_In in Hp. apply Hst. tauto.
Qed.

Lemma monthly_statements_without_portion_witness :
  ReportService.get_monthly_statements (rt := Iso.runtime) unpriced 2 2024
  = Ok unpriced_report
  /\ exists b : buckets,
       unpriced_report = ReportService.report_value 2 2024 b
       /\ unpaid_list b = []
       /\ forall p, In p (paid_list b) ->
            st_total_invoiced p = 0%Q /\ st_balance p = 0%Q.
Proof.
  assert (H : ReportService.get_monthly_statements (rt := Iso.runtime) unpriced 2 2024
              = Ok unpriced_report) by (vm_compute; reflexivity).
  split; [exact H|].
  apply (monthly_statements_without_portion (rt := Iso.runtime) unpriced 2 2024
           unpriced_report H).
  intros inv Hin. vm_compute in Hin. destruct Hin as [<-|[]].
  split; vm_compute; reflexivity.
Defined.

Lemma unwind_lookup_as k (ps : list dict) d :
  unwind k (dict_set k (VList (map VDict ps)) d)
  = map (fun p => dict_set k (VDict p) d) ps.
Proof.
  unfold unwind. rewrite lookup_dict_set_same, map_map.
  apply map_ext. intros p. apply dict_set_twice.
Qed.

Lemma lookup_unwind k (sel : dict -> list dict) docs :
  flat_map (unwind k) (map (fun d => dict_set k (VList (map VDict (sel d))) d) docs)
  = flat_map (fun d => map (fun p => dict_set k (VDict p) d) (sel d)) docs.
Proof.
  induction docs as [|d docs IH]; cbn [map flat_map]; auto.
  now rewrite unwind_lookup_as, IH.
Qed.

Lemma flat_map_flat_map {A B C} (f : A -> list B) (g : B -> list C) xs :
  flat_map g (flat_map f xs) = flat_map (fun x => flat_map g (f x)) xs.
Proof.
  induction xs as [|x xs IH]; cbn [flat_map]; auto.
  now rewrite flat_map_app, IH.
Qed.

Lemma flat_map_map {A B C} (f : A -> B) (g : B -> list C) xs :
  flat_map g (map f xs) = flat_map (fun x => g (f x)) xs.
Proof. induction xs as [|x xs IH]; cbn [flat_map map]; auto. now rewrite IH. Qed.

Lemma map_flat_map {A B C} (f : A -> list B) (g : B -> C) xs :
  map g (flat_map f xs) = flat_map (fun x => map g (f x)) xs.
Proof.
  induction xs as [|x xs IH]; cbn [flat_map map]; auto.
  now rewrite map_app, IH.
Qed.



Lemma map_result_map {A B C} (f : B -> result C) (h : A -> B) xs :
  map_result f (map h xs) = map_result (fun x => f (h x)) xs.
Proof. induction xs as [|x xs IH]; cbn [map map_result]; auto. now rewrite IH. Qed.

Lemma map_result_guard {A B} (ok : A -> bool) (g : A -> B) (err : exn) xs :
  map_result (fun x => if ok x then Ok (g x) else Raise err) xs
  = if forallb ok xs then Ok (map g xs) else Raise err.
Proof.
  induction xs as [|x xs IH]; cbn [map_result forallb map]; auto.
  destruct (ok x); cbn [bind andb]; auto.
  rewrite IH. destruct (forallb ok xs); reflexivity.
Qed.

Section LogProofs.
Context {rt : Runtime}.
Import Log.

Lemma concat_name_at k (doc : dict) (d : dict) :
  lookup k d = Some (VDict doc) ->
  E_concat [E_path k "first_name"; E_const (Some (VStr " ")); E_path k "last_name"] d
  = if Spec.name_ok doc then Ok (Some (Spec.full_name doc))
    else Raise (OperationFailure "$concat: only strings").
Proof.
  intros Hk. unfold E_concat, E_path, E_const, Spec.name_ok, Spec.full_name.
  cbn [concat_from bind]. rewrite Hk.
  destruct (lookup "first_name" doc) as [f|]; [|reflexivity].
  destruct f; cbn [bind]; try reflexivity.
  destruct (lookup "last_name" doc) as [l|]; [|reflexivity].
  destruct l; cbn [bind]; try reflexivity.
  now rewrite string_app_assoc.
Qed.

Lemma joined_doc_visit e k :
  k <> "staff" -> k <> "patient" -> k <> "delivery_info" ->
  lookup k (joined_doc e) = lookup k (en_visit e).
Proof.
  intros H1 H2 H3. unfold joined_doc. now rewrite !lookup_dict_set_other by auto.
Qed.

Lemma project_entry (e : entry) :
  assign_fields
    [ ("time", E_field "start_time");
      ("patient",
        E_concat [E_path "patient" "first_name"; E_const (Some (VStr " "));
                  E_path "patient" "last_name"]);
      ("performed_by",
        E_concat [E_path "staff" "first_name"; E_const (Some (VStr " "));
                  E_path "staff" "last_name"]);
      ("visit_type", E_field "visit_type") ]
    (joined_doc e)
    match lookup "_id" (joined_doc e) with
    | Some v => [("_id", v)]
    | None => []
    end
  = if names_ok e then Ok (row e) else Raise (OperationFailure "$concat: only strings").
Proof.
  assert (Hp : lookup "patient" (joined_doc e) = Some (VDict (en_patient e))).
  { unfold joined_doc. rewrite lookup_dict_set_other by discriminate.
    apply lookup_dict_set_same. }
  assert (Hs : lookup "staff" (joined_doc e) = Some (VDict (en_staff e))).
  { apply lookup_dict_set_same. }
  unfold assign_fields. cbn [for_each fst snd]. unfold E_field. cbn [bind].
  rewrite (concat_name_at "patient" _ _ Hp), (concat_name_at "staff" _ _ Hs).
  rewrite !joined_doc_visit by discriminate.
  unfold names_ok, row.
  destruct (Spec.name_ok (en_patient e)); cbn [bind andb]; [|reflexivity].
  destruct (Spec.name_ok (en_staff e)); cbn [bind andb]; reflexivity.
Qed.

Lemma staff_selection (delivery d f : dict) :
  lookup "delivery_info" d = Some (VDict delivery) ->
  existsb (fun x => q_eq "staff_id" x f) (local_path "delivery_info" "performed_by" d)
  = join_eq "performed_by" "staff_id" delivery f.
Proof. intros H. unfold local_path, join_eq. rewrite H. reflexivity. Qed.

Lemma joined_docs_of db visit :
  flat_map
    (fun d => map (fun s => dict_set "staff" (VDict s) d)
                  (filter (fun f => existsb (fun x => q_eq "staff_id" x f)
                                            (local_path "delivery_info" "performed_by" d))
                          (collection db "Staff")))
    (flat_map
       (fun d => map (fun p => dict_set "patient" (VDict p) d)
                     (filter (join_eq "patient_id" "patient_id" d)
                             (collection db "Patient")))
       (map (fun p => dict_set "delivery_info" (VDict p) visit)
            (filter (join_eq "visit_id" "visit_id" visit) (collection db "Delivery"))))
  = map joined_doc (entries_of db visit).
Proof.
  unfold entries_of, deliveries_of.
  rewrite flat_map_map, flat_map_flat_map, map_flat_map.
  apply flat_map_ext. intros del.
  rewrite flat_map_map, map_flat_map.
  rewrite (filter_ext (join_eq "patient_id" "patient_id" _)
                      (join_eq "patient_id" "patient_id" visit)).
  2:{ intros f. apply join_eq_local. now rewrite lookup_dict_set_other by discriminate. }
  fold (Spec.patients_of db visit).
  apply flat_map_ext. intros pat. rewrite map_map. unfold performers_of.
  rewrite (filter_ext _ (join_eq "performed_by" "staff_id" del)).
  2:{ intros f. apply staff_selection.
      rewrite lookup_dict_set_other by discriminate. apply lookup_dict_set_same. }
  reflexivity.
Qed.

Lemma delivery_log_as_entries db log_date :
  Reports.get_daily_delivery_log db log_date
  = if forallb names_ok (entries db log_date)
    then Ok (map row (entries db log_date))
    else Raise (OperationFailure "$concat: only strings").
Proof.
  unfold Reports.get_daily_delivery_log, aggregate, Reports.delivery_pipeline.
  cbv zeta.
  rewrite run_cons. cbn [S_match bind].
  rewrite (filter_ext _ (on_day log_date)).
  2:{ intros v. unfold q_and, on_day. cbn [forallb]. now rewrite andb_true_r. }
  rewrite run_cons. unfold S_lookup at 1. cbn [bind].
  rewrite run_cons. unfold S_unwind at 1. cbn [bind].
  rewrite (lookup_unwind "delivery_info"
             (fun d => filter (join_eq "visit_id" "visit_id" d) (collection db "Delivery"))).
  rewrite run_cons. unfold S_lookup at 1. cbn [bind].
  rewrite run_cons. unfold S_unwind at 1. cbn [bind].
  rewrite (lookup_unwind "patient"
             (fun d => filter (join_eq "patient_id" "patient_id" d)
                              (collection db "Patient"))).
  rewrite run_cons. unfold S_lookup_path at 1. cbn [bind].
  rewrite run_cons. unfold S_unwind at 1. cbn [bind].
  rewrite (lookup_unwind "staff"
             (fun d => filter (fun f => existsb (fun x => q_eq "staff_id" x f)
                                          (local_path "delivery_info" "performed_by" d))
                              (collection db "Staff"))).
  rewrite !flat_map_flat_map.
  rewrite (flat_map_ext _ (fun v => map joined_doc (entries_of db v))).
  2:{ intros v. rewrite <- joined_docs_of. now rewrite !flat_map_flat_map. }
  rewrite <- map_flat_map. fold (entries db log_date).
  rewrite run_cons. unfold S_project. rewrite map_result_map.
  rewrite (map_result_ext _ (fun e => if names_ok e then Ok (row e)
                                      else Raise (OperationFailure "$concat: only strings"))).
  2:{ intros e _. apply project_entry. }
  rewrite map_result_guard.
  destruct (forallb names_ok (entries db log_date)); reflexivity.
Qed.

End LogProofs.

Section LogProofs2.
Context {rt : Runtime}.
Import Log.

Lemma row_fields (e : entry) :
  lookup "_id" (row e) = lookup "_id" (en_visit e)
  /\ lookup "time" (row e) = lookup "start_time" (en_visit e)
  /\ lookup "patient" (row e) = Some (Spec.full_name (en_patient e))
  /\ lookup "performed_by" (row e) = Some (Spec.full_name (en_staff e))
  /\ lookup "visit_type" (row e) = lookup "visit_type" (en_visit e).
Proof.
  unfold row. cbn [fold_left].
  repeat split;
    repeat first [ apply lookup_assign_same
                 | rewrite lookup_assign_other by discriminate ].
  destruct (lookup "_id" (en_visit e)); reflexivity.
Qed.

Lemma entries_In db log_date (e : entry) :
  In e (entries db log_date)
  <-> (In (en_visit e) (collection db "Visit") /\ on_day log_date (en_visit e) = true)
      /\ (In (en_delivery e) (collection db "Delivery")
          /\ join_eq "visit_id" "visit_id" (en_visit e) (en_delivery e) = true)
      /\ (In (en_patient e) (collection db "Patient")
          /\ join_eq "patient_id" "patient_id" (en_visit e) (en_patient e) = true)
      /\ (In (en_staff e) (collection db "Staff")
          /\ join_eq "performed_by" "staff_id" (en_delivery e) (en_staff e) = true).
Proof.
  unfold entries, entries_of, deliveries_of, performers_of, Spec.patients_of.
  rewrite in_flat_map. split.
  - intros [v [Hv H]]. apply filter_In in Hv.
    apply in_flat_map in H. destruct H as [del [Hdel H]]. apply filter_In in Hdel.
    apply in_flat_map in H. destruct H as [pat [Hpat H]]. apply filter_In in Hpat.
    apply in_map_iff in H. destruct H as [stf [<- Hstf]]. apply filter_In in Hstf.
    cbn [en_visit en_delivery en_patient en_staff]. tauto.
  - destruct e as [v del pat stf]. cbn [en_visit en_delivery en_patient en_staff].
    intros [Hv [Hdel [Hpat Hstf]]]. exists v. rewrite filter_In. split; [exact Hv|].
    apply in_flat_map. exists del. rewrite filter_In. split; [exact Hdel|].
    apply in_flat_map. exists pat. rewrite filter_In. split; [exact Hpat|].
    apply in_map_iff. exists stf. rewrite filter_In. split; [reflexivity|exact Hstf].
Qed.

Lemma on_day_text log_date v : on_day log_date v = true -> text_time v = true.
Proof.
  unfold on_day, q_gte_str, query_values, text_time. intros H.
  apply andb_true_iff in H. destruct H as [H _].
  destruct (lookup "start_time" v) as [x|]; [destruct x|]; cbn in H; auto;
    discriminate.
Qed.

Lemma filter_filter_implied {A} (p q : A -> bool) l :
  (forall x, p x = true -> q x = true) -> filter p (filter q l) = filter p l.
Proof.
  intros H. induction l as [|x l IH]; cbn [filter]; auto.
  destruct (q x) eqn:Eq; cbn [filter].
  - now rewrite IH.
  - destruct (p x) eqn:Ep; auto. apply H in Ep. congruence.
Qed.

Lemma entries_text_visits db log_date :
  entries (text_visits db) log_date = entries db log_date.
Proof.
  unfold entries, text_visits at 2. rewrite collection_same.
  rewrite filter_filter_implied by apply on_day_text.
  apply flat_map_ext. intros v. reflexivity.
Qed.

End LogProofs2.

(** X8.  [get_daily_delivery_log] returns one row for each visit of the day
    (its [start_time] is a text between [<date>T00:00:00] and
    [<date>T23:59:59.999999]), each delivery of the visit, each patient
    document of the visit and each staff document of the delivery's
    [performed_by], in that order; a visit without a delivery, a patient or
    a performer gives no row.  The row carries the visit's [_id],
    [start_time] as [time], its [visit_type], and both full names.  The
    aggregation fails exactly when a name joined this way is not a text. *)
Theorem daily_delivery_log_rows {rt : Runtime} (db : database) (log_date : date) :
  Reports.get_daily_delivery_log db log_date
  = (if forallb Log.names_ok (Log.entries db log_date)
     then Ok (map Log.row (Log.entries db log_date))
     else Raise (OperationFailure "$concat: only strings"))
  /\ (forall e,
        In e (Log.entries db log_date)
        <-> (In (Log.en_visit e) (collection db "Visit")
             /\ Log.on_day log_date (Log.en_visit e) = true)
            /\ (In (Log.en_delivery e) (collection db "Delivery")
                /\ join_eq "visit_id" "visit_id" (Log.en_visit e) (Log.en_delivery e)
                   = true)
            /\ (In (Log.en_patient e) (collection db "Patient")
                /\ join_eq "patient_id" "patient_id" (Log.en_visit e) (Log.en_patient e)
                   = true)
            /\ (In (Log.en_staff e) (collection db "Staff")
                /\ join_eq "performed_by" "staff_id" (Log.en_delivery e) (Log.en_staff e)
                   = true))
  /\ (forall e,
        lookup "_id" (Log.row e) = lookup "_id" (Log.en_visit e)
        /\ lookup "time" (Log.row e) = lookup "start_time" (Log.en_visit e)
        /\ lookup "patient" (Log.row e) = Some (Spec.full_name (Log.en_patient e))
        /\ lookup "performed_by" (Log.row e) = Some (Spec.full_name (Log.en_staff e))
        /\ lookup "visit_type" (Log.row e) = lookup "visit_type" (Log.en_visit e)).
Proof.
  split; [apply delivery_log_as_entries|].
  split; [apply entries_In|apply row_fields].
Qed.

(** X9.  The delivery log compares [start_time] as text: a visit whose
    [start_time] is stored as a BSON date, a number or null never enters
    the log.  Deleting those visits leaves [get_daily_delivery_log]
    unchanged for every day. *)
Theorem daily_delivery_log_text_times {rt : Runtime} (db : database) (log_date : date) :
  Reports.get_daily_delivery_log (Log.text_visits db) log_date
  = Reports.get_daily_delivery_log db log_date.
Proof.
  rewrite !delivery_log_as_entries. rewrite entries_text_visits. reflexivity.
Qed.

Lemma Qsum_ones {A} (xs : list A) :
  Qsum (map (fun _ => 1%Q) xs) = inject_Z (Z.of_nat (List.length xs)).
Proof.
  induction xs as [|x xs IH]; [reflexivity|].
  cbn [map Qsum List.length]. rewrite IH. unfold Qplus, inject_Z. cbn [Qnum Qden].
  f_equal. lia.
Qed.

Lemma round_half_even_comp x y : (x == y)%Q -> round_half_even x = round_half_even y.
Proof.
  intros H. unfold round_half_even.
  rewrite (Qfloor_comp x y H).
  assert (Hc : Qcompare (x - inject_Z (Qfloor y)) (1 # 2)
               = Qcompare (y - inject_Z (Qfloor y)) (1 # 2)).
  { apply Qcompare_comp; [|reflexivity]. now rewrite H. }
  now rewrite Hc.
Qed.

Lemma py_round_comp x y n : (x == y)%Q -> py_round x n = py_round y n.
Proof.
  intros H. unfold py_round.
  rewrite (round_half_even_comp (x * inject_Z (10 ^ n)) (y * inject_Z (10 ^ n))); auto.
  now rewrite H.
Qed.

Lemma filter_true {A} (l : list A) : filter (fun _ => true) l = l.
Proof. induction l as [|x l IH]; cbn [filter]; auto. now rewrite IH. Qed.

Section ActivityProofs.
Context {rt : Runtime}.
Import Month.

Lemma toDate_field k (d : dict) :
  E_toDate (E_field k) d
  = if Spec.date_ok (lookup k d)
    then Ok (Some (Spec.date_value (Spec.as_date (lookup k d))))
    else Raise (OperationFailure "$toDate: conversion failed").
Proof.
  unfold E_toDate, E_field, Spec.date_ok, Spec.as_date, Spec.date_value, nullish.
  cbn [bind]. destruct (lookup k d) as [v|]; [destruct v|]; cbn [orb];
    try reflexivity; destruct (convert_to_date _); reflexivity.
Qed.

Lemma dateDiff_visit (v : dict) :
  E_dateDiff_minute (E_toDate (E_field "start_time")) (E_toDate (E_field "end_time")) v
  = if dates_ok v then Ok (Some (duration_value v))
    else Raise (OperationFailure "$toDate: conversion failed").
Proof.
  unfold E_dateDiff_minute, dates_ok, duration_value, duration.
  rewrite !toDate_field.
  destruct (Spec.date_ok (lookup "start_time" v)); cbn [bind andb]; [|reflexivity].
  destruct (Spec.date_ok (lookup "end_time" v)); cbn [bind andb]; [|reflexivity].
  destruct (Spec.as_date (lookup "start_time" v)) as [t|];
    destruct (Spec.as_date (lookup "end_time" v)) as [u|]; reflexivity.
Qed.

Lemma numbers_durations vs :
  numbers (map (fun v => Some (duration_value v)) vs) = durations vs.
Proof.
  unfold numbers, durations. rewrite flat_map_map. apply flat_map_ext.
  intros v. unfold duration_value. destruct (duration v); reflexivity.
Qed.

Lemma numbers_ones (vs : list dict) :
  numbers (map (fun _ => Some (VNum 1)) vs) = map (fun _ => 1%Q) vs.
Proof. induction vs as [|v vs IH]; cbn; auto. now rewrite <- IH. Qed.

Lemma map_result_const {A B} (b : B) (xs : list A) :
  map_result (fun _ => Ok b) xs = Ok (map (fun _ => b) xs).
Proof. induction xs as [|x xs IH]; cbn [map_result map]; auto. now rewrite IH. Qed.

Lemma visit_stats_run db month year :
  aggregate db "Visit"
    (Activity.visit_pipeline (datetime_isoformat (Spec.first_day year month))
                             (datetime_isoformat (Spec.next_first_day year month)))
  = match visits db month year with
    | [] => Ok []
    | vs =>
        if forallb dates_ok vs
        then Ok [ [ ("_id", VNone);
                    ("total_visits", VNum (size vs));
                    ("avg_duration_minutes", mean (durations vs)) ] ]
        else Raise (OperationFailure "$toDate: conversion failed")
    end.
Proof.
  unfold aggregate, Activity.visit_pipeline.
  rewrite run_cons. cbn [S_match bind].
  rewrite (filter_ext _ (in_month month year)).
  2:{ intros v. unfold q_and, in_month. cbn [forallb]. now rewrite andb_true_r. }
  fold (visits db month year).
  destruct (visits db month year) as [|v vs] eqn:E; [reflexivity|].
  rewrite run_cons. unfold S_group_null. cbn [map_result fst snd].
  unfold A_sum at 1. unfold E_const. rewrite map_result_const. cbn [bind].
  rewrite numbers_ones, Qsum_ones.
  unfold A_avg.
  rewrite (map_result_ext _ (fun v => if dates_ok v then Ok (Some (duration_value v))
                                      else Raise (OperationFailure
                                                    "$toDate: conversion failed"))).
  2:{ intros x _. apply dateDiff_visit. }
  rewrite map_result_guard.
  destruct (forallb dates_ok (v :: vs)); cbn [bind run]; [|reflexivity].
  now rewrite numbers_durations.
Qed.

Lemma visit_ids_run vs :
  map_outcome (fun v => subscript v "visit_id") vs
  = if forallb has_id vs
    then Returns (flat_map (fun v => match lookup "visit_id" v with
                                     | Some id => [id]
                                     | None => []
                                     end) vs)
    else Raises (KeyError "visit_id").
Proof.
  induction vs as [|v vs IH]; [reflexivity|].
  cbn [map_outcome forallb flat_map]. unfold subscript at 1, has_id at 1.
  destruct (lookup "visit_id" v); cbn [bindO andb]; [|reflexivity].
  rewrite IH. destruct (forallb has_id vs); reflexivity.
Qed.

Lemma q_in_delivered vs delivery :
  q_in "visit_id"
    (flat_map (fun v => match lookup "visit_id" v with
                        | Some id => [id]
                        | None => []
                        end) vs) delivery
  = delivered vs delivery.
Proof.
  unfold q_in, delivered. induction vs as [|v vs IH]; [reflexivity|].
  cbn [flat_map existsb]. rewrite existsb_app, IH.
  destruct (lookup "visit_id" v); cbn [existsb]; [|reflexivity].
  now rewrite orb_false_r.
Qed.

Lemma average_of_mean vs :
  round_value (py_or (mean (durations vs)) (VNum 0)) 2 = Ok (VNum (average vs)).
Proof.
  unfold average, mean. destruct (durations vs) as [|q qs]; [reflexivity|].
  set (m := (Qsum (q :: qs) / inject_Z (Z.of_nat (List.length (q :: qs))))%Q).
  unfold py_or, truthy. destruct (Qeq_bool m 0) eqn:E; cbn [negb]; [|reflexivity].
  unfold round_value. cbn [py_number]. do 2 f_equal.
  apply py_round_comp. symmetry. now apply Qeq_bool_eq.
Qed.

Lemma activity_report_answer db month year :
  Activity.get_monthly_activity_report db month year = answer db month year.
Proof.
  unfold Activity.get_monthly_activity_report, answer.
  destruct (ReportService.month_range month year) as [range|e] eqn:Hr;
    cbn [of_result bindO]; [|reflexivity].
  apply month_range_ok in Hr. subst range. cbn [fst snd].
  rewrite visit_stats_run. unfold find_all.
  rewrite (filter_ext _ (in_month month year)).
  2:{ intros v. unfold q_and, in_month. cbn [forallb]. now rewrite andb_true_r. }
  fold (visits db month year). rewrite visit_ids_run.
  unfold report. cbv zeta.
  destruct (visits db month year) as [|v vs] eqn:E.
  - cbn [of_result bindO forallb negb flat_map]. unfold dict_get_or.
    cbn [lookup String.eqb Ascii.eqb Bool.eqb].
    change (round_value (py_or (VNum 0) (VNum 0)) 2) with (Ok (VNum (average []))).
    cbn [of_result bindO].
    unfold count_documents. rewrite !filter_true. reflexivity.
  - destruct (forallb dates_ok (v :: vs)); cbn [of_result bindO negb]; [|reflexivity].
    destruct (forallb has_id (v :: vs)); cbn [bindO negb]; [|reflexivity].
    unfold dict_get_or. cbn [lookup String.eqb Ascii.eqb Bool.eqb].
    rewrite average_of_mean. cbn [of_result bindO].
    unfold count_documents.
    rewrite (filter_ext _ (delivered (v :: vs))) by (intros x; apply q_in_delivered).
    rewrite !filter_true. reflexivity.
Qed.

End ActivityProofs.

Section FlaskFacts.
Context {fw : Framework}.

Lemma clean_flask_serializable v : json_clean v = true -> flask_serializable v = true.
Proof.
  induction v using value_ind; cbn [json_clean flask_serializable]; auto;
    try discriminate.
  - induction items as [|[k x] items IH]; cbn [forallb fst snd]; auto.
    intros Hc. apply andb_true_iff in Hc. destruct Hc as [Hx Hc].
    apply andb_true_iff in Hx. destruct Hx as [_ Hx].
    inversion H as [|? ? Hhd Htl]; subst. cbn [snd] in Hhd.
    rewrite (Hhd Hx). cbn [andb]. now apply IH.
  - induction xs as [|x xs IH]; cbn [forallb]; auto.
    intros Hc. apply andb_true_iff in Hc. destruct Hc as [Hx Hc].
    inversion H as [|? ? Hhd Htl]; subst.
    rewrite (Hhd Hx). cbn [andb]. now apply IH.
Qed.

Lemma clean_flask_encode v : json_clean v = true -> flask_encode v = v.
Proof.
  induction v using value_ind; cbn [json_clean flask_encode]; auto;
    try discriminate.
  - intros Hc. f_equal. induction items as [|[k x] items IH]; cbn [map fst snd]; auto.
    cbn [forallb fst snd] in Hc.
    apply andb_true_iff in Hc. destruct Hc as [Hx Hc].
    apply andb_true_iff in Hx. destruct Hx as [_ Hx].
    inversion H as [|? ? Hhd Htl]; subst. cbn [snd] in Hhd.
    rewrite (Hhd Hx). f_equal. now apply IH.
  - intros Hc. f_equal. induction xs as [|x xs IH]; cbn [map]; auto.
    cbn [forallb] in Hc.
    apply andb_true_iff in Hc. destruct Hc as [Hx Hc].
    inversion H as [|? ? Hhd Htl]; subst.
    rewrite (Hhd Hx). f_equal. now apply IH.
Qed.

Lemma flask_jsonify_clean v : json_clean v = true -> flask_jsonify v = Ok v.
Proof.
  intros H. unfold flask_jsonify.
  now rewrite clean_flask_serializable, clean_flask_encode.
Qed.

Lemma object_id_row_fails (rows : list dict) (row : dict) k hex :
  In row rows -> lookup k row = Some (VObjectId hex) ->
  flask_serializable (VList (map VDict rows)) = false.
Proof.
  intros Hin Hk. cbn [flask_serializable]. apply not_true_is_false. intros H.
  rewrite forallb_forall in H. specialize (H (VDict row) (in_map VDict _ _ Hin)).
  cbn [flask_serializable] in H. rewrite forallb_forall in H.
  clear Hin. induction row as [|[k' v] row IH]; [discriminate|].
  cbn [lookup] in Hk. destruct (String.eqb k k').
  - inversion Hk; subst. specialize (H (k', VObjectId hex) (or_introl eq_refl)).
    discriminate.
  - apply IH; auto. intros x Hx. apply H. now right.
Qed.

End FlaskFacts.



Section RouteFacts.
Context {rt : Runtime} {fw : Framework}.

Lemma report_clean db month year : json_clean (Month.report db month year) = true.
Proof. reflexivity. Qed.

Lemma outstanding_row_id db (ip : dict * dict) :
  lookup "_id" (Spec.outstanding_row db ip) = lookup "_id" (fst ip).
Proof.
  destruct ip as [inv pat]. unfold Spec.outstanding_row. cbn [fold_left fst].
  rewrite !lookup_assign_other by discriminate.
  destruct (lookup "_id" inv); reflexivity.
Qed.

End RouteFacts.

(** X15.  [GET /reports/monthly-activity] answers 400 when [month] or [year] is
    missing, not an integer or zero; otherwise 200 with the report, which
    [jsonify] always encodes, unchanged.  It catches nothing: what
    [get_monthly_activity_report] raises escapes the route. *)
Theorem monthly_activity_route {rt : Runtime} {fw : Framework}
    (db : database) (req : request) :
  AppReports.get_monthly_report db req
  = match args_get_int "month" req, args_get_int "year" req with
    | Some m, Some y =>
        if (m =? 0) || (y =? 0)
        then Returns {| status := 400;
                        body := VDict [("error", VStr "Month and Year required")] |}
        else match Activity.get_monthly_activity_report db m y with
             | Returns report => Returns {| status := 200; body := report |}
             | Raises e => Raises e
             end
    | _, _ => Returns {| status := 400;
                         body := VDict [("error", VStr "Month and Year required")] |}
    end.
Proof.
  unfold AppReports.get_monthly_report.
  destruct (args_get_int "month" req) as [m|], (args_get_int "year" req) as [y|];
    cbn [not_int orb]; try reflexivity.
  - destruct ((m =? 0) || (y =? 0)); [reflexivity|].
    rewrite activity_report_answer. unfold Month.answer.
    destruct (ReportService.month_range m y); [|reflexivity].
    destruct (negb (forallb Month.dates_ok (Month.visits db m y))); [reflexivity|].
    destruct (negb (forallb Month.has_id (Month.visits db m y))); [reflexivity|].
    cbn [bindO]. rewrite flask_jsonify_clean by apply report_clean. reflexivity.
  - destruct (m =? 0); reflexivity.
Qed.

(** X11.  [GET /reports/outstanding-balances] hands the rows of
    [get_outstanding_balances] to [jsonify] as they are.  Every row carries
    the [_id] of its invoice; when that is an [ObjectId], [jsonify] raises
    [TypeError], and the route, which catches nothing, lets it and the
    exceptions of the report escape.  Without rows it answers 200. *)
Theorem outstanding_balances_route {rt : Runtime} {fw : Framework} (db : database) :
  (forall e, ReportService.get_outstanding_balances db = Raise e ->
     AppReports.get_outstanding_balances db = Raise e)
  /\ (forall rows, ReportService.get_outstanding_balances db = Ok rows ->
        (forall row, In row rows ->
           exists inv, In inv (collection db "Invoice")
                       /\ lookup "_id" row = lookup "_id" inv)
        /\ (forall row hex, In row rows -> lookup "_id" row = Some (VObjectId hex) ->
              AppReports.get_outstanding_balances db
              = Raise (TypeError (json_error (VList (map VDict rows)))))
        /\ (rows = [] ->
              AppReports.get_outstanding_balances db
              = Ok {| status := 200; body := VList [] |})).
Proof.
  unfold AppReports.get_outstanding_balances. split.
  - intros e He. now rewrite He.
  - intros rows Hrows. rewrite Hrows. cbn [bind].
    apply outstanding_rows in Hrows. split; [|split].
    + intros row Hrow. subst rows. unfold Spec.outstanding_rows in Hrow.
      apply filter_In in Hrow. destruct Hrow as [Hrow _].
      apply in_map_iff in Hrow. destruct Hrow as [ip [<- Hip]].
      apply joined_In in Hip. apply filter_In in Hip.
      exists (fst ip). split; [tauto|]. apply outstanding_row_id.
    + intros row hex Hrow Hid. unfold flask_jsonify.
      now rewrite (object_id_row_fails rows row "_id" hex Hrow Hid).
    + intros ->. reflexivity.
Qed.

Lemma outstanding_balances_route_witness :
  exists rows,
    ReportService.get_outstanding_balances (rt := Iso.runtime) Sample.clinic = Ok rows
    /\ AppReports.get_outstanding_balances (rt := Iso.runtime) (fw := Web.framework)
         Sample.clinic
       = Raise (TypeError (json_error (Framework := Web.framework)
                             (VList (map VDict rows)))).
Proof.
  eexists. split; [vm_compute; reflexivity|].
  refine (proj1 (proj2 (proj2 (outstanding_balances_route (rt := Iso.runtime)
                                 (fw := Web.framework) Sample.clinic) _ _))
            _ "65c1f0a2bb00000000000011" _ _).
  - vm_compute. reflexivity.
  - left. reflexivity.
  - vm_compute. reflexivity.
Defined.

(** X10.  [GET /reports/daily-delivery-log] answers 400 when [date] is missing
    or empty.  Nothing is caught: a [date] that is not an ISO date raises
    [ValueError], an exception of the report escapes, and so does the
    [TypeError] of [jsonify] when a logged visit carries an [ObjectId] as
    [_id], which the projection keeps.  An empty log is answered with 200. *)
Theorem delivery_log_route {rt : Runtime} {fw : Framework}
    (db : database) (req : request) :
  (not_str (args_get "date" req) = true ->
     AppReports.get_delivery_log db req
     = Ok {| status := 400; body := VDict [("error", VStr "Date required")] |})
  /\ (forall s, args_get "date" req = Some s -> s <> "" ->
        match date_fromisoformat s with
        | None =>
            AppReports.get_delivery_log db req
            = Raise (ValueError ("Invalid isoformat string: " ++ repr_str s))
        | Some log_date =>
            (forall e, Reports.get_daily_delivery_log db log_date = Raise e ->
               AppReports.get_delivery_log db req = Raise e)
            /\ (Log.entries db log_date = [] ->
                  AppReports.get_delivery_log db req
                  = Ok {| status := 200; body := VList [] |})
            /\ (forall rows e hex,
                  Reports.get_daily_delivery_log db log_date = Ok rows ->
                  In e (Log.entries db log_date) ->
                  lookup "_id" (Log.en_visit e) = Some (VObjectId hex) ->
                  AppReports.get_delivery_log db req
                  = Raise (TypeError (json_error (VList (map VDict rows)))))
        end).
Proof.
  unfold AppReports.get_delivery_log. split.
  - intros H. rewrite H. reflexivity.
  - intros s Hs Hne. rewrite Hs. cbn [not_str].
    apply String.eqb_neq in Hne. rewrite Hne.
    destruct (date_fromisoformat s) as [log_date|]; [|reflexivity].
    cbn [bind]. split; [|split].
    + intros e He. now rewrite He.
    + intros He. rewrite delivery_log_as_entries, He. reflexivity.
    + intros rows e hex Hrows He Hid. rewrite Hrows. cbn [bind].
      rewrite delivery_log_as_entries in Hrows.
      destruct (forallb Log.names_ok (Log.entries db log_date)); [|discriminate].
      apply Ok_inj in Hrows. subst rows. unfold flask_jsonify.
      rewrite (object_id_row_fails _ (Log.row e) "_id" hex); auto.
      * now apply in_map.
      * destruct (row_fields e) as [H _]. now rewrite H.
Qed.

Lemma delivery_log_route_witness :
  exists rows,
    Reports.get_daily_delivery_log (rt := Iso.runtime) Ward.ward Ward.february_5 = Ok rows
    /\ AppReports.get_delivery_log (rt := Iso.runtime) (fw := Web.framework) Ward.ward
         {| args := [("date", "2024-02-05")] |}
       = Raise (TypeError (json_error (Framework := Web.framework)
                             (VList (map VDict rows)))).
Proof.
  eexists. split; [vm_compute; reflexivity|].
  refine (proj2 (proj2 (proj2 (delivery_log_route (rt := Iso.runtime)
                                 (fw := Web.framework) Ward.ward
                                 {| args := [("date", "2024-02-05")] |})
                          "2024-02-05" eq_refl _))
            _ (Log.mk_entry (Ward.visit 1 1 "2024-02-05T09:00:00" "2024-02-05T09:45:30"
                                        "delivery")
                            (Ward.delivery 1 1 7) (Sample.patient 1 "Ann" "Lee")
                            (Ward.staff 7 "Eve" "Moss"))
            "65c1f0a2dd00000000000001" _ _ _).
  - discriminate.
  - vm_compute. reflexivity.
  - left. reflexivity.
  - vm_compute. reflexivity.
Defined.

Section ActivityProofs2.
Context {rt : Runtime}.
Import Month.

Lemma in_month_text month year v : in_month month year v = true -> Log.text_time v = true.
Proof.
  unfold in_month, q_gte_str, query_values, Log.text_time. intros H.
  apply andb_true_iff in H. destruct H as [H _].
  destruct (lookup "start_time" v) as [x|]; [destruct x|]; cbn in H; auto;
    discriminate.
Qed.

Lemma visits_text_visits db month year :
  visits (Log.text_visits db) month year = visits db month year.
Proof.
  unfold visits, Log.text_visits at 1. rewrite collection_same.
  apply filter_filter_implied. apply in_month_text.
Qed.

Lemma answer_text_visits db month year :
  answer (Log.text_visits db) month year = answer db month year.
Proof.
  unfold answer, report. now rewrite !visits_text_visits.
Qed.

End ActivityProofs2.


(** X13.  In the monthly activity report the lab tests and the prescriptions are
    not those of the month: [total_lab_tests] and [total_prescriptions] are
    the sizes of the whole collections, for every month. *)
Theorem monthly_activity_counts_every_month {rt : Runtime}
    (db : database) (month year : Z) (r : value) :
  Activity.get_monthly_activity_report db month year = Returns r ->
  item "total_lab_tests" (item "metrics" r)
  = VNum (Month.size (collection db "LabTestOrder"))
  /\ item "total_prescriptions" (item "metrics" r)
     = VNum (Month.size (collection db "Prescription")).
Proof.
  rewrite activity_report_answer. unfold Month.answer.
  destruct (ReportService.month_range month year); [|discriminate].
  destruct (negb (forallb Month.dates_ok (Month.visits db month year))); [discriminate|].
  destruct (negb (forallb Month.has_id (Month.visits db month year))); [discriminate|].
  intros H. inversion H. split; reflexivity.
Qed.

Lemma monthly_activity_counts_every_month_witness :
  exists r,
    Activity.get_monthly_activity_report (rt := Iso.runtime) Ward.ward 7 2023 = Returns r
    /\ item "total_lab_tests" (item "metrics" r) = VNum 2
    /\ item "total_prescriptions" (item "metrics" r) = VNum 1.
Proof.
  eexists. split; [vm_compute; reflexivity|].
  apply (monthly_activity_counts_every_month (rt := Iso.runtime) Ward.ward 7 2023).
  vm_compute. reflexivity.
Defined.

(** X14.  The monthly activity report also compares [start_time] as text: the
    visits stored with a BSON date are neither counted nor averaged, and
    their deliveries are not counted.  Deleting them leaves the answer
    unchanged. *)
Theorem monthly_activity_text_times {rt : Runtime} (db : database) (month year : Z) :
  Activity.get_monthly_activity_report (Log.text_visits db) month year
  = Activity.get_monthly_activity_report db month year.
Proof. rewrite !activity_report_answer. apply answer_text_visits. Qed.

Section ListedFacts.
Context {rt : Runtime} {fw : Framework}.
Import Listed.


Lemma match_plain k v : plain v = true -> match_field k v = Ok (q_eq k v).
Proof.
  unfold plain, match_field. destruct v; auto.
  destruct (is_operator items); [discriminate|reflexivity].
Qed.

Lemma patient_name_plain db id :
  plain id = true -> AppPrescriptions.patient_name db id = Ok (name_of db id).
Proof.
  intros Hp. unfold AppPrescriptions.patient_name, name_of, match_either.
  destruct (truthy id); [|reflexivity].
  rewrite !match_plain by auto. cbn [bind]. unfold find_one.
  destruct (find _ (collection db "Patient")) as [doc|]; [|reflexivity].
  cbn [option_map found truthy].
  destruct (only _ doc); reflexivity.
Qed.

Lemma drug_name_plain db id :
  plain id = true -> AppPrescriptions.drug_name db id = Ok (brand_of db id).
Proof.
  intros Hp. unfold AppPrescriptions.drug_name, brand_of, match_either.
  destruct (truthy id); [|reflexivity].
  rewrite !match_plain by auto. cbn [bind]. unfold find_one.
  destruct (find _ (collection db "Drug")) as [doc|]; [|reflexivity].
  cbn [option_map found truthy].
  destruct (only _ doc); reflexivity.
Qed.

Lemma listing_plain db rx :
  plain_ids rx = true -> AppPrescriptions.listing db rx = Ok (entry_of db rx).
Proof.
  unfold plain_ids. intros H. apply andb_true_iff in H. destruct H as [H1 H2].
  unfold AppPrescriptions.listing, entry_of.
  rewrite patient_name_plain, drug_name_plain by auto. reflexivity.
Qed.

Lemma rx_loop db rxs (result : list dict) (seen : list value) :
  forallb plain_ids rxs = true ->
  for_each (AppPrescriptions.rx_step db) rxs (result, seen)
  = match first_unhashable rxs with
    | Some t => Raise (TypeError ("unhashable type: '" ++ t ++ "'"))
    | None =>
        Ok (result ++ map (entry_of db) (firsts seen rxs),
            seen ++ map AppPrescriptions.rx_id (firsts seen rxs))
    end.
Proof.
  revert result seen. induction rxs as [|rx rxs IH]; intros result seen Hp.
  - cbn. now rewrite !app_nil_r.
  - cbn [forallb] in Hp. apply andb_true_iff in Hp. destruct Hp as [Hrx Hp].
    cbn [for_each first_unhashable firsts].
    unfold AppPrescriptions.rx_step at 1, set_contains. cbn [fst snd].
    destruct (unhashable_type (AppPrescriptions.rx_id rx)); cbn [bind]; [reflexivity|].
    destruct (existsb (fun s => key_eqb s (AppPrescriptions.rx_id rx)) seen);
      cbn [bind].
    + now rewrite IH.
    + rewrite listing_plain by auto. cbn [bind]. rewrite IH by auto.
      destruct (first_unhashable rxs); [reflexivity|].
      cbn [map]. now rewrite <- !app_assoc.
Qed.







End ListedFacts.

(** X16.  [GET /prescriptions/all] reads at most 100 prescriptions and lists the
    first of each id.  When no patient or drug id it reads is a document of
    query operators, it answers 200 with the sanitized list, or, when the id
    of a prescription it read cannot be hashed (it is a document or an
    array), 500 with the message of the [TypeError] of [rx_id in seen_ids],
    after one line in the log.  The database is not changed. *)
Theorem all_prescriptions_route {rt : Runtime} {fw : Framework} (w : world) :
  forallb Listed.plain_ids (AppPrescriptions.fetched (w_db w)) = true ->
  AppPrescriptions.get_all_prescriptions w
  = match Listed.first_unhashable (AppPrescriptions.fetched (w_db w)) with
    | Some t =>
        (Ok {| status := 500;
               body := VDict [("error", VStr ("unhashable type: '" ++ t ++ "'"))] |},
         {| w_db := w_db w;
            w_log := w_log w ++ ["Error fetching all prescriptions"] |})
    | None =>
        (Ok {| status := 200;
               body := _sanitize_for_json
                         (VList (map VDict
                                   (map (Listed.entry_of (w_db w))
                                        (Listed.firsts []
                                           (AppPrescriptions.fetched (w_db w)))))) |},
         w)
    end.
Proof.
  intros Hp.
  unfold AppPrescriptions.get_all_prescriptions, try_except, bindM, get_db, lift, ret.
  rewrite rx_loop by exact Hp.
  destruct (Listed.first_unhashable (AppPrescriptions.fetched (w_db w))) as [t|].
  - unfold logger_exception. cbn [str_exn]. reflexivity.
  - cbn [fst app]. rewrite flask_jsonify_clean by apply sanitize_clean. reflexivity.
Qed.

Lemma all_prescriptions_route_witness :
  AppPrescriptions.get_all_prescriptions (rt := Iso.runtime) (fw := Web.framework)
    Pharmacy.world
  = (Ok {| status := 200;
           body := VList
                     [ VDict [ ("prescription_id", VNum 5);
                               ("patient_name", VStr "Ann Lee");
                               ("drug_name", VStr "Amoxil");
                               ("dosage", VStr "one a day");
                               ("dispensed_at", VNone) ];
                       VDict [ ("prescription_id", VNum 4);
                               ("patient_name", VStr "Unknown Patient");
                               ("drug_name", VStr "Unknown Drug");
                               ("dosage", VStr "");
                               ("dispensed_at", VNone) ] ] |},
     Pharmacy.world).
Proof.
  rewrite (all_prescriptions_route (rt := Iso.runtime) (fw := Web.framework)
             Pharmacy.world).
  - vm_compute. reflexivity.
  - vm_compute. reflexivity.
Defined.



Section ConnectFacts.
Context {fw : Framework}.
Import Holders.

Lemma text_match k s d : q_eq k (VStr s) d = true -> exists v, lookup k d = Some v.
Proof.
  unfold q_eq, query_values. destruct (lookup k d) as [v|]; eauto.
  cbn. discriminate.
Qed.

Lemma without_id_lookup k d :
  String.eqb k "_id" = false -> lookup k (without_id d) = lookup k d.
Proof.
  intros Hk. unfold without_id.
  induction d as [|[k' v] d IH]; cbn [filter lookup fst]; auto.
  destruct (String.eqb k' "_id") eqn:E; cbn [negb lookup].
  - destruct (String.eqb k k') eqn:E'; auto.
    apply String.eqb_eq in E'. subst. congruence.
  - destruct (String.eqb k k'); auto.
Qed.

Lemma found_text k s d :
  String.eqb k "_id" = false -> q_eq k (VStr s) d = true ->
  found (Some (without_id d)) = true.
Proof.
  intros Hk Hq. apply text_match in Hq. destruct Hq as [v Hv].
  rewrite <- (without_id_lookup k d Hk) in Hv.
  cbn [found truthy]. destruct (without_id d); [discriminate|reflexivity].
Qed.

Lemma find_one_text db name k s :
  find_one_by db name k (VStr s)
  = Ok (option_map without_id (find (q_eq k (VStr s)) (collection db name))).
Proof. reflexivity. Qed.

Lemma search_text db s names :
  AppConnect.search db (VStr s) names
  = Ok match first_holder db s names with
       | Some (name, d) => Some (name, without_id d)
       | None => None
       end.
Proof.
  induction names as [|name rest IH]; [reflexivity|].
  cbn [AppConnect.search first_holder]. unfold holder.
  destruct (existsb (String.eqb name) (list_collection_names db)); [|exact IH].
  rewrite find_one_text. cbn [bind].
  destruct (find (q_eq "token" (VStr s)) (collection db name)) as [d|] eqn:E;
    cbn [option_map]; [|exact IH].
  apply find_some in E. destruct E as [_ E].
  now rewrite (found_text "token" s d eq_refl E).
Qed.

Lemma search_users_text db s :
  AppConnect.search_users db (VStr s)
  = Ok match holder db "api_token" s "users" with
       | Some d => Some ("users", without_id d)
       | None => None
       end.
Proof.
  unfold AppConnect.search_users, holder.
  destruct (existsb (String.eqb "users") (list_collection_names db)); [|reflexivity].
  rewrite find_one_text. cbn [bind].
  destruct (find (q_eq "api_token" (VStr s)) (collection db "users")) as [d|] eqn:E;
    cbn [option_map]; [|reflexivity].
  apply find_some in E. destruct E as [_ E].
  now rewrite (found_text "api_token" s d eq_refl E).
Qed.

End ConnectFacts.

(** X18.  [/connect] with a token in the query string looks for a document whose
    [token] is that text in [auth_tokens], [tokens], [sessions] and
    [api_tokens], in this order and only in those that exist, then for a
    user whose [api_token] it is.  It answers 404 when there is none;
    otherwise 200 with the name of the first collection that holds one and
    its first such document without [_id], or 500, after a line in the log,
    when [jsonify] cannot encode that document.  The database is not
    changed and no exception escapes. *)
Theorem connect_text_token {fw : Framework}
    (req : json_request) (w : world) (token : string) :
  args_get "token" (jr_request req) = Some token ->
  token <> "" ->
  AppConnect.connect_with_token req w
  = match Holders.located (w_db w) token with
    | None =>
        (Ok {| status := 404; body := VDict [("error", VStr "token not found")] |}, w)
    | Some (source, d) =>
        let data := VDict [ ("status", VStr "ok"); ("source", VStr source);
                            ("data", VDict (without_id d)) ] in
        if flask_serializable data
        then (Ok {| status := 200; body := flask_encode data |}, w)
        else (Ok {| status := 500;
                    body := VDict [ ("error", VStr "internal server error");
                                    ("detail", VStr (json_error data)) ] |},
              {| w_db := w_db w; w_log := w_log w ++ ["Error in /connect endpoint"] |})
    end.
Proof.
  intros Hargs Hne. apply String.eqb_neq in Hne.
  unfold AppConnect.connect_with_token, AppConnect.connect, AppConnect.read_token.
  rewrite Hargs. cbn [truthy]. rewrite Hne. cbn [negb andb bindO truthy].
  rewrite Hne. cbn [negb].
  rewrite search_text. cbn [of_result bindO]. unfold Holders.located.
  destruct (Holders.first_holder (w_db w) token AppConnect.candidate_collections)
    as [[source d]|].
  - cbn [bindO]. cbv zeta. unfold flask_jsonify at 1.
    destruct (flask_serializable _); cbn [of_result bindO]; reflexivity.
  - rewrite search_users_text. cbn [of_result bindO].
    destruct (Holders.holder (w_db w) "api_token" token "users") as [d|].
    + cbv zeta. unfold flask_jsonify at 1.
      destruct (flask_serializable _); cbn [of_result bindO]; reflexivity.
    + reflexivity.
Qed.

Lemma connect_text_token_witness :
  AppConnect.connect_with_token (fw := Web.framework)
    {| jr_request := {| args := [("token", "abc")] |};
       jr_is_json := false; jr_json := None |}
    {| w_db := Holders.registry; w_log := [] |}
  = (Ok {| status := 200;
           body := VDict [ ("status", VStr "ok"); ("source", VStr "tokens");
                           ("data", VDict [ ("token", VStr "abc");
                                            ("user", VStr "eve") ]) ] |},
     {| w_db := Holders.registry; w_log := [] |}).
Proof.
  rewrite (connect_text_token (fw := Web.framework) _ _ "abc").
  - vm_compute. reflexivity.
  - reflexivity.
  - discriminate.
Defined.

(** X19.  [/connect] without a token in the query string answers 400 when the
    request is not JSON, when its body does not parse or is false (null,
    zero, empty), and when the body is an object without a true [token].  A
    body that is true and not an object (a list, a number, a text) makes
    [request.get_json().get] raise [AttributeError], answered with 500 after
    a line in the log. *)
Theorem connect_token_required {fw : Framework} (req : json_request) (w : world) :
  not_str (args_get "token" (jr_request req)) = true ->
  let required :=
    (Ok {| status := 400; body := VDict [("error", VStr "token parameter required")] |},
     w) in
  match (if jr_is_json req then jr_json req else None) with
  | None => AppConnect.connect_with_token req w = required
  | Some parsed =>
      if truthy parsed then
        match parsed with
        | VDict d =>
            truthy (dict_get "token" d) = false ->
            AppConnect.connect_with_token req w = required
        | _ =>
            AppConnect.connect_with_token req w
            = (Ok {| status := 500;
                     body := VDict [ ("error", VStr "internal server error");
                                     ("detail", VStr (no_attribute parsed)) ] |},
               {| w_db := w_db w;
                  w_log := w_log w ++ ["Error in /connect endpoint"] |})
        end
      else AppConnect.connect_with_token req w = required
  end.
Proof.
  intros Hnot required.
  assert (Ht : truthy match args_get "token" (jr_request req) with
                      | Some s => VStr s
                      | None => VNone
                      end = false).
  { destruct (args_get "token" (jr_request req)) as [s|]; [|reflexivity].
    cbn [not_str] in Hnot. cbn [truthy]. now rewrite Hnot. }
  unfold AppConnect.connect_with_token, AppConnect.connect, AppConnect.read_token.
  rewrite Ht. cbn [negb andb].
  destruct (jr_is_json req).
  - destruct (jr_json req) as [parsed|]; [|reflexivity].
    destruct (truthy parsed) eqn:Hp.
    + destruct parsed; try reflexivity.
      intros Hd. cbn [bindO]. now rewrite Hd.
    + cbn [bindO]. now rewrite Hp.
  - cbn [bindO]. now rewrite Ht.
Qed.

Lemma connect_token_required_witness :
  AppConnect.connect_with_token (fw := Web.framework)
    {| jr_request := {| args := [] |}; jr_is_json := true;
       jr_json := Some (VList [VStr "abc"]) |}
    {| w_db := Holders.registry; w_log := [] |}
  = (Ok {| status := 500;
           body := VDict [ ("error", VStr "internal server error");
                           ("detail", VStr "object has no attribute 'get'") ] |},
     {| w_db := Holders.registry; w_log := ["Error in /connect endpoint"] |}).
Proof.
  apply (connect_token_required (fw := Web.framework)
           {| jr_request := {| args := [] |}; jr_is_json := true;
              jr_json := Some (VList [VStr "abc"]) |}
           {| w_db := Holders.registry; w_log := [] |}).
  reflexivity.
Defined.

Section DetailsFacts.
Context {rt : Runtime} {fw : Framework}.

Lemma number_match k n d : q_eq k (VNum n) d = true -> d <> [].
Proof. intros H ->. cbn in H. discriminate. Qed.

Lemma find_found (q : dict -> bool) (l : list dict) :
  (forall d, q d = true -> d <> []) ->
  found (find q l) = false -> find q l = None.
Proof.
  intros Hq. destruct (find q l) as [d|] eqn:E; [|reflexivity].
  apply find_some in E. destruct E as [_ E]. apply Hq in E.
  destruct d; [congruence|]. cbn. discriminate.
Qed.

Lemma find_never (q : dict -> bool) (l : list dict) :
  (forall d, In d l -> q d = false) -> find q l = None.
Proof.
  intros H. destruct (find q l) as [d|] eqn:E; [|reflexivity].
  apply find_some in E. destruct E as [Hin E]. apply H in Hin. congruence.
Qed.

Lemma find_one_whole db name q : find_one db name q (fun d => d) = find q (collection db name).
Proof. unfold find_one. now destruct (find q (collection db name)). Qed.

Lemma prescription_of_some db id rx :
  AppDetails.prescription_of db id = Some rx ->
  In rx (collection db "Prescription")
  /\ (q_eq "prescription_id" (VNum (inject_Z id)) rx = true
      \/ q_eq "Prescription_Id" (VNum (inject_Z id)) rx = true).
Proof.
  unfold AppDetails.prescription_of. rewrite !find_one_whole.
  destruct (negb (found (find _ _))); intros H; apply find_some in H; tauto.
Qed.

Lemma prescription_of_missing db id :
  found (AppDetails.prescription_of db id) = false
  <-> forall rx, In rx (collection db "Prescription") ->
        q_eq "prescription_id" (VNum (inject_Z id)) rx = false
        /\ q_eq "Prescription_Id" (VNum (inject_Z id)) rx = false.
Proof.
  unfold AppDetails.prescription_of. rewrite !find_one_whole. split.
  - intros H.
    destruct (found (find (q_eq "prescription_id" (VNum (inject_Z id)))
                          (collection db "Prescription"))) eqn:E1;
      cbn [negb] in H; [congruence|].
    apply find_found in E1; [|intros d; apply number_match].
    apply find_found in H; [|intros d; apply number_match].
    intros rx Hrx. split.
    + destruct (q_eq "prescription_id" _ rx) eqn:E; [|reflexivity].
      apply (find_none _ _ E1) in Hrx. congruence.
    + destruct (q_eq "Prescription_Id" _ rx) eqn:E; [|reflexivity].
      apply (find_none _ _ H) in Hrx. congruence.
  - intros H.
    assert (H1 : find (q_eq "prescription_id" (VNum (inject_Z id)))
                      (collection db "Prescription") = None)
      by (apply find_never; intros d Hd; now apply H).
    assert (H2 : find (q_eq "Prescription_Id" (VNum (inject_Z id)))
                      (collection db "Prescription") = None)
      by (apply find_never; intros d Hd; now apply H).
    rewrite H1. cbn [found negb]. rewrite H2. reflexivity.
Qed.

Lemma find_either_in db name k1 k2 v d :
  AppDetails.find_either db name k1 k2 v = Ok (Some d) -> In d (collection db name).
Proof.
  unfold AppDetails.find_either. intros H.
  apply bind_ok in H. destruct H as [q1 [_ H]]. rewrite find_one_whole in H.
  destruct (found (find q1 (collection db name))).
  - apply Ok_inj in H. now apply find_some in H.
  - apply bind_ok in H. destruct H as [q2 [_ H]]. rewrite find_one_whole in H.
    apply Ok_inj in H. now apply find_some in H.
Qed.

Lemma related_in db name k1 k2 v d :
  AppDetails.related db name k1 k2 v = Ok (Some d) -> In d (collection db name).
Proof.
  unfold AppDetails.related. destruct (truthy v); [apply find_either_in|discriminate].
Qed.

Lemma related_from db name k1 k2 v doc :
  AppDetails.related db name k1 k2 v = Ok doc -> taken_from db name doc.
Proof. destruct doc; [apply related_in|intros _; exact I]. Qed.

Lemma sanitized_clean doc : json_clean (AppDetails.sanitized doc) = true.
Proof. apply sanitize_clean. Qed.

(** The two ways the body of the [try] ends without an exception. *)
Lemma details_cases db id resp :
  AppDetails.details db id = Ok resp ->
  (found (AppDetails.prescription_of db id) = false
   /\ resp = {| status := 404; body := VDict [("error", VStr "Prescription not found")] |})
  \/ (exists rx patient drug visit dispensed_by,
        AppDetails.prescription_of db id = Some rx
        /\ taken_from db "Patient" patient /\ taken_from db "Drug" drug
        /\ taken_from db "Visit" visit /\ taken_from db "Staff" dispensed_by
        /\ resp = {| status := 200;
                     body := VDict [ ("prescription", _sanitize_for_json (VDict rx));
                                     ("patient", AppDetails.sanitized patient);
                                     ("drug", AppDetails.sanitized drug);
                                     ("visit", AppDetails.sanitized visit);
                                     ("dispensed_by", AppDetails.sanitized dispensed_by) ] |}).
Proof.
  unfold AppDetails.details.
  destruct (found (AppDetails.prescription_of db id)) eqn:Ef; cbn [negb].
  2:{ intros H. left. split; [reflexivity|]. cbn in H. now apply Ok_inj in H. }
  intros H. right.
  destruct (AppDetails.prescription_of db id) as [rx|] eqn:Erx; [|discriminate Ef].
  apply bind_ok in H. destruct H as [patient [Hp H]].
  apply bind_ok in H. destruct H as [drug [Hd H]].
  apply bind_ok in H. destruct H as [visit [Hv H]].
  apply bind_ok in H. destruct H as [staff [Hs H]].
  apply bind_ok in H. destruct H as [patient' [Hp' H]].
  rewrite flask_jsonify_clean in H.
  2:{ cbn [json_clean forallb fst snd String.eqb Ascii.eqb Bool.eqb negb andb].
      now rewrite !sanitized_clean. }
  cbn [bind] in H. apply Ok_inj in H.
  apply related_from in Hp, Hd, Hv, Hs.
  assert (Hf : taken_from db "Patient" patient').
  { destruct (negb (found patient) && found visit).
    - destruct (truthy _).
      + destruct patient'; [now apply find_either_in in Hp'|exact I].
      + now apply Ok_inj in Hp'; subst.
    - now apply Ok_inj in Hp'; subst. }
  exists rx, patient', drug, visit, staff. repeat split; auto.
Qed.

Lemma details_raise db id e :
  AppDetails.details db id = Raise e -> found (AppDetails.prescription_of db id) = true.
Proof.
  unfold AppDetails.details.
  destruct (found (AppDetails.prescription_of db id)); [reflexivity|].
  cbn. discriminate.
Qed.

End DetailsFacts.

(** X20.  [GET /prescriptions/<id>/details] answers 404 with
    [{"error": "Prescription not found"}], the database and the log
    unchanged, exactly when no prescription has the number as its
    [prescription_id] or as its [Prescription_Id]. *)
Theorem prescription_details_not_found {rt : Runtime} {fw : Framework}
    (w : world) (prescription_id : Z) :
  AppDetails.get_prescription_details prescription_id w
  = (Ok {| status := 404; body := VDict [("error", VStr "Prescription not found")] |}, w)
  <-> forall rx, In rx (collection (w_db w) "Prescription") ->
        q_eq "prescription_id" (VNum (inject_Z prescription_id)) rx = false
        /\ q_eq "Prescription_Id" (VNum (inject_Z prescription_id)) rx = false.
Proof.
  rewrite <- prescription_of_missing.
  unfold AppDetails.get_prescription_details, try_except, bindM, get_db, lift, ret.
  destruct (AppDetails.details (w_db w) prescription_id) as [resp|e] eqn:E.
  - apply details_cases in E.
    destruct E as [[Hf ->]|[rx [p [d [v [s [Hrx [_ [_ [_ [_ ->]]]]]]]]]]].
    + split; auto.
    + split.
      * intros H. inversion H.
      * intros H. rewrite Hrx in H.
        apply prescription_of_some in Hrx. destruct Hrx as [_ Hq].
        destruct rx; [|discriminate H].
        destruct Hq as [Hq|Hq]; now apply number_match in Hq.
  - apply details_raise in E. split.
    + unfold logger_exception, flask_jsonify. cbn. intros H. inversion H.
    + congruence.
Qed.

(** X21.  [GET /prescriptions/<id>/details] always answers: 200, 404 or 500,
    never an exception, and the database is unchanged.  The body has no
    [_id] and no BSON value at any depth.  With 200 nothing is logged and
    the body has exactly the keys [prescription], [patient], [drug],
    [visit] and [dispensed_by]: the sanitized prescription of that id and,
    for each of the others, null or a sanitized document of [Patient],
    [Drug], [Visit] and [Staff].  With 500 the body is [{"error": msg}]
    and one line is logged. *)
Theorem prescription_details_answer {rt : Runtime} {fw : Framework}
    (w : world) (prescription_id : Z) :
  exists resp w',
    AppDetails.get_prescription_details prescription_id w = (Ok resp, w')
    /\ w_db w' = w_db w
    /\ json_clean (body resp) = true
    /\ (status resp = 200 \/ status resp = 404 \/ status resp = 500)
    /\ (status resp = 200 ->
        w' = w
        /\ exists rx patient drug visit dispensed_by,
             In rx (collection (w_db w) "Prescription")
             /\ (q_eq "prescription_id" (VNum (inject_Z prescription_id)) rx = true
                 \/ q_eq "Prescription_Id" (VNum (inject_Z prescription_id)) rx = true)
             /\ taken_from (w_db w) "Patient" patient /\ taken_from (w_db w) "Drug" drug
             /\ taken_from (w_db w) "Visit" visit /\ taken_from (w_db w) "Staff" dispensed_by
             /\ body resp
                = VDict [ ("prescription", _sanitize_for_json (VDict rx));
                          ("patient", AppDetails.sanitized patient);
                          ("drug", AppDetails.sanitized drug);
                          ("visit", AppDetails.sanitized visit);
                          ("dispensed_by", AppDetails.sanitized dispensed_by) ])
    /\ (status resp = 500 ->
        exists msg,
          body resp = VDict [("error", VStr msg)]
          /\ w_log w' = w_log w ++ ["Error fetching prescription details"]).
Proof.
  unfold AppDetails.get_prescription_details, try_except, bindM, get_db, lift, ret.
  destruct (AppDetails.details (w_db w) prescription_id) as [resp|e] eqn:E.
  - exists resp, w. split; [reflexivity|]. split; [reflexivity|].
    apply details_cases in E.
    destruct E as [[Hf ->]|[rx [p [d [v [s [Hrx [Hp [Hd [Hv [Hs ->]]]]]]]]]]]; cbn [status body].
    + split; [reflexivity|]. split; [tauto|]. split; discriminate.
    + split.
      { cbn [json_clean forallb fst snd String.eqb Ascii.eqb Bool.eqb negb andb].
        rewrite !sanitized_clean. now rewrite sanitize_clean. }
      split; [tauto|]. split; [|discriminate].
      intros _. split; [reflexivity|].
      apply prescription_of_some in Hrx. destruct Hrx as [Hin Hq].
      exists rx, p, d, v, s. tauto.
  - unfold logger_exception, flask_jsonify. cbn.
    eexists. eexists. split; [reflexivity|]. cbn [w_db w_log status body].
    split; [reflexivity|]. split; [reflexivity|]. split; [tauto|].
    split; [discriminate|]. intros _. eauto.
Qed.

Section SpellingFacts.
Context {rt : Runtime} {fw : Framework}.

Lemma split_cons sep s : exists part parts, split sep s = part :: parts.
Proof.
  induction s as [|c rest IH]; cbn [split]; [eauto|].
  destruct (Ascii.eqb c sep); [eauto|].
  destruct IH as [part [parts ->]]. eauto.
Qed.

Lemma underscore_uncased c : Ascii.eqb c "_" = true -> is_lower c || is_upper c = false.
Proof. intros H. apply Ascii.eqb_eq in H. now subst. Qed.

Lemma cased_not_underscore c : is_lower c || is_upper c = true -> Ascii.eqb c "_" = false.
Proof.
  intros H. destruct (Ascii.eqb c "_") eqn:E; [|reflexivity].
  apply underscore_uncased in E. congruence.
Qed.

Lemma concat_cons sep x y ys :
  String.concat sep (x :: y :: ys) = (x ++ sep ++ String.concat sep (y :: ys))%string.
Proof. reflexivity. Qed.

Lemma concat_head c sep x xs :
  String.concat sep (String c x :: xs) = String c (String.concat sep (x :: xs)).
Proof. destruct xs; reflexivity. Qed.

(** The words of a name, each capitalised: what [title] gives. *)
Lemma title_parts s :
  word_name s = true ->
  forall part parts, split "_" s = part :: parts ->
    title_from true s
    = String.concat "_" (map_string lower part :: map capitalize parts)
    /\ title_from false s = String.concat "_" (capitalize part :: map capitalize parts).
Proof.
  induction s as [|c rest IH]; intros Hw part parts Hs.
  - cbn in Hs. inversion Hs; subst. now cbn.
  - cbn [word_name] in Hw. apply andb_true_iff in Hw. destruct Hw as [Hc Hw].
    cbn [split] in Hs. cbn [title_from].
    destruct (split_cons "_" rest) as [p [ps Hrest]].
    destruct (IH Hw p ps Hrest) as [IHt IHf].
    destruct (Ascii.eqb c "_") eqn:E.
    + rewrite (underscore_uncased c E). apply Ascii.eqb_eq in E. subst c.
      inversion Hs; subst. rewrite Hrest. cbn [map map_string capitalize].
      rewrite IHf. split; reflexivity.
    + rewrite orb_false_r in Hc. rewrite Hc.
      rewrite Hrest in Hs. inversion Hs; subst.
      cbn [map_string capitalize]. rewrite !concat_head. rewrite IHt.
      split; [|reflexivity].
      f_equal.
Qed.

Lemma cap_field_title s :
  word_name s = true -> String.concat "_" (map capitalize (split "_" s)) = title s.
Proof.
  intros Hw. destruct (split_cons "_" s) as [p [ps Hs]].
  rewrite Hs. cbn [map]. symmetry. now apply (title_parts s Hw p ps Hs).
Qed.

Lemma upper_cased c : is_lower c || is_upper c = true -> is_upper (upper c) = true.
Proof.
  destruct c as [[] [] [] [] [] [] [] []]; vm_compute; congruence.
Qed.

Lemma lower_cased c : is_lower c || is_upper c = true -> is_lower (lower c) = true.
Proof.
  destruct c as [[] [] [] [] [] [] [] []]; vm_compute; congruence.
Qed.

Lemma upper_upper c : upper (upper c) = upper c.
Proof. destruct c as [[] [] [] [] [] [] [] []]; reflexivity. Qed.

Lemma lower_lower c : lower (lower c) = lower c.
Proof. destruct c as [[] [] [] [] [] [] [] []]; reflexivity. Qed.

Lemma title_title b s : title_from b (title_from b s) = title_from b s.
Proof.
  revert b. induction s as [|c rest IH]; intros b; [reflexivity|].
  cbn [title_from]. destruct (is_lower c || is_upper c) eqn:E.
  - cbn [title_from]. destruct b.
    + rewrite (lower_cased c E). cbn [orb]. now rewrite lower_lower, IH.
    + rewrite (upper_cased c E). rewrite orb_true_r. now rewrite upper_upper, IH.
  - cbn [title_from]. rewrite E. now rewrite IH.
Qed.

Lemma title_idem s : title (title s) = title s.
Proof. apply title_title. Qed.

Lemma title_word b s : word_name s = true -> word_name (title_from b s) = true.
Proof.
  revert b. induction s as [|c rest IH]; intros b Hw; [reflexivity|].
  cbn [word_name] in Hw. apply andb_true_iff in Hw. destruct Hw as [Hc Hw].
  cbn [title_from]. destruct (is_lower c || is_upper c) eqn:E.
  - cbn [word_name]. rewrite IH by auto. rewrite andb_true_r.
    destruct b.
    + now rewrite (lower_cased c E).
    + rewrite (upper_cased c E). now rewrite orb_true_r.
  - cbn [word_name]. rewrite IH by auto. rewrite E. cbn [orb] in Hc |- *. now rewrite Hc.
Qed.

Lemma lowercase_word s : lowercase_name s = true -> word_name s = true.
Proof.
  induction s as [|c rest IH]; [reflexivity|]. cbn [lowercase_name word_name].
  intros H. apply andb_true_iff in H. destruct H as [Hc H]. rewrite IH by auto.
  rewrite andb_true_r. apply orb_true_iff in Hc. destruct Hc as [->| ->]; [reflexivity|].
  apply orb_true_r.
Qed.

Lemma get_field_word (d : dict) name :
  word_name name = true -> d <> [] ->
  AppDetails.get_field (Some d) name
  = match lookup name d with
    | Some v => v
    | None => dict_get (title name) d
    end.
Proof.
  intros Hw Hd. unfold AppDetails.get_field.
  assert (Hf : found (Some d) = true) by (destruct d; [congruence|reflexivity]).
  rewrite Hf. cbn [negb]. rewrite (cap_field_title name Hw).
  destruct (lookup name d); [reflexivity|]. unfold dict_get.
  destruct (lookup (title name) d); reflexivity.
Qed.

End SpellingFacts.

(** X22.  The helper [get_field] of the details route reads two spellings only.
    For a field name of small letters and underscores,
    [get_field(doc, name) or get_field(doc, name.title())] is
    [doc.get(name) or doc.get(name.title())]: the third spelling it tries,
    each word capitalised, is the second one. *)
Theorem get_field_spellings {rt : Runtime} {fw : Framework}
    (doc : option dict) (name : string) :
  lowercase_name name = true ->
  py_or (AppDetails.get_field doc name) (AppDetails.get_field doc (title name))
  = match doc with
    | Some d => py_or (dict_get name d) (dict_get (title name) d)
    | None => VNone
    end.
Proof.
  intros Hl. destruct doc as [d|]; [|reflexivity].
  destruct d as [|kv d]; [reflexivity|].
  assert (Hw := lowercase_word name Hl).
  rewrite (get_field_word (kv :: d) name Hw) by discriminate.
  rewrite (get_field_word (kv :: d) (title name) (title_word false name Hw)) by discriminate.
  rewrite title_idem.
  unfold dict_get, py_or.
  destruct (lookup name (kv :: d)) as [v|]; [|now destruct (lookup (title name) (kv :: d)); destruct (truthy _)].
  destruct (lookup (title name) (kv :: d)); reflexivity.
Qed.

Lemma get_field_spellings_witness :
  py_or (AppDetails.get_field (Some [("Visit_Id", VNum 2)]) "visit_id")
        (AppDetails.get_field (Some [("Visit_Id", VNum 2)]) "Visit_Id")
  = VNum 2.
Proof.
  exact (get_field_spellings (rt := Iso.runtime) (fw := Web.framework)
           (Some [("Visit_Id", VNum 2)]) "visit_id" eq_refl).
Defined.

